(** * Agentic assistant: keyword router, document search and the RAG sub-graph

    A shallow embedding of
      - [src/graph.py]        ([router_node], the specialist nodes,
                               [build_workflow]),
      - [src/tools/docs.py]   ([_calculate_similarity], [_search_documents],
                               [retrieve_documents], the browsing tools),
      - [src/rag/graph.py]    ([retrieve_node], [grade_node], [rewrite_node],
                               [generate_node], [should_continue_retrieve],
                               [compile_rag_graph], [create_initial_rag_state]),
      - [src/tools/finance.py] and [src/tools/health.py],
    followed by the properties proved about them.

    Of the libraries the code calls, LangGraph's graph builder is modelled
    with the checks [add_node] and [add_edge] make, its runtime is left
    open, and LangChain's prompt templates are an interface with one law.

    Python values are modelled as follows.
      - [str] is a [string] holding the UTF-8 encoding of the text; operations
        that count characters ([len], slices) skip continuation bytes.
      - [int] is [Z]; list lengths are [nat].
      - [float] and the library calls on text whose result depends on the
        Unicode tables ([str.lower], [str.upper], [str.strip], [str.split])
        or on [difflib] are taken through interfaces ([PyStr], [PyFloat],
        [Difflib]); the code is translated against the interfaces and run on
        the instances given further down.
      - an exception is a value of [exn]; a [try]/[except Exception] block is
        a [match] on a [result]. *)

From Stdlib Require Import String Ascii List ZArith QArith Bool Lia.
From Stdlib Require Import Sorted Permutation DecimalString.
Import ListNotations.

Local Close Scope Q_scope.
Local Open Scope nat_scope.
Local Open Scope list_scope.
Local Open Scope string_scope.

(* ===================================================================== *)
(** ** Python values                                                     *)
(* ===================================================================== *)

Module Py.

(** Exceptions, with the text [str(e)] gives. *)
Inductive exn : Type :=
| AttributeError (msg : string)
| KeyError (key : string)
| TypeError (msg : string)
| ValueError (msg : string)
| Exception (msg : string).

Definition str_exn (e : exn) : string :=
  match e with
  | AttributeError msg => msg
  | KeyError key => "'" ++ key ++ "'"
  | TypeError msg => msg
  | ValueError msg => msg
  | Exception msg => msg
  end.

Inductive result (A : Type) : Type :=
| Ok (a : A)
| Raise (e : exn).
Arguments Ok {A} a.
Arguments Raise {A} e.

Definition bind {A B : Type} (r : result A) (k : A -> result B) : result B :=
  match r with
  | Ok a => k a
  | Raise e => Raise e
  end.

(** [needle in hay] on strings. *)
Fixpoint contains (needle hay : string) : bool :=
  String.prefix needle hay ||
  match hay with
  | EmptyString => false
  | String _ rest => contains needle rest
  end.

(** [x in xs] on a list of strings. *)
Definition str_in (x : string) (xs : list string) : bool :=
  existsb (String.eqb x) xs.

(** A UTF-8 continuation byte, [10xxxxxx]. *)
Definition is_cont (c : ascii) : bool :=
  let n := nat_of_ascii c in (128 <=? n)%nat && (n <? 192)%nat.

(** [len(s)]: the number of code points. *)
Fixpoint len (s : string) : nat :=
  match s with
  | EmptyString => O
  | String c rest => if is_cont c then len rest else S (len rest)
  end.

(** [s[:n]]: the first [n] code points. *)
Fixpoint take (n : nat) (s : string) : string :=
  match s with
  | EmptyString => EmptyString
  | String c rest =>
      if is_cont c then String c (take n rest)
      else match n with
           | O => EmptyString
           | S n' => String c (take n' rest)
           end
  end.

(** A text that does not begin in the middle of a character. *)
Definition whole_chars (s : string) : Prop :=
  match s with
  | EmptyString => True
  | String c _ => is_cont c = false
  end.

(** [xs[:k]] on a list, [k] any integer. *)
Definition slice_to {A : Type} (k : Z) (xs : list A) : list A :=
  if (0 <=? k)%Z then firstn (Z.to_nat k) xs
  else firstn (length xs - Z.to_nat (- k)) xs.

(** [s.split(sep)] for a one-byte separator. *)
Fixpoint split_on (sep : ascii) (s : string) : list string :=
  match s with
  | EmptyString => [EmptyString]
  | String c rest =>
      if Ascii.eqb c sep then EmptyString :: split_on sep rest
      else match split_on sep rest with
           | [] => [String c EmptyString]
           | h :: t => String c h :: t
           end
  end.

(** [s * n]. *)
Fixpoint repeat_str (s : string) (n : nat) : string :=
  match n with
  | O => EmptyString
  | S n' => s ++ repeat_str s n'
  end.

(** [str(n)] for integers. *)
Definition str_of_nat (n : nat) : string :=
  NilEmpty.string_of_uint (Nat.to_uint n).

Definition str_of_Z (z : Z) : string :=
  NilEmpty.string_of_int (Z.to_int z).

Definition nl : string := String (ascii_of_nat 10) EmptyString.

(** A byte that prints as a visible ASCII character. *)
Definition is_graph (c : ascii) : bool :=
  let n := nat_of_ascii c in (33 <=? n)%nat && (n <=? 126)%nat.


Fixpoint no_graph (s : string) : bool :=
  match s with
  | EmptyString => true
  | String c rest => negb (is_graph c) && no_graph rest
  end.

(** The methods of [str] that depend on the Unicode character tables.
    [strip_ends]: [strip] removes whitespace from both ends only, and no
    whitespace character has a visible ASCII byte in its encoding. *)
Class PyStr : Type := {
  lower : string -> string;
  upper : string -> string;
  strip : string -> string;
  split : string -> list string;
  strip_ends : forall s, exists l r,
      s = l ++ strip s ++ r /\ no_graph l = true /\ no_graph r = true
}.

(** Python's [float], with the operations the code uses.
    [flit q] is the float a decimal literal [q] denotes, [float_of_Z] the
    conversion of an [int] operand, [flt a b] is [a < b], and
    [int_of_float] is [int(x)].  The two laws say that [<] is asymmetric
    and that its complement is transitive, as for floats other than NaN. *)
Class PyFloat : Type := {
  float : Type;
  flit : Q -> float;
  float_of_Z : Z -> float;
  fadd : float -> float -> float;
  fmul : float -> float -> float;
  flt : float -> float -> bool;
  int_of_float : float -> Z;
  flt_asym : forall a b, flt a b = true -> flt b a = false;
  fge_trans : forall a b c, flt a b = false -> flt b c = false -> flt a c = false
}.

(** [difflib.SequenceMatcher(None, a, b).ratio()]. *)
Class Difflib (F : PyFloat) : Type := {
  ratio : string -> string -> float
}.

(** A number that is an [int] until a [float] is added to it. *)
Inductive num {F : PyFloat} : Type :=
| PInt (z : Z)
| PFloat (f : float).

Definition to_float {F : PyFloat} (x : num) : float :=
  match x with
  | PInt z => float_of_Z z
  | PFloat f => f
  end.

Definition num_add {F : PyFloat} (x y : num) : num :=
  match x, y with
  | PInt a, PInt b => PInt (a + b)
  | _, _ => PFloat (fadd (to_float x) (to_float y))
  end.

(** [x > 0]. *)
Definition num_pos {F : PyFloat} (x : num) : bool :=
  match x with
  | PInt z => (0 <? z)%Z
  | PFloat f => flt (float_of_Z 0) f
  end.

(** [xs.sort(key=..., reverse=True)]: stable, descending.  An element moves
    past those in front of which it may not stay, that is those with a
    strictly greater key; equal keys keep their order. *)
Fixpoint insert_desc {F : PyFloat} {A : Type} (key : A -> float)
         (x : A) (xs : list A) : list A :=
  match xs with
  | [] => [x]
  | y :: ys =>
      if flt (key x) (key y) then y :: insert_desc key x ys
      else x :: y :: ys
  end.

Definition sort_desc {F : PyFloat} {A : Type} (key : A -> float)
           (xs : list A) : list A :=
  fold_right (insert_desc key) [] xs.

End Py.
Import Py.

(** [langchain_core.messages]: the content of a message is a [str] or a list
    of content blocks; of the latter only its [str()] rendering is kept. *)
Inductive content : Type :=
| CStr (s : string)
| CList (repr : string).

Inductive message : Type :=
| HumanMessage (c : content)
| AIMessage (c : content)
| SystemMessage (c : content).

Definition message_content (m : message) : content :=
  match m with
  | HumanMessage c | AIMessage c | SystemMessage c => c
  end.

(** [str(content)]. *)
Definition str_content (c : content) : string :=
  match c with
  | CStr s => s
  | CList repr => repr
  end.

(** [content.lower()]: a list has no such method. *)
Definition content_lower {S : PyStr} (c : content) : result string :=
  match c with
  | CStr s => Ok (lower s)
  | CList _ => Raise (AttributeError "'list' object has no attribute 'lower'")
  end.

(* ===================================================================== *)
(** ** [src/graph.py]: the keyword router                                *)
(* ===================================================================== *)

Module Router.

(** The part of [AgentState] the router reads. *)
Record AgentState : Type := {
  messages : list message;
  user_id : string;
  current_context : string
}.

Definition finance_keywords : list string :=
  [ "dinero"; "gasto"; "presupuesto"; "gastos"; "financiero";
    "salario"; "ingresos"; "presupuesto"; "tarjeta"; "banco";
    "balance"; "cuenta"; "pago"; "factura"; "deuda"; "costo" ].

Definition health_keywords : list string :=
  [ "ejercicio"; "hábito"; "salud"; "gym"; "deporte"; "médico";
    "medicina"; "ejercitar"; "correr"; "caminar"; "yoga"; "meditación";
    "hábitos"; "rutina"; "entrenamiento"; "actividad"; "peso" ].

Definition docs_keywords : list string :=
  [ "documento"; "contrato"; "póliza"; "información"; "buscar";
    "seguro"; "archivo"; "plan"; "calendario"; "fecha"; "emergencia";
    "contacto"; "teléfono"; "dirección"; "referencia"; "consultá" ].

Definition drive_keywords : list string :=
  [ "google drive"; "drive"; "archivo"; "carpeta"; "cloud"; "adjunto";
    "descargar"; "compartido"; "fotos"; "documentos"; "nube"; "guardar";
    "drive compartido"; "mi drive"; "archivo en la nube" ].

(** [sum(1 for kw in keywords if kw in user_text)]. *)
Definition score (keywords : list string) (user_text : string) : nat :=
  list_sum (map (fun kw => if contains kw user_text then 1 else 0)%nat keywords).

(** [a > b] on scores. *)
Definition gtb (a b : nat) : bool := (b <? a)%nat.

(** The [if]/[elif] chain over the four scores. *)
Definition decide (drive_score finance_score health_score docs_score : nat)
  : string :=
  if gtb drive_score finance_score && gtb drive_score health_score
     && gtb drive_score docs_score && gtb drive_score 0
  then "drive"
  else if gtb finance_score health_score && gtb finance_score docs_score
          && gtb finance_score 0
  then "finance"
  else if gtb health_score docs_score && gtb health_score 0
  then "health"
  else if gtb docs_score 0
  then "docs"
  else "general".

(** The text the scores are computed on: [last_message.content.lower()]
    for a [HumanMessage], [str(last_message.content).lower()] otherwise. *)
Definition user_text_of {S : PyStr} (last_message : message) : result string :=
  match last_message with
  | HumanMessage c => content_lower c
  | _ => Ok (lower (str_content (message_content last_message)))
  end.

Definition classify (user_text : string) : string :=
  decide (score drive_keywords user_text) (score finance_keywords user_text)
         (score health_keywords user_text) (score docs_keywords user_text).

(** The body of the [try] block.  An empty history returns at once, before
    any text is looked at; otherwise [messages[-1]] is classified. *)
Definition router_try {S : PyStr} (state : AgentState) : result string :=
  match messages state with
  | [] => Ok "general"
  | m :: ms =>
      let last_message := last ms m in
      bind (user_text_of last_message) (fun user_text =>
      Ok (classify user_text))
  end.

(** [router_node]: the value stored under ["current_context"]. *)
Definition router_node {S : PyStr} (state : AgentState) : string :=
  match router_try state with
  | Ok context => context
  | Raise _ => "general"
  end.

(** The five routing destinations. *)
Definition categories : list string :=
  [ "drive"; "finance"; "health"; "docs"; "general" ].

(** The rule as the specification words it: the highest positive score
    wins and, among equal scores, the category that comes first in the
    order drive, finance, health, docs. *)
Fixpoint first_best (cands : list (string * nat)) (best : string * nat)
  : string * nat :=
  match cands with
  | [] => best
  | c :: rest =>
      first_best rest (if (snd best <? snd c)%nat then c else best)
  end.

Definition decide_by_precedence
           (drive_score finance_score health_score docs_score : nat) : string :=
  fst (first_best [ ("drive", drive_score); ("finance", finance_score);
                    ("health", health_score); ("docs", docs_score) ]
                  ("general", O)).

End Router.

(* ===================================================================== *)
(** ** [langgraph.graph]: building a graph                               *)
(* ===================================================================== *)

Module LangGraph.

Definition START : string := "__start__".
Definition END : string := "__end__".

Section Builder.

Context {Action Path : Type}.

(** A [StateGraph] under construction: the keys of its state schema and
    what has been added so far.  The methods below change the object they
    are called on; here each returns the graph as it is afterwards. *)
Record StateGraph : Type := {
  channels : list string;
  nodes : list (string * Action);
  edges : list (string * string);
  branches : list (string * (Path * list (string * string)))
}.

(** [StateGraph(schema)]. *)
Definition new_graph (schema_keys : list string) : StateGraph :=
  {| channels := schema_keys; nodes := []; edges := []; branches := [] |}.

(** [workflow.add_node(node, action)]: a name stands for one node only. *)
Definition add_node (workflow : StateGraph) (node : string) (action : Action)
  : result StateGraph :=
  if str_in node (channels workflow)
  then Raise (ValueError ("'" ++ node ++ "' is already being used as a state key"))
  else if str_in node (map fst (nodes workflow))
  then Raise (ValueError ("Node `" ++ node ++ "` already present."))
  else if String.eqb node END || String.eqb node START
  then Raise (ValueError ("Node `" ++ node ++ "` is reserved."))
  else Ok {| channels := channels workflow;
             nodes := (nodes workflow ++ [(node, action)])%list;
             edges := edges workflow;
             branches := branches workflow |}.

(** [workflow.add_edge(start_key, end_key)].  Whether the two names are
    nodes is looked at by [compile]. *)
Definition add_edge (workflow : StateGraph) (start_key end_key : string)
  : result StateGraph :=
  if String.eqb start_key END
  then Raise (ValueError "END cannot be a start node")
  else if String.eqb end_key START
  then Raise (ValueError "START cannot be an end node")
  else Ok {| channels := channels workflow;
             nodes := nodes workflow;
             edges := (edges workflow ++ [(start_key, end_key)])%list;
             branches := branches workflow |}.

(** [workflow.add_conditional_edges(source, path, path_map)]. *)
Definition add_conditional_edges (workflow : StateGraph) (source : string)
           (path : Path) (path_map : list (string * string))
  : result StateGraph :=
  Ok {| channels := channels workflow;
        nodes := nodes workflow;
        edges := edges workflow;
        branches := (branches workflow ++ [(source, (path, path_map))])%list |}.

End Builder.

(** [workflow.compile()] and [graph.invoke(input)], in a setting where the
    nodes have effects [Eff].  What the runtime does with a graph is the
    library's business; nothing is assumed of it. *)
Class Pregel (Action Path State : Type) (Eff : Type -> Type) : Type := {
  CompiledStateGraph : Type;
  compile : @StateGraph Action Path -> result CompiledStateGraph;
  invoke : CompiledStateGraph -> State -> Eff (result State)
}.

End LangGraph.

(* ===================================================================== *)
(** ** [src/rag/graph.py]: the RAG sub-graph                             *)
(* ===================================================================== *)

Module Rag.

(** A retrieved document, [Dict[str, Any]]: the entries read are strings. *)
Definition doc : Type := list (string * string).

(** [d.get(key, default)]. *)
Fixpoint dict_get (d : doc) (key default : string) : string :=
  match d with
  | [] => default
  | (k, v) :: rest => if String.eqb k key then v else dict_get rest key default
  end.


(** What a retrieval tool hands back: the annotation of the state asks for
    a list of dicts, the tool of [src/tools/docs.py] returns a [str]. *)
Inductive docs_value : Type :=
| DStr (s : string)
| DList (l : list doc).

(** [len(docs)]. *)
Definition docs_len (docs : docs_value) : nat :=
  match docs with
  | DStr s => Py.len s
  | DList l => length l
  end.

(** [RAGState].  [question] and [messages] are given in every call;
    the other keys are read with [state.get(key, default)] and may be
    absent ([None]). *)
Record RAGState : Type := {
  question : string;
  messages : list message;
  documents : option docs_value;
  generation : option string;
  web_search : option string;
  loop_count : option Z;
  max_loops : option Z
}.

(** The dict a node returns: the keys it sets. *)
Record Update : Type := {
  u_question : option string;
  u_documents : option docs_value;
  u_generation : option string;
  u_loop_count : option Z;
  u_messages : list message
}.

Definition or_old {A : Type} (new old : option A) : option A :=
  match new with
  | Some _ => new
  | None => old
  end.

(** How the runtime folds a node's dict into the state: [messages] through
    its reducer [add_messages], any other key by replacement. *)
Definition apply_update (state : RAGState) (u : Update) : RAGState :=
  {| question := match u_question u with
                 | Some q => q
                 | None => question state
                 end;
     messages := (messages state ++ u_messages u)%list;
     documents := or_old (u_documents u) (documents state);
     generation := or_old (u_generation u) (generation state);
     web_search := web_search state;
     loop_count := or_old (u_loop_count u) (loop_count state);
     max_loops := max_loops state |}.

(** *** The oracle

    A prompt is a list of (role, text) pairs, as given to
    [ChatPromptTemplate.from_messages] and as [format_messages] returns
    them.  [llm k p] is the outcome of [llm.invoke(p)] when it is the [k]-th
    call made to the model: [response.content], or the exception raised.
    The calls made so far are logged, so the model may answer the same
    prompt differently each time, and what was sent can be inspected. *)
Definition prompt : Type := list (string * string).
Definition ChatOpenAI : Type := nat -> prompt -> result string.

Definition M (A : Type) : Type := list prompt -> A * list prompt.

Definition ret {A : Type} (a : A) : M A := fun log => (a, log).

Definition mbind {A B : Type} (m : M A) (k : A -> M B) : M B :=
  fun log => let (a, log') := m log in k a log'.

Definition invoke_llm (llm : ChatOpenAI) (p : prompt) : M (result string) :=
  fun log => (llm (length log) p, (log ++ [p])%list).

Notation "x <- m ;; k" := (mbind m (fun x => k))
  (at level 61, m at next level, right associativity).

(** The text holds no brace. *)
Fixpoint no_braces (s : string) : bool :=
  match s with
  | EmptyString => true
  | String c rest =>
      negb (Ascii.eqb c "{") && negb (Ascii.eqb c "}") && no_braces rest
  end.

(** [ChatPromptTemplate.from_messages(p).format_messages()].  The nodes
    build the text of a message with an f-string and hand it over as a
    template, so the library reads it in the syntax of [str.format]: a
    doubled brace stands for one brace, any other brace opens or closes a
    replacement field.  No values are passed, so such a brace makes the
    library raise, from [from_messages] when the braces do not pair up and
    from [format_messages] for the variable that is missing; what is raised
    is left to the instance.  [format_plain]: messages without a brace are
    sent as they are. *)
Class ChatPromptTemplate : Type := {
  format_messages : prompt -> result prompt;
  format_plain : forall p,
      forallb (fun m => no_braces (snd m)) p = true -> format_messages p = Ok p
}.

(** A retrieval tool: called on the question, it returns or raises. *)
Definition tool : Type := string -> result docs_value.

(** *** Node 1: retrieve *)

Definition retrieve_try (state : RAGState) (retrieve_tool : tool)
  : result Update :=
  let question := question state in
  bind (retrieve_tool question) (fun docs =>
  (* the log line of the top document evaluates [docs[0].get(...)] *)
  bind (match docs with
        | DStr EmptyString | DList _ => Ok tt
        | DStr _ => Raise (AttributeError "'str' object has no attribute 'get'")
        end) (fun _ =>
  Ok {| u_question := None;
        u_documents := Some docs;
        u_generation := None;
        u_loop_count := None;
        u_messages :=
          [HumanMessage (CStr ("[RETRIEVE] Recovered "
                               ++ str_of_nat (docs_len docs)
                               ++ " documents for: " ++ question))] |})).

Definition retrieve_node (state : RAGState) (retrieve_tool : tool) : Update :=
  match retrieve_try state retrieve_tool with
  | Ok u => u
  | Raise e =>
      {| u_question := None;
         u_documents := Some (DList []);
         u_generation := None;
         u_loop_count := None;
         u_messages :=
           [AIMessage (CStr ("❌ Error en retrieve: " ++ str_exn e))] |}
  end.

(** *** Node 2: grade *)

Definition grade_prompt (question doc_title doc_content : string) : prompt :=
  [ ("system",
     "You are an expert evaluator. Your task is to assess document relevance. "
     ++ "Given a user question and a document, determine if the document is relevant "
     ++ "to answer the question. Respond with only 'yes' or 'no'.");
    ("human",
     "Question: " ++ question ++ nl ++ nl
     ++ "Document Title: " ++ doc_title ++ nl ++ nl
     ++ "Document Content:" ++ nl ++ doc_content ++ nl ++ nl
     ++ "Is this document relevant to the question? Answer with only 'yes' or 'no':") ].

Definition grade_try {S : PyStr} {T : ChatPromptTemplate}
           (state : RAGState) (llm : ChatOpenAI) : M (result string) :=
  let question := question state in
  match documents state with
  | None => ret (Raise (KeyError "documents"))
  | Some (DStr EmptyString) | Some (DList []) => ret (Ok "generate")
  | Some (DStr _) =>
      ret (Raise (AttributeError "'str' object has no attribute 'get'"))
  | Some (DList (first_doc :: _)) =>
      let doc_content := take 500 (dict_get first_doc "content" "") in
      let doc_title := dict_get first_doc "title" "Unknown" in
      match format_messages (grade_prompt question doc_title doc_content) with
      | Raise e => ret (Raise e)
      | Ok formatted =>
          response <- invoke_llm llm formatted ;;
          match response with
          | Raise e => ret (Raise e)
          | Ok response_content =>
              let grade_result := strip (lower response_content) in
              let is_relevant := contains "yes" grade_result in
              if is_relevant then ret (Ok "generate") else ret (Ok "rewrite")
          end
      end
  end.

Definition grade_node {S : PyStr} {T : ChatPromptTemplate}
           (state : RAGState) (llm : ChatOpenAI) : M string :=
  r <- grade_try state llm ;;
  match r with
  | Ok decision => ret decision
  | Raise _ => ret "generate"
  end.

(** [state.get(key, default)] for the two counters. *)
Definition get_or (field : option Z) (default : Z) : Z :=
  match field with
  | Some v => v
  | None => default
  end.

(** *** Node 3: rewrite *)

Definition rewrite_prompt (original_question : string) : prompt :=
  [ ("system",
     "You are an expert at reformulating user questions for better document retrieval. "
     ++ "Analyze the original question and rewrite it to be more specific, detailed, and "
     ++ "likely to retrieve relevant documents. Keep the intent but improve specificity.");
    ("human",
     "Original question: " ++ original_question ++ nl ++ nl
     ++ "Rewritten question (more specific and searchable):") ].

Definition rewrite_try {S : PyStr} {T : ChatPromptTemplate}
           (state : RAGState) (llm : ChatOpenAI) : M (result Update) :=
  let original_question := question state in
  let current_loop := get_or (loop_count state) 0 in
  match format_messages (rewrite_prompt original_question) with
  | Raise e => ret (Raise e)
  | Ok formatted =>
      response <- invoke_llm llm formatted ;;
      match response with
      | Raise e => ret (Raise e)
      | Ok response_content =>
          let new_question := strip response_content in
          ret (Ok {| u_question := Some new_question;
                     u_documents := None;
                     u_generation := None;
                     u_loop_count := Some (current_loop + 1)%Z;
                     u_messages :=
                       [AIMessage (CStr ("[REWRITE] Reformulated question: "
                                         ++ new_question))] |})
      end
  end.

Definition rewrite_node {S : PyStr} {T : ChatPromptTemplate}
           (state : RAGState) (llm : ChatOpenAI) : M Update :=
  r <- rewrite_try state llm ;;
  match r with
  | Ok u => ret u
  | Raise e =>
      ret {| u_question := None;
             u_documents := None;
             u_generation := None;
             u_loop_count := Some (get_or (loop_count state) 0 + 1)%Z;
             u_messages :=
               [AIMessage (CStr ("❌ Error en rewrite: " ++ str_exn e))] |}
  end.

(** *** Node 4: generate *)

Definition no_documents_message : string :=
  "No pude encontrar documentos relevantes para tu pregunta. "
  ++ "Por favor, intenta con una pregunta más específica o verifica "
  ++ "que los documentos necesarios estén cargados.".

Definition generate_prompt (question combined_context : string) : prompt :=
  [ ("system",
     "You are a helpful assistant that answers questions using provided documents. "
     ++ "Your task is to:" ++ nl
     ++ "1. Answer the question using ONLY the provided documents" ++ nl
     ++ "2. Be concise and accurate" ++ nl
     ++ "3. Cite which document you're using when relevant" ++ nl
     ++ "4. If the documents don't contain the answer, say so clearly" ++ nl
     ++ "5. Format your response clearly with sections if needed");
    ("human",
     "Question: " ++ question ++ nl ++ nl
     ++ "Documents:" ++ nl ++ combined_context ++ nl ++ nl
     ++ "Answer the question using only the above documents:") ].

(** [enumerate(xs, i)]. *)
Fixpoint enumerate {A : Type} (i : nat) (xs : list A) : list (nat * A) :=
  match xs with
  | [] => []
  | x :: rest => (i, x) :: enumerate (S i) rest
  end.

Definition doc_block (entry : nat * doc) : string :=
  let (i, d) := entry in
  let doc_title := dict_get d "title" "Unknown" in
  let doc_content := dict_get d "content" "" in
  "[Documento " ++ str_of_nat i ++ ": " ++ doc_title ++ "]" ++ nl ++ doc_content.

(** The context block: up to five documents, each under its heading, with
    a divider between them. *)
Definition combined_context (docs : list doc) : string :=
  let doc_contents := map doc_block (enumerate 1 (firstn 5 docs)) in
  String.concat (nl ++ nl ++ "---" ++ nl ++ nl) doc_contents.

Definition generate_try {S : PyStr} {T : ChatPromptTemplate}
           (state : RAGState) (llm : ChatOpenAI) : M (result Update) :=
  let question := question state in
  let documents := match documents state with
                   | Some d => d
                   | None => DList []
                   end in
  match documents with
  | DStr EmptyString | DList [] =>
      ret (Ok {| u_question := None;
                 u_documents := None;
                 u_generation := Some no_documents_message;
                 u_loop_count := None;
                 u_messages :=
                   [AIMessage (CStr "[GENERATE] No documents available")] |})
  | DStr _ =>
      (* the loop over [documents[:5]] calls [get] on a character *)
      ret (Raise (AttributeError "'str' object has no attribute 'get'"))
  | DList docs =>
      let combined_context := combined_context docs in
      match format_messages (generate_prompt question combined_context) with
      | Raise e => ret (Raise e)
      | Ok formatted =>
          response <- invoke_llm llm formatted ;;
          match response with
          | Raise e => ret (Raise e)
          | Ok response_content =>
              let generation := strip response_content in
              ret (Ok {| u_question := None;
                         u_documents := None;
                         u_generation := Some generation;
                         u_loop_count := None;
                         u_messages :=
                           [AIMessage (CStr ("[GENERATE] Generated answer from "
                                             ++ str_of_nat (length docs)
                                             ++ " documents"))] |})
          end
      end
  end.

Definition generate_node {S : PyStr} {T : ChatPromptTemplate}
           (state : RAGState) (llm : ChatOpenAI) : M Update :=
  r <- generate_try state llm ;;
  match r with
  | Ok u => ret u
  | Raise e =>
      ret {| u_question := None;
             u_documents := None;
             u_generation := Some ("Error generando respuesta: " ++ str_exn e);
             u_loop_count := None;
             u_messages :=
               [AIMessage (CStr ("❌ Error en generate: " ++ str_exn e))] |}
  end.

(** *** Conditional routing

    Both functions are defined in the module; neither is called or given
    to [add_conditional_edges] anywhere in the repository. *)

Definition should_rewrite (state : RAGState) : string :=
  let current_loop := get_or (loop_count state) 0 in
  let max_loops := get_or (max_loops state) 3 in
  if (max_loops <=? current_loop)%Z then "generate" else "generate".

Definition should_continue_retrieve (state : RAGState) : string :=
  let current_loop := get_or (loop_count state) 0 in
  let max_loops := get_or (max_loops state) 3 in
  if (max_loops <=? current_loop)%Z then "generate" else "retrieve".

(** *** Building the graph *)

(** What a function given to [add_node] hands back: the nodes return a
    dict, [grade_node] a [str]. *)
Inductive returned : Type :=
| Dict (u : Update)
| Str (s : string).

Definition action : Type := RAGState -> M returned.
Definition path : Type := RAGState -> M string.

Definition StateGraph : Type := @LangGraph.StateGraph action path.

(** The keys of [RAGState]. *)
Definition RAGState_keys : list string :=
  [ "question"; "messages"; "documents"; "generation"; "web_search";
    "loop_count"; "max_loops" ].

(** [compile_rag_graph], statement by statement.  The function builds three
    workflows one after the other, each assigned to [workflow]; the local
    function [grade_and_decide] of the second, which nothing refers to, is
    left out.  The second workflow is given the node "retrieve" twice. *)
Definition compile_rag_graph {S : PyStr} {T : ChatPromptTemplate}
           {G : LangGraph.Pregel action path RAGState M}
           (llm : ChatOpenAI) (retrieve_tool : tool)
  : result LangGraph.CompiledStateGraph :=
  let workflow : StateGraph := LangGraph.new_graph RAGState_keys in
  bind (LangGraph.add_node workflow "retrieve"
          (fun state => ret (Dict (retrieve_node state retrieve_tool))))
       (fun workflow =>
  bind (LangGraph.add_node workflow "grade"
          (fun state => decision <- grade_node state llm ;; ret (Str decision)))
       (fun workflow =>
  bind (LangGraph.add_node workflow "rewrite"
          (fun state => u <- rewrite_node state llm ;; ret (Dict u)))
       (fun workflow =>
  bind (LangGraph.add_node workflow "generate"
          (fun state => u <- generate_node state llm ;; ret (Dict u)))
       (fun workflow =>
  bind (LangGraph.add_edge workflow LangGraph.START "retrieve") (fun workflow =>
  bind (LangGraph.add_edge workflow "retrieve" "grade") (fun workflow =>
  let grade_decision : RAGState -> string :=
    fun state =>
      match documents state with
      | None | Some (DStr EmptyString) | Some (DList []) => "generate"
      | _ => "generate"
      end in
  (* the second workflow *)
  let workflow : StateGraph := LangGraph.new_graph RAGState_keys in
  bind (LangGraph.add_node workflow "retrieve"
          (fun state => ret (Dict (retrieve_node state retrieve_tool))))
       (fun workflow =>
  let grade_node_returning_decision : path :=
    fun state => grade_node state llm in
  bind (LangGraph.add_node workflow "retrieve"
          (fun state => ret (Dict (retrieve_node state retrieve_tool))))
       (fun workflow =>
  bind (LangGraph.add_node workflow "rewrite"
          (fun state => u <- rewrite_node state llm ;; ret (Dict u)))
       (fun workflow =>
  bind (LangGraph.add_node workflow "generate"
          (fun state => u <- generate_node state llm ;; ret (Dict u)))
       (fun workflow =>
  bind (LangGraph.add_edge workflow LangGraph.START "retrieve") (fun workflow =>
  bind (LangGraph.add_edge workflow "retrieve" "grade") (fun workflow =>
  bind (LangGraph.add_conditional_edges
          workflow "grade" grade_node_returning_decision
          [("generate", "generate"); ("rewrite", "rewrite")])
       (fun workflow =>
  bind (LangGraph.add_edge workflow "rewrite" "retrieve") (fun workflow =>
  bind (LangGraph.add_edge workflow "generate" LangGraph.END) (fun workflow =>
  (* the third workflow *)
  let workflow : StateGraph := LangGraph.new_graph RAGState_keys in
  bind (LangGraph.add_node workflow "retrieve"
          (fun state => ret (Dict (retrieve_node state retrieve_tool))))
       (fun workflow =>
  bind (LangGraph.add_node workflow "rewrite"
          (fun state => u <- rewrite_node state llm ;; ret (Dict u)))
       (fun workflow =>
  bind (LangGraph.add_node workflow "generate"
          (fun state => u <- generate_node state llm ;; ret (Dict u)))
       (fun workflow =>
  bind (LangGraph.add_edge workflow LangGraph.START "retrieve") (fun workflow =>
  bind (LangGraph.add_conditional_edges
          workflow "retrieve" (fun state => grade_node state llm)
          [("generate", "generate"); ("rewrite", "rewrite")])
       (fun workflow =>
  bind (LangGraph.add_edge workflow "rewrite" "retrieve") (fun workflow =>
  bind (LangGraph.add_edge workflow "generate" LangGraph.END) (fun workflow =>
  let compiled := LangGraph.compile workflow in
  compiled)))))))))))))))))))))).

Definition create_initial_rag_state (question : string) (max_loops : Z)
  : RAGState :=
  {| question := question;
     messages := [];
     documents := Some (DList []);
     generation := Some "";
     web_search := Some "no";
     loop_count := Some 0%Z;
     max_loops := Some max_loops |}.

End Rag.

(* ===================================================================== *)
(** ** [src/tools/docs.py]: the document search                          *)
(* ===================================================================== *)

Module Docs.

(** An entry of the catalog. *)
Record Doc : Type := {
  id : Z;
  title : string;
  content : string;
  category : string;
  tags : list string
}.

(** The module-level list [MOCK_DOCS].  It is a global the functions read;
    each function below takes the catalog as it stands when called and
    returns it as it stands afterwards. *)
Definition catalog : Type := list Doc.
Definition St (A : Type) : Type := catalog -> A * catalog.

Section Search.

Context {S : PyStr} {F : PyFloat} {D : Difflib F}.

(** An entry of [results]: [{"doc": ..., "score": ..., "reason": ...}]. *)
Record SearchResult : Type := {
  doc : Doc;
  score : float;
  reason : string
}.

Definition _calculate_similarity (query text : string) : float :=
  ratio (lower query) (lower text).

(** The body of [for keyword in keywords]. *)
Definition keyword_step (doc_tags : list string)
           (doc_title doc_category : string)
           (tag_matches : num) (keyword : string) : num :=
  if str_in keyword doc_tags then num_add tag_matches (PInt 2)
  else if existsb (fun tag => contains keyword tag) doc_tags
  then num_add tag_matches (PInt 1)
  else if contains keyword doc_title
  then num_add tag_matches (PFloat (flit (15 # 10)))
  else if contains keyword doc_category
  then num_add tag_matches (PInt 1)
  else tag_matches.

(** The body of the first [for doc in MOCK_DOCS]. *)
Definition phase1_step (query : string) (keywords : list string)
           (results : list SearchResult) (d : Doc) : list SearchResult :=
  let doc_tags := map lower (tags d) in
  let doc_title := lower (title d) in
  let doc_category := lower (category d) in
  let tag_matches :=
    fold_left (keyword_step doc_tags doc_title doc_category)
              keywords (PInt 0) in
  if num_pos tag_matches then
    let content_score := _calculate_similarity query (take 300 (content d)) in
    let total_score :=
      fadd (fmul (to_float tag_matches) (flit (6 # 10)))
           (fmul content_score (flit (4 # 10))) in
    (results ++ [ {| doc := d; score := total_score;
                     reason := "tag_match" |} ])%list
  else results.

(** [any(r["doc"]["id"] == doc["id"] for r in results)]. *)
Definition seen (results : list SearchResult) (d : Doc) : bool :=
  existsb (fun r => Z.eqb (id (doc r)) (id d)) results.

(** The body of the second [for doc in MOCK_DOCS]. *)
Definition phase2_step (query : string)
           (results : list SearchResult) (d : Doc) : list SearchResult :=
  if seen results d then results
  else
    let score := _calculate_similarity query (content d) in
    if flt (flit (15 # 100)) score then
      (results ++ [ {| doc := d; score := score;
                       reason := "content_match" |} ])%list
    else results.

Definition _search_documents (query : string) (top_k : Z)
  : St (list SearchResult) :=
  fun MOCK_DOCS =>
    let query_lower := lower query in
    let keywords := split query_lower in
    let results := fold_left (phase1_step query keywords) MOCK_DOCS [] in
    let results :=
      if (Z.of_nat (length results) <? top_k)%Z
      then fold_left (phase2_step query) MOCK_DOCS results
      else results in
    let results := sort_desc score results in
    (slice_to top_k results, MOCK_DOCS).

(** [top_k: int = 3]. *)
Definition default_top_k : Z := 3.

(** The lines one result adds to [output]. *)
Definition format_result (entry : nat * SearchResult) : string :=
  let (i, result) := entry in
  let d := doc result in
  let score_percent := int_of_float (fmul (score result) (float_of_Z 100)) in
  let relevance_icon :=
    if (80 <=? score_percent)%Z then "⭐⭐⭐"
    else if (60 <=? score_percent)%Z then "⭐⭐"
    else "⭐" in
  let preview := strip (take 200 (content d)) in
  let preview :=
    if (200 <? Py.len (content d))%nat then preview ++ "..." else preview in
  str_of_nat i ++ ". " ++ upper (title d) ++ " " ++ relevance_icon ++ nl
  ++ "   Category: " ++ category d ++ " | Match: "
  ++ str_of_Z score_percent ++ "%" ++ nl
  ++ "   Content Preview:" ++ nl
  ++ String.concat "" (map (fun line => "   " ++ line ++ nl)
                           (split_on (ascii_of_nat 10) preview))
  ++ nl.

(** [retrieve_documents].  Nothing in the body raises on a [str] query
    and a catalog of well-formed entries, so the handler of its [try]
    has no counterpart here. *)
Definition retrieve_documents (query : string) : St string :=
  fun MOCK_DOCS =>
    if String.eqb query "" || (Py.len (strip query) <? 2)%nat then
      ("❌ Error: Query too short. Please provide at least 2 characters.",
       MOCK_DOCS)
    else
      let (results, MOCK_DOCS) := _search_documents query 3 MOCK_DOCS in
      match results with
      | [] =>
          ("📭 No relevant documents found for: '" ++ query ++ "'" ++ nl
           ++ "Try searching for: insurance, nutrition, contract, exercise, emergency",
           MOCK_DOCS)
      | _ =>
          let output :=
            "📄 DOCUMENT RETRIEVAL RESULTS" ++ nl ++ repeat_str "=" 50 ++ nl in
          let output := output ++ "Query: '" ++ query ++ "'" ++ nl in
          let output :=
            output ++ "Found " ++ str_of_nat (length results)
                   ++ " document(s):" ++ nl ++ nl in
          let output :=
            fold_left (fun out entry => out ++ format_result entry)
                      (Rag.enumerate 1 results) output in
          (output, MOCK_DOCS)
      end.

(** *** The search as the specification words it *)

(** The weight of one keyword against one document. *)
Definition keyword_weight (d : Doc) (keyword : string) : option num :=
  let doc_tags := map lower (tags d) in
  if str_in keyword doc_tags then Some (PInt 2)
  else if existsb (fun tag => contains keyword tag) doc_tags
  then Some (PInt 1)
  else if contains keyword (lower (title d)) then Some (PFloat (flit (15 # 10)))
  else if contains keyword (lower (category d)) then Some (PInt 1)
  else None.

Fixpoint matched_weights (d : Doc) (keywords : list string) : list num :=
  match keywords with
  | [] => []
  | keyword :: rest =>
      match keyword_weight d keyword with
      | Some w => w :: matched_weights d rest
      | None => matched_weights d rest
      end
  end.

(** Keyword overlap: the weights of the matching keywords, summed in the
    order of the query. *)
Definition overlap (d : Doc) (query : string) : num :=
  fold_left num_add (matched_weights d (split (lower query))) (PInt 0).

Definition phase1_entry (query : string) (d : Doc) : SearchResult :=
  {| doc := d;
     score := fadd (fmul (to_float (overlap d query)) (flit (6 # 10)))
                   (fmul (_calculate_similarity query (take 300 (content d)))
                         (flit (4 # 10)));
     reason := "tag_match" |}.

Definition phase1_spec (query : string) (docs : catalog) : list SearchResult :=
  map (phase1_entry query)
      (filter (fun d => num_pos (overlap d query)) docs).

Definition phase2_entry (query : string) (d : Doc) : SearchResult :=
  {| doc := d;
     score := _calculate_similarity query (content d);
     reason := "content_match" |}.

Definition phase2_spec (query : string) (found : list SearchResult)
           (docs : catalog) : list SearchResult :=
  map (phase2_entry query)
      (filter (fun d =>
                 negb (seen found d)
                 && flt (flit (15 # 100))
                        (_calculate_similarity query (content d)))
              docs).

Definition search_spec (query : string) (top_k : nat) (docs : catalog)
  : list SearchResult :=
  let found := phase1_spec query docs in
  let added :=
    if (length found <? top_k)%nat then phase2_spec query found docs
    else [] in
  firstn top_k (sort_desc score (found ++ added)%list).

(** Descending by score: no entry is followed, anywhere later in the
    list, by one with a strictly greater score. *)
Definition descending (results : list SearchResult) : Prop :=
  StronglySorted (fun a b => flt (score a) (score b) = false) results.

(** An entry of the first phase for a document: 0.6 times the keyword
    overlap plus 0.4 times the similarity ratio of the query and the first
    300 characters of the content, both lower-cased.  The excerpt is told
    by what it is: a prefix of the content that counts 300 characters, or
    all of them when there are fewer, and ends where a character ends. *)
Definition phase1_scored (query : string) (d : Doc) (r : SearchResult) : Prop :=
  doc r = d
  /\ reason r = "tag_match"
  /\ exists excerpt rest,
       content d = excerpt ++ rest
       /\ Py.len excerpt = Nat.min 300 (Py.len (content d))
       /\ whole_chars rest
       /\ score r
          = fadd (fmul (to_float (overlap d query)) (flit (6 # 10)))
                 (fmul (ratio (lower query) (lower excerpt)) (flit (4 # 10))).

(** An entry of the second phase: the similarity ratio of the query and the
    whole content, both lower-cased. *)
Definition phase2_scored (query : string) (d : Doc) (r : SearchResult) : Prop :=
  doc r = d
  /\ reason r = "content_match"
  /\ score r = ratio (lower query) (lower (content d)).

(** The documents the second phase takes: those no entry of the first
    phase stands for, with a ratio above 0.15. *)
Definition phase2_takes (query : string) (found : list SearchResult) (d : Doc)
  : bool :=
  negb (existsb (fun r => Z.eqb (id (doc r)) (id d)) found)
  && flt (flit (15 # 100)) (ratio (lower query) (lower (content d))).

End Search.

(** [MOCK_DOCS] as the module defines it: the catalog every run starts with. *)
Definition MOCK_DOCS : catalog :=
[
  {| id := 1%Z;
     title := "Póliza de Seguro de Auto";
     content :=
     "Póliza de Seguro de Auto - Documento oficial" ++ nl ++
     "Asegurador: Global Insurance Inc." ++ nl ++
     "Tipo de cobertura: Comprehensive + Collision" ++ nl ++
     "Cubre daños a terceros hasta $50,000" ++ nl ++
     "Cubre daños propios hasta $30,000" ++ nl ++
     "Deducible: $500" ++ nl ++
     "Vigencia: 2025-01-01 hasta 2026-01-01" ++ nl ++
     "Vence: 2026-01-01" ++ nl ++
     "Número de Póliza: POL-2025-AUTO-12345" ++ nl ++
     "Contacto de Emergencia: 1-800-555-INSURANCE" ++ nl ++
     "Procedimiento en caso de accidente:" ++ nl ++
     "1. Llamar a emergencias" ++ nl ++
     "2. Notificar a la aseguradora dentro de 24 horas" ++ nl ++
     "3. Adjuntar documentos de soporte";
     category := "insurance";
     tags := ["auto"; "seguro"; "póliza"; "cobertura"; "deducible"] |};
  {| id := 2%Z;
     title := "Plan Nutricional Familiar";
     content :=
     "Plan de Nutrición - Programa de Salud Familiar" ++ nl ++
     "Objetivo: Mantener una dieta balanceada y saludable" ++ nl ++
     nl ++
     "SEMANA 1:" ++ nl ++
     "Lunes: Pescado a la parrilla con vegetales, arroz integral" ++ nl ++
     "Martes: Pollo al horno con batata y brócoli" ++ nl ++
     "Miércoles: Pavo molido con espagueti integral" ++ nl ++
     "Jueves: Salmón con quinua y espárragos" ++ nl ++
     "Viernes: Pechuga de pollo con ensalada de aguacate" ++ nl ++
     "Sábado: Carne magra con papas al horno" ++ nl ++
     "Domingo: Descanso - comida con familia (sin restricciones)" ++ nl ++
     nl ++
     "RECOMENDACIONES:" ++ nl ++
     "- Evitar azúcares refinados" ++ nl ++
     "- Beber 2 litros de agua diaria" ++ nl ++
     "- Consumir frutas entre comidas" ++ nl ++
     "- Proteína en cada comida principal" ++ nl ++
     "- Grasas saludables (aguacate, nueces, aceite de oliva)" ++ nl ++
     "- Evitar alimentos ultraprocesados" ++ nl ++
     "- Snacks saludables: yogur, frutos secos, frutas" ++ nl ++
     nl ++
     "ALERGIAS/RESTRICCIONES:" ++ nl ++
     "- Ninguna reportada (revisar anualmente)";
     category := "nutrition";
     tags := ["dieta"; "nutrición"; "comida"; "salud"; "alimentos"] |};
  {| id := 3%Z;
     title := "Contrato de Arrendamiento";
     content :=
     "CONTRATO DE ARRENDAMIENTO DE INMUEBLE" ++ nl ++
     "Celebrado entre:" ++ nl ++
     "ARRENDADOR: Property Management Corp." ++ nl ++
     "ARRENDATARIO: Tu Familia" ++ nl ++
     nl ++
     "PROPIEDADES:" ++ nl ++
     "Dirección: 123 Main Street, Apartment 4B" ++ nl ++
     "Tipo: Apartamento de 2 dormitorios" ++ nl ++
     nl ++
     "TÉRMINOS:" ++ nl ++
     "Duración: 12 meses (renovable)" ++ nl ++
     "Fecha de Inicio: 2025-01-01" ++ nl ++
     "Fecha de Vencimiento: 2026-01-01" ++ nl ++
     "Monto de Renta: $1,200 USD mensual" ++ nl ++
     "Día de Pago: Antes del día 5 de cada mes" ++ nl ++
     "Forma de Pago: Transferencia bancaria" ++ nl ++
     "Número de Cuenta: 123-456-789" ++ nl ++
     nl ++
     "DEPÓSITO DE SEGURIDAD:" ++ nl ++
     "Monto: $1,200 USD (equivalente a 1 mes)" ++ nl ++
     "Estado: Depositado" ++ nl ++
     "Devolución: Al finalizar contrato (menos daños)" ++ nl ++
     nl ++
     "RESPONSABILIDADES DEL ARRENDATARIO:" ++ nl ++
     "- Mantener el inmueble en buen estado" ++ nl ++
     "- Pagar servicios (luz, agua, gas) a tiempo" ++ nl ++
     "- Notificar reparaciones necesarias" ++ nl ++
     "- No permitir subarrendamiento" ++ nl ++
     nl ++
     "CAUSALES DE TERMINACIÓN:" ++ nl ++
     "- Falta de pago por 30 días" ++ nl ++
     "- Daños graves al inmueble" ++ nl ++
     "- Violación de cláusulas del contrato";
     category := "legal";
     tags := ["arrendamiento"; "renta"; "contrato"; "pago"; "vivienda"] |};
  {| id := 4%Z;
     title := "Rutina de Ejercicio";
     content :=
     "RUTINA DE EJERCICIO - Programa de Fitness Familiar" ++ nl ++
     "Objetivo: Mantener actividad física regular" ++ nl ++
     "Duración de sesión: 45-60 minutos" ++ nl ++
     nl ++
     "CALENTAMIENTO (5 minutos):" ++ nl ++
     "- Caminata suave" ++ nl ++
     "- Movimientos articulares dinámicos" ++ nl ++
     "- Estiramientos activos" ++ nl ++
     nl ++
     "ENTRENAMIENTO CARDIOVASCULAR (20 minutos):" ++ nl ++
     "- Correr: 3 km" ++ nl ++
     "- O trotar: 5 km" ++ nl ++
     "- O bicicleta: 15 km" ++ nl ++
     "- Intensidad: Moderada (60-75% FCMax)" ++ nl ++
     nl ++
     "ENTRENAMIENTO DE FUERZA (20 minutos):" ++ nl ++
     "Lunes: Pecho y tríceps" ++ nl ++
     "Martes: Espalda y bíceps" ++ nl ++
     "Miércoles: Piernas" ++ nl ++
     "Jueves: Hombros y core" ++ nl ++
     "Viernes: HIIT (entrenamiento de alta intensidad)" ++ nl ++
     nl ++
     "ENFRIAMIENTO (5-10 minutos):" ++ nl ++
     "- Caminata lenta" ++ nl ++
     "- Estiramientos estáticos" ++ nl ++
     "- Respiración profunda" ++ nl ++
     nl ++
     "FRECUENCIA: 5 días a la semana (descanso sábado-domingo)";
     category := "health";
     tags := ["ejercicio"; "gym"; "fitness"; "deporte"; "rutina"] |};
  {| id := 5%Z;
     title := "Presupuesto Mensual Familiar";
     content :=
     "PRESUPUESTO MENSUAL FAMILIAR - 2025" ++ nl ++
     "Ingresos Totales: $4,500 USD" ++ nl ++
     nl ++
     "GASTOS FIJOS:" ++ nl ++
     "Renta/Hipoteca: $1,200 (26.7%)" ++ nl ++
     "Servicios (luz, agua, gas): $150 (3.3%)" ++ nl ++
     "Internet/Telefonía: $100 (2.2%)" ++ nl ++
     "Seguro de Auto: $150 (3.3%)" ++ nl ++
     "Seguro de Salud: $250 (5.6%)" ++ nl ++
     "Subtotal Fijos: $1,850" ++ nl ++
     nl ++
     "GASTOS VARIABLES:" ++ nl ++
     "Alimentos: $500 (11.1%)" ++ nl ++
     "Transporte: $150 (3.3%)" ++ nl ++
     "Entretenimiento: $150 (3.3%)" ++ nl ++
     "Educación: $200 (4.4%)" ++ nl ++
     "Ropa y Calzado: $100 (2.2%)" ++ nl ++
     "Cuidados Personales: $80 (1.8%)" ++ nl ++
     "Subtotal Variables: $1,180" ++ nl ++
     nl ++
     "AHORRO Y METAS:" ++ nl ++
     "Fondo de Emergencia: $400 (8.9%)" ++ nl ++
     "Vacaciones: $200 (4.4%)" ++ nl ++
     "Inversiones: $200 (4.4%)" ++ nl ++
     "Subtotal Ahorro: $800" ++ nl ++
     nl ++
     "TOTAL: $3,830 (Sobra: $670 - flexible para ajustes)";
     category := "finance";
     tags := ["presupuesto"; "gastos"; "finanzas"; "dinero"; "ingresos"] |};
  {| id := 6%Z;
     title := "Calendario Médico y Vacunas";
     content :=
     "CALENDARIO MÉDICO Y VACUNAS - Registro de Salud Familiar" ++ nl ++
     nl ++
     "CITAS MÉDICAS:" ++ nl ++
     "Juan (Padre):" ++ nl ++
     "- Próximo chequeo general: 2025-02-15" ++ nl ++
     "- Oftalmólogo: 2025-01-30" ++ nl ++
     "- Dentista: Cada 6 meses" ++ nl ++
     nl ++
     "María (Madre):" ++ nl ++
     "- Próximo chequeo general: 2025-02-20" ++ nl ++
     "- Ginecólogo: Anualmente" ++ nl ++
     "- Dermatólogo: 2025-03-10" ++ nl ++
     nl ++
     "VACUNAS:" ++ nl ++
     "REQUERIDAS:" ++ nl ++
     "- COVID-19: Completar dosis (cada 1 año)" ++ nl ++
     "- Influenza (Gripe): Anual (Octubre-Noviembre)" ++ nl ++
     "- Neumococo: Cada 5 años" ++ nl ++
     "- Tétanos: Cada 10 años" ++ nl ++
     nl ++
     "RECOMENDADAS:" ++ nl ++
     "- Shingles (Herpes Zóster): Mayores de 50 años" ++ nl ++
     "- VPH: Jóvenes (si aplica)" ++ nl ++
     nl ++
     "REGISTRO DE VACUNACIÓN:" ++ nl ++
     "- COVID: Última dosis 2024-11-15 (próxima: 2025-11-15)" ++ nl ++
     "- Influenza: Última dosis 2024-10-20 (próxima: 2025-10-20)" ++ nl ++
     "- Neumococo: Última dosis 2022-03-10 (próxima: 2027-03-10)";
     category := "health";
     tags := ["vacunas"; "médico"; "salud"; "citas"; "chequeo"] |};
  {| id := 7%Z;
     title := "Números Importantes de Emergencia";
     content :=
     "NÚMEROS IMPORTANTES DE EMERGENCIA" ++ nl ++
     nl ++
     "SERVICIOS DE EMERGENCIA:" ++ nl ++
     "Emergencias Médicas (Ambulancia): 911" ++ nl ++
     "Bomberos: 911" ++ nl ++
     "Policía: 911" ++ nl ++
     nl ++
     "HOSPITALES CERCANOS:" ++ nl ++
     "Hospital General: (555) 123-4567" ++ nl ++
     "Clínica Privada: (555) 234-5678" ++ nl ++
     "Centro Urgencias 24h: (555) 345-6789" ++ nl ++
     nl ++
     "CONTACTOS MÉDICOS:" ++ nl ++
     "Médico General (Dr. Smith): (555) 456-7890" ++ nl ++
     "Dentista (Dra. García): (555) 567-8901" ++ nl ++
     "Oftalmólogo (Dr. Brown): (555) 678-9012" ++ nl ++
     nl ++
     "SERVICIOS DE UTILIDAD:" ++ nl ++
     "Servicios de Gas: (555) 789-0123" ++ nl ++
     "Agua y Alcantarillado: (555) 890-1234" ++ nl ++
     "Electricidad: (555) 901-2345" ++ nl ++
     "Internet/Telefonía: (555) 012-3456" ++ nl ++
     nl ++
     "SEGUROS:" ++ nl ++
     "Seguro Auto: 1-800-555-AUTO" ++ nl ++
     "Seguro Salud: 1-800-555-HEALTH" ++ nl ++
     "Seguro Hogar: 1-800-555-HOME" ++ nl ++
     nl ++
     "CONTACTOS FAMILIARES IMPORTANTES:" ++ nl ++
     "Abuelo paterno (Emergencias): (555) 111-2222" ++ nl ++
     "Tía María (Respaldo): (555) 222-3333" ++ nl ++
     "Primo Carlos (Soporte): (555) 333-4444";
     category := "emergency";
     tags := ["emergencia"; "teléfono"; "contacto"; "hospital"; "ayuda"] |}
].

End Docs.

(* ===================================================================== *)
(** ** Instances of the interfaces, for running the code                 *)
(* ===================================================================== *)

Module Latin1.

(** [str] methods on the Basic Latin and Latin-1 Supplement blocks (the
    characters of the repository's texts), ASCII whitespace. *)

Definition byte (n : nat) : ascii := ascii_of_nat n.

Definition in_range (lo hi : nat) (c : ascii) : bool :=
  let n := nat_of_ascii c in (lo <=? n)%nat && (n <=? hi)%nat.

Definition plus32 (c : ascii) : ascii := ascii_of_nat (nat_of_ascii c + 32).
Definition minus32 (c : ascii) : ascii := ascii_of_nat (nat_of_ascii c - 32).

(** A-Z, and U+00C0..U+00DE but for the multiplication sign U+00D7,
    encoded as 0xC3 followed by 0x80..0x9E. *)
Fixpoint lower (s : string) : string :=
  match s with
  | EmptyString => EmptyString
  | String c rest =>
      if in_range 65 90 c then String (plus32 c) (lower rest)
      else if Ascii.eqb c (byte 195) then
        match rest with
        | EmptyString => String c EmptyString
        | String d rest' =>
            if in_range 128 158 d && negb (Ascii.eqb d (byte 151))
            then String c (String (plus32 d) (lower rest'))
            else String c (String d (lower rest'))
        end
      else String c (lower rest)
  end.

(** a-z, U+00E0..U+00FE but for the division sign U+00F7; the sharp s
    becomes SS, y with diaeresis U+0178 and the micro sign U+039C. *)
Fixpoint upper (s : string) : string :=
  match s with
  | EmptyString => EmptyString
  | String c rest =>
      if in_range 97 122 c then String (minus32 c) (upper rest)
      else if Ascii.eqb c (byte 195) then
        match rest with
        | EmptyString => String c EmptyString
        | String d rest' =>
            if in_range 160 190 d && negb (Ascii.eqb d (byte 183))
            then String c (String (minus32 d) (upper rest'))
            else if Ascii.eqb d (byte 159) then "SS" ++ upper rest'
            else if Ascii.eqb d (byte 191)
            then String (byte 197) (String (byte 184) (upper rest'))
            else String c (String d (upper rest'))
        end
      else if Ascii.eqb c (byte 194) then
        match rest with
        | EmptyString => String c EmptyString
        | String d rest' =>
            if Ascii.eqb d (byte 181)
            then String (byte 206) (String (byte 156) (upper rest'))
            else String c (String d (upper rest'))
        end
      else String c (upper rest)
  end.

Definition is_space (c : ascii) : bool :=
  in_range 9 13 c || in_range 28 32 c.

Fixpoint lstrip (s : string) : string :=
  match s with
  | EmptyString => EmptyString
  | String c rest => if is_space c then lstrip rest else s
  end.

Fixpoint rstrip (s : string) : string :=
  match s with
  | EmptyString => EmptyString
  | String c rest =>
      match rstrip rest with
      | EmptyString => if is_space c then EmptyString else String c EmptyString
      | kept => String c kept
      end
  end.

Definition strip (s : string) : string := rstrip (lstrip s).

Definition cons_word (w : string) (ws : list string) : list string :=
  match w with
  | EmptyString => ws
  | _ => w :: ws
  end.

(** The word being read and the words after it. *)
Fixpoint words (s : string) : string * list string :=
  match s with
  | EmptyString => (EmptyString, [])
  | String c rest =>
      let (w, ws) := words rest in
      if is_space c then (EmptyString, cons_word w ws) else (String c w, ws)
  end.

Definition split (s : string) : list string :=
  let (w, ws) := words s in cons_word w ws.

Lemma space_not_graph (c : ascii) : is_space c = true -> is_graph c = false.
Proof.
  destruct c as [[] [] [] [] [] [] [] []]; vm_compute; intro H;
    first [ reflexivity | discriminate H ].
Qed.

Lemma lstrip_ends (s : string) :
  exists l, s = l ++ lstrip s /\ no_graph l = true.
Proof.
  induction s as [| c s [l [Hs Hl]]]; simpl.
  - exists EmptyString. now split.
  - destruct (is_space c) eqn:Hc.
    + exists (String c l). simpl. rewrite <- Hs.
      now rewrite (space_not_graph c Hc), Hl.
    + exists EmptyString. now split.
Qed.

Lemma rstrip_ends (s : string) :
  exists r, s = rstrip s ++ r /\ no_graph r = true.
Proof.
  induction s as [| c s [r [Hs Hr]]]; simpl.
  - exists EmptyString. now split.
  - destruct (rstrip s) as [| k kept] eqn:Hk.
    + destruct (is_space c) eqn:Hc.
      * exists (String c r). simpl in *. subst s. split; [reflexivity |].
        simpl. now rewrite (space_not_graph c Hc), Hr.
      * exists r. simpl in *. now subst s.
    + exists r. simpl in *. rewrite <- Hs. now split.
Qed.

Lemma strip_ends (s : string) :
  exists l r, s = l ++ strip s ++ r /\ no_graph l = true /\ no_graph r = true.
Proof.
  destruct (lstrip_ends s) as [l [Hs Hl]].
  destruct (rstrip_ends (lstrip s)) as [r [Hm Hr]].
  exists l, r. unfold strip. now rewrite <- Hm.
Qed.

#[export] Instance str_methods : PyStr :=
  {| Py.lower := lower;
     Py.upper := upper;
     Py.strip := strip;
     Py.split := split;
     Py.strip_ends := strip_ends |}.

End Latin1.

Module Exact.

(** Floats without rounding: rational arithmetic. *)

Definition lt (a b : Q) : bool :=
  match (a ?= b)%Q with
  | Lt => true
  | _ => false
  end.

(** [int(x)] truncates toward zero. *)
Definition trunc (a : Q) : Z := Z.quot (Qnum a) (Z.pos (Qden a)).

Lemma lt_true (a b : Q) : lt a b = true <-> (a < b)%Q.
Proof.
  unfold lt. rewrite Qlt_alt.
  destruct (a ?= b)%Q; split; intro H; first [ reflexivity | discriminate H ].
Qed.

Lemma lt_false (a b : Q) : lt a b = false <-> (b <= a)%Q.
Proof.
  split.
  - intro H. apply Qnot_lt_le. intro Hlt. apply lt_true in Hlt. congruence.
  - intro H. destruct (lt a b) eqn:Hab; [| reflexivity].
    apply lt_true in Hab. exfalso. exact (Qlt_not_le _ _ Hab H).
Qed.

Lemma lt_asym (a b : Q) : lt a b = true -> lt b a = false.
Proof.
  rewrite lt_true, lt_false. apply Qlt_le_weak.
Qed.

Lemma ge_trans (a b c : Q) : lt a b = false -> lt b c = false -> lt a c = false.
Proof.
  rewrite !lt_false. intros Hab Hbc. exact (Qle_trans _ _ _ Hbc Hab).
Qed.

#[export] Instance floats : PyFloat :=
  {| Py.float := Q;
     Py.flit := fun q => q;
     Py.float_of_Z := inject_Z;
     Py.fadd := Qplus;
     Py.fmul := Qmult;
     Py.flt := lt;
     Py.int_of_float := trunc;
     Py.flt_asym := lt_asym;
     Py.fge_trans := ge_trans |}.

(** A stand-in for [SequenceMatcher.ratio]: twice the length of the common
    prefix over the total length, 1 for two empty texts. *)
Fixpoint common_prefix (a b : string) : nat :=
  match a, b with
  | String x a', String y b' =>
      if Ascii.eqb x y then Datatypes.S (common_prefix a' b') else O
  | _, _ => O
  end.

Definition prefix_ratio (a b : string) : Q :=
  match (String.length a + String.length b)%nat with
  | O => 1
  | Datatypes.S t =>
      Qmake (2 * Z.of_nat (common_prefix a b)) (Pos.of_succ_nat t)
  end.

#[export] Instance matcher : Difflib floats :=
  {| Py.ratio := prefix_ratio |}.

End Exact.

(* ===================================================================== *)
(** ** Wiring and sample inputs                                          *)
(* ===================================================================== *)

(** The retrieval tool of [compile_rag_graph(llm, retrieve_documents)], as
    [src/graph.py] builds the sub-graph: the object [@tool] makes of
    [retrieve_documents] in [src/tools/docs.py], a [StructuredTool].
    [retrieve_node] calls it like a function.  In langchain-core before 1.0
    a tool has a [__call__] that runs it on the text ([callable] is [true]);
    from 1.0 on it has none and the call raises ([callable] is [false]).
    [stored] is the catalog as it stands. *)
Definition wired_tool {S : PyStr} {F : PyFloat} {D : Difflib F}
           (callable : bool) (stored : Docs.catalog) : Rag.tool :=
  fun question =>
    if callable
    then Ok (Rag.DStr (fst (Docs.retrieve_documents question stored)))
    else Raise (TypeError "'StructuredTool' object is not callable").

(** Templates as [str.format] reads them, for running the nodes: a doubled
    brace gives one brace, a closing brace on its own is refused with the
    message of [str.format].  An opening brace on its own is refused as
    well; the library's message for a replacement field is longer and is
    not reproduced. *)
Module Fstring.

Definition is_brace (c : ascii) : bool := Ascii.eqb c "{" || Ascii.eqb c "}".

Fixpoint format_text (s : string) : result string :=
  match s with
  | EmptyString => Ok EmptyString
  | String c rest =>
      if is_brace c
      then match rest with
           | String c' rest' =>
               if Ascii.eqb c c'
               then bind (format_text rest') (fun t => Ok (String c t))
               else Raise (ValueError ("Single '" ++ String c EmptyString
                                       ++ "' encountered in format string"))
           | EmptyString =>
               Raise (ValueError ("Single '" ++ String c EmptyString
                                  ++ "' encountered in format string"))
           end
      else bind (format_text rest) (fun t => Ok (String c t))
  end.

Fixpoint format_messages (p : Rag.prompt) : result Rag.prompt :=
  match p with
  | [] => Ok []
  | (role, text) :: rest =>
      bind (format_text text) (fun text' =>
      bind (format_messages rest) (fun rest' => Ok ((role, text') :: rest')))
  end.

Lemma format_text_plain (s : string) :
  Rag.no_braces s = true -> format_text s = Ok s.
Proof.
  induction s as [| c rest IH]; [reflexivity |]. cbn [Rag.no_braces format_text].
  unfold is_brace.
  destruct (Ascii.eqb c "{"); [discriminate |].
  destruct (Ascii.eqb c "}"); [discriminate |].
  cbn [negb andb orb]. intro H. now rewrite (IH H).
Qed.

Lemma format_messages_plain (p : Rag.prompt) :
  forallb (fun m => Rag.no_braces (snd m)) p = true -> format_messages p = Ok p.
Proof.
  induction p as [| [role text] rest IH]; [reflexivity |].
  cbn [forallb snd format_messages]. intro H.
  apply andb_prop in H. destruct H as [Htext Hrest].
  now rewrite (format_text_plain text Htext), (IH Hrest).
Qed.

Definition templates : Rag.ChatPromptTemplate :=
  {| Rag.format_messages := format_messages;
     Rag.format_plain := format_messages_plain |}.

End Fstring.

(** The state of a conversation whose history is one user utterance. *)
Definition said (utterance : string) : Router.AgentState :=
  {| Router.messages := [HumanMessage (CStr utterance)];
     Router.user_id := "user";
     Router.current_context := "" |}.

(** A user message whose content is a list of blocks: lower-casing it fails
    inside the [try]. *)
Definition said_blocks (repr : string) : Router.AgentState :=
  {| Router.messages := [HumanMessage (CList repr)];
     Router.user_id := "user";
     Router.current_context := "" |}.

Definition sample_doc : Rag.doc :=
  [("title", "Plan Nutricional Familiar"); ("content", "Lunes: pescado")].

(** A retrieval tool that returns text. *)
Definition text_tool : Rag.tool := fun _ => Ok (Rag.DStr "1. PLAN").

(** The state of a run in which [docs] have just been retrieved. *)
Definition retrieved (question : string) (docs : list Rag.doc) : Rag.RAGState :=
  {| Rag.question := question;
     Rag.messages := [];
     Rag.documents := Some (Rag.DList docs);
     Rag.generation := Some "";
     Rag.web_search := Some "no";
     Rag.loop_count := Some 0%Z;
     Rag.max_loops := Some 3%Z |}.


(** The state of a run on a later pass: [loops] rewrites made, [limit]
    allowed, and [docs] just retrieved. *)
Definition on_pass (loops limit : Z) (question : string) (docs : list Rag.doc)
  : Rag.RAGState :=
  {| Rag.question := question;
     Rag.messages := [];
     Rag.documents := Some (Rag.DList docs);
     Rag.generation := Some "";
     Rag.web_search := Some "no";
     Rag.loop_count := Some loops;
     Rag.max_loops := Some limit |}.

(** The input of the module's usage note,
    [{"question": ..., "messages": []}]: the other keys are absent. *)
Definition just_asked (question : string) : Rag.RAGState :=
  {| Rag.question := question;
     Rag.messages := [];
     Rag.documents := None;
     Rag.generation := None;
     Rag.web_search := None;
     Rag.loop_count := None;
     Rag.max_loops := None |}.

(** A state with its two counters replaced. *)
Definition with_counters (state : Rag.RAGState) (loops limit : option Z)
  : Rag.RAGState :=
  {| Rag.question := Rag.question state;
     Rag.messages := Rag.messages state;
     Rag.documents := Rag.documents state;
     Rag.generation := Rag.generation state;
     Rag.web_search := Rag.web_search state;
     Rag.loop_count := loops;
     Rag.max_loops := limit |}.

(** A model that answers "no" to every prompt. *)
Definition always_no : Rag.ChatOpenAI := fun _ _ => Ok "no".

(** A model whose every call fails. *)
Definition always_down : Rag.ChatOpenAI :=
  fun _ _ => Raise (Exception "Connection error.").

(** A model that answers with fixed text. *)
Definition answering (text : string) : Rag.ChatOpenAI := fun _ _ => Ok text.

(* ===================================================================== *)
(** ** [src/tools/docs.py]: the two browsing tools                       *)
(* ===================================================================== *)

Module Browse.

Import Docs.

(** The order in which a [set] of strings is iterated.  It depends on the
    hashes; what is known is that every element comes once. *)
Class PySet : Type := {
  set_iter : list string -> list string;
  set_iter_NoDup : forall xs, NoDup (set_iter xs);
  set_iter_In : forall xs x, In x (set_iter xs) <-> In x xs
}.

(** [s.replace(old, new)] for one-byte [old] and [new]. *)
Fixpoint replace_byte (old new : ascii) (s : string) : string :=
  match s with
  | EmptyString => EmptyString
  | String c rest =>
      String (if Ascii.eqb c old then new else c) (replace_byte old new rest)
  end.

(** [sorted(xs)] on strings: stable, ascending, by [<] on code points (the
    order of the UTF-8 bytes). *)
Fixpoint insert_asc (x : string) (xs : list string) : list string :=
  match xs with
  | [] => [x]
  | y :: ys => if String.ltb y x then y :: insert_asc x ys else x :: y :: ys
  end.

Definition sorted (xs : list string) : list string :=
  fold_right insert_asc [] xs.

(** The dict [by_category], in insertion order. *)
Definition groups : Type := list (string * list Doc).

(** [cat in by_category]. *)
Definition has_key (by_category : groups) (cat : string) : bool :=
  existsb (fun entry => String.eqb (fst entry) cat) by_category.

(** [by_category[cat]]. *)
Fixpoint get_key (by_category : groups) (cat : string) : result (list Doc) :=
  match by_category with
  | [] => Raise (KeyError cat)
  | (k, v) :: rest => if String.eqb k cat then Ok v else get_key rest cat
  end.

(** [by_category[cat] = v]. *)
Fixpoint set_key (by_category : groups) (cat : string) (v : list Doc) : groups :=
  match by_category with
  | [] => [(cat, v)]
  | (k, old) :: rest =>
      if String.eqb k cat then (k, v) :: rest
      else (k, old) :: set_key rest cat v
  end.

Section Tools.

Context {S : PyStr} {P : PySet}.

(** [[doc for doc in MOCK_DOCS if doc["category"] == category_lower]]. *)
Definition matching_docs (category : string) (MOCK_DOCS : catalog) : list Doc :=
  let category_lower := lower category in
  filter (fun d => String.eqb (Docs.category d) category_lower) MOCK_DOCS.

(** The lines one document adds to the output of [search_by_category]. *)
Definition category_entry (d : Doc) : string :=
  let preview := replace_byte (ascii_of_nat 10) " " (take 150 (content d)) in
  let preview :=
    if (150 <? Py.len (content d))%nat then preview ++ "..." else preview in
  "📄 " ++ title d ++ nl
  ++ "   Tags: " ++ String.concat ", " (tags d) ++ nl
  ++ "   " ++ preview ++ nl ++ nl.

(** [search_by_category].  Nothing in the body raises on a [str] category
    and a catalog of well-formed entries. *)
Definition search_by_category (category : string) : St string :=
  fun MOCK_DOCS =>
    let category_lower := lower category in
    let matching_docs := matching_docs category MOCK_DOCS in
    match matching_docs with
    | [] =>
        let available :=
          String.concat ", " (set_iter (map Docs.category MOCK_DOCS)) in
        ("❌ Category '" ++ category ++ "' not found." ++ nl
         ++ "Available categories: " ++ available, MOCK_DOCS)
    | _ =>
        let output := "📚 CATEGORY: " ++ upper category_lower ++ nl in
        let output := output ++ repeat_str "=" 50 ++ nl in
        let output :=
          output ++ "Found " ++ str_of_nat (length matching_docs)
                 ++ " document(s):" ++ nl ++ nl in
        let output :=
          fold_left (fun out d => out ++ category_entry d) matching_docs output in
        (output, MOCK_DOCS)
    end.

(** The body of [for doc in MOCK_DOCS] in [list_all_documents]. *)
Definition group_step (by_category : groups) (d : Doc) : result groups :=
  let cat := Docs.category d in
  let by_category :=
    if has_key by_category cat then by_category else set_key by_category cat [] in
  bind (get_key by_category cat) (fun docs =>
  Ok (set_key by_category cat (docs ++ [d])%list)).

Fixpoint group_loop (by_category : groups) (docs : list Doc) : result groups :=
  match docs with
  | [] => Ok by_category
  | d :: rest =>
      bind (group_step by_category d) (fun by_category =>
      group_loop by_category rest)
  end.

(** The lines one document adds under its category. *)
Definition listing_entry (d : Doc) : string :=
  "   • " ++ title d ++ nl
  ++ "     Tags: " ++ String.concat ", " (firstn 3 (tags d))
  ++ (if (3 <? length (tags d))%nat then "..." else "") ++ nl.

(** The body of [for category in sorted(by_category.keys())]. *)
Definition listing_step (by_category : groups) (output : string)
           (category : string) : result string :=
  bind (get_key by_category category) (fun docs =>
  let output :=
    output ++ nl ++ "📁 " ++ upper category ++ " ("
           ++ str_of_nat (length docs) ++ " document"
           ++ (if negb (length docs =? 1)%nat then "s" else "") ++ ")" ++ nl in
  Ok (fold_left (fun out d => out ++ listing_entry d) docs output)).

Fixpoint listing_loop (by_category : groups) (output : string)
         (categories : list string) : result string :=
  match categories with
  | [] => Ok output
  | category :: rest =>
      bind (listing_step by_category output category) (fun output =>
      listing_loop by_category output rest)
  end.

Definition list_all_try (MOCK_DOCS : catalog) : result string :=
  bind (group_loop [] MOCK_DOCS) (fun by_category =>
  let output := "📚 FAMILY DOCUMENT DATABASE" ++ nl in
  let output := output ++ repeat_str "=" 50 ++ nl in
  let output :=
    output ++ "Total Documents: " ++ str_of_nat (length MOCK_DOCS) ++ nl ++ nl in
  let output := output ++ "CATEGORIES:" ++ nl in
  listing_loop by_category output (sorted (map fst by_category))).

Definition list_all_documents : St string :=
  fun MOCK_DOCS =>
    match list_all_try MOCK_DOCS with
    | Ok output => (output, MOCK_DOCS)
    | Raise e => ("❌ Error listing documents: " ++ str_exn e, MOCK_DOCS)
    end.

End Tools.

(** A [set] iterated in the order of first insertion. *)
#[export] Instance first_seen : PySet :=
  {| set_iter := nodup string_dec;
     set_iter_NoDup := NoDup_nodup string_dec;
     set_iter_In := nodup_In string_dec |}.

End Browse.

(* ===================================================================== *)
(** ** [src/state.py] and [src/graph.py]: the assistant's graph          *)
(* ===================================================================== *)

Module Assistant.

(** A [dict] with string keys, in insertion order. *)
Definition dict (V : Type) : Type := list (string * V).

(** [d[k] = v]: a key that is there keeps its place. *)
Fixpoint dict_set {V : Type} (d : dict V) (k : string) (v : V) : dict V :=
  match d with
  | [] => [(k, v)]
  | (k', old) :: rest =>
      if String.eqb k' k then (k', v) :: rest
      else (k', old) :: dict_set rest k v
  end.

(** [d.get(k)]. *)
Fixpoint dict_get {V : Type} (d : dict V) (k : string) : option V :=
  match d with
  | [] => None
  | (k', v) :: rest => if String.eqb k' k then Some v else dict_get rest k
  end.

(** The requests made to the chat model by the nodes of [src/graph.py]:
    the tools bound, if any, and the messages sent. *)
Definition request : Type := option (list string) * list message.

(** The model as the two graphs use it.  [bind_tools tools] says whether
    [llm.bind_tools(tools)] succeeds; [invoke k tools messages] is the content
    of the answer to [llm_with_tools.invoke(messages)], or the exception
    raised, when [k] requests of this kind went before; [as_rag] is the same
    model answering the prompts of the sub-graph of [src/rag/graph.py]. *)
Record ChatOpenAI : Type := {
  bind_tools : list string -> result Datatypes.unit;
  invoke : nat -> option (list string) -> list message -> result content;
  as_rag : Rag.ChatOpenAI
}.

(** What has been sent to the model so far. *)
Record World : Type := {
  chat_log : list request;
  rag_log : list Rag.prompt
}.

Definition W (A : Type) : Type := World -> A * World.

Definition ret {A : Type} (a : A) : W A := fun w => (a, w).

Definition mbind {A B : Type} (m : W A) (k : A -> W B) : W B :=
  fun w => let (a, w') := m w in k a w'.

Notation "x <- m ;; k" := (mbind m (fun x => k))
  (at level 61, m at next level, right associativity).

Definition invoke_chat (llm : ChatOpenAI) (tools : option (list string))
           (messages : list message) : W (result content) :=
  fun w =>
    (invoke llm (length (chat_log w)) tools messages,
     {| chat_log := (chat_log w ++ [(tools, messages)])%list;
        rag_log := rag_log w |}).

(** A computation of the sub-graph, run on its part of the log. *)
Definition lift_rag {A : Type} (m : Rag.M A) : W A :=
  fun w =>
    let (a, log) := m (rag_log w) in
    (a, {| chat_log := chat_log w; rag_log := log |}).

(** The names of the tools in [finance_tools], [health_tools] and the list
    [create_drive_tools_mock()] returns. *)
Definition finance_tools : list string :=
  [ "add_expense"; "check_budget"; "get_balance"; "get_spending_insights" ].

Definition health_tools : list string :=
  [ "log_habit"; "check_habit_progress"; "get_health_summary";
    "get_habit_motivation" ].

Definition create_drive_tools_mock : list string :=
  [ "list_drive_files"; "read_drive_file" ].

Section Nodes.

Context {S : PyStr} {F : PyFloat} {D : Difflib F}.
Context {T : Rag.ChatPromptTemplate}.

(** The runtime of the sub-graph. *)
Context {G : LangGraph.Pregel Rag.action Rag.path Rag.RAGState Rag.M}.

(** [Goal] of [src/state.py]. *)
Record Goal : Type := {
  name : string;
  target : float;
  current : float;
  unit : string;
  deadline : option string
}.

(** [AgentState].  For [active_goals] and [current_context], read with
    [state.get(key, default)], [None] is a key that is absent; for the last
    three keys, which no node reads, it is Python's [None]. *)
Record AgentState : Type := {
  messages : list message;
  user_id : string;
  active_goals : option (dict Goal);
  current_context : option string;
  retrieved_docs : option (list Rag.doc);
  reasoning_steps : option (list string);
  session_id : option string
}.

(** [create_initial_state]: [goals or []] folded into a dict by name. *)
Definition create_initial_state (user_id : string) (goals : option (list Goal))
  : AgentState :=
  let goals := match goals with Some l => l | None => [] end in
  let goals_dict :=
    fold_left (fun d goal => dict_set d (name goal) goal) goals [] in
  {| messages := [];
     user_id := user_id;
     active_goals := Some goals_dict;
     current_context := Some "unknown";
     retrieved_docs := None;
     reasoning_steps := Some [];
     session_id := None |}.

(** The dict a node returns. *)
Record Update : Type := {
  u_messages : list message;
  u_current_context : option string
}.

(** [messages] goes through its reducer [add_messages], [current_context]
    is replaced. *)
Definition apply_update (state : AgentState) (u : Update) : AgentState :=
  {| messages := (messages state ++ u_messages u)%list;
     user_id := user_id state;
     active_goals := active_goals state;
     current_context := Rag.or_old (u_current_context u) (current_context state);
     retrieved_docs := retrieved_docs state;
     reasoning_steps := reasoning_steps state;
     session_id := session_id state |}.

(** What [router_node] looks at. *)
Definition router_view (state : AgentState) : Router.AgentState :=
  {| Router.messages := messages state;
     Router.user_id := user_id state;
     Router.current_context :=
       match current_context state with Some c => c | None => "" end |}.

Definition router_node (state : AgentState) : Update :=
  {| u_messages := [];
     u_current_context := Some (Router.router_node (router_view state)) |}.

Definition error_update (prefix : string) (e : exn) (context : option string)
  : Update :=
  {| u_messages := [AIMessage (CStr (prefix ++ str_exn e))];
     u_current_context := context |}.

(** [", ".join([f"{g.name} (meta: {g.target})" for g in
    state.get("active_goals", [])])]: iterating a dict gives its keys, and a
    [str] has no attribute [name]. *)
Definition goals_text_of (state : AgentState) : result string :=
  match active_goals state with
  | None | Some [] => Ok ""
  | Some (_ :: _) => Raise (AttributeError "'str' object has no attribute 'name'")
  end.

Definition finance_prompt (goals_text : string) : string :=
  "Eres un experto financiero especializado en gestión de presupuestos familiares." ++ nl
  ++ "Tu objetivo es ayudar al usuario a optimizar sus finanzas, controlar gastos y alcanzar sus metas." ++ nl
  ++ "Metas activas del usuario: " ++ goals_text ++ nl
  ++ nl
  ++ "Cuando el usuario pregunte sobre finanzas:" ++ nl
  ++ "1. Usa las herramientas disponibles para obtener datos actuales" ++ nl
  ++ "2. Proporciona análisis detallado" ++ nl
  ++ "3. Ofrece recomendaciones personalizadas" ++ nl
  ++ "4. Sé proactivo en alertar sobre presupuestos excedidos" ++ nl
  ++ "5. Celebra los logros financieros" ++ nl
  ++ nl
  ++ "Mantén un tono profesional pero accesible.".

Definition finance_try (state : AgentState) (llm : ChatOpenAI)
  : W (result Update) :=
  match bind_tools llm finance_tools with
  | Raise e => ret (Raise e)
  | Ok _ =>
      match goals_text_of state with
      | Raise e => ret (Raise e)
      | Ok goals_text =>
          let goals_text :=
            if String.eqb goals_text "" then "No goals defined yet"
            else goals_text in
          let system_prompt := finance_prompt goals_text in
          let messages :=
            SystemMessage (CStr system_prompt) :: messages state in
          response <- invoke_chat llm (Some finance_tools) messages ;;
          match response with
          | Raise e => ret (Raise e)
          | Ok c =>
              ret (Ok {| u_messages := [AIMessage c];
                         u_current_context := None |})
          end
      end
  end.

Definition finance_node (state : AgentState) (llm : ChatOpenAI) : W Update :=
  r <- finance_try state llm ;;
  match r with
  | Ok u => ret u
  | Raise e => ret (error_update "❌ Error en finance_node: " e None)
  end.

Definition health_prompt : string :=
  "Eres un coach de salud y bienestar especializado en hábitos familiares." ++ nl
  ++ "Tu objetivo es motivar y apoyar al usuario en su camino hacia una vida más saludable." ++ nl
  ++ nl
  ++ "Cuando el usuario pregunte sobre salud, hábitos o ejercicio:" ++ nl
  ++ "1. Usa las herramientas para registrar o consultar hábitos" ++ nl
  ++ "2. Proporciona motivación y celebra los logros" ++ nl
  ++ "3. Ofrece consejos prácticos basados en progreso actual" ++ nl
  ++ "4. Identifica patrones y áreas de mejora" ++ nl
  ++ "5. Sé empático y comprensivo con los desafíos" ++ nl
  ++ nl
  ++ "Tono: Motivador, positivo, accesible.".

Definition health_try (state : AgentState) (llm : ChatOpenAI)
  : W (result Update) :=
  match bind_tools llm health_tools with
  | Raise e => ret (Raise e)
  | Ok _ =>
      let messages := SystemMessage (CStr health_prompt) :: messages state in
      response <- invoke_chat llm (Some health_tools) messages ;;
      match response with
      | Raise e => ret (Raise e)
      | Ok c =>
          ret (Ok {| u_messages := [AIMessage c]; u_current_context := None |})
      end
  end.

Definition health_node (state : AgentState) (llm : ChatOpenAI) : W Update :=
  r <- health_try state llm ;;
  match r with
  | Ok u => ret u
  | Raise e => ret (error_update "❌ Error en health_node: " e None)
  end.

(** The question [docs_node] takes from the last message: the content of a
    [HumanMessage] as it is, a [str] or a list of blocks, and [str(content)]
    for any other message. *)
Inductive user_question : Type :=
| QStr (q : string)
| QBlocks (repr : string).

Definition user_question_of (last_message : message) : user_question :=
  match last_message with
  | HumanMessage (CStr q) => QStr q
  | HumanMessage (CList repr) => QBlocks repr
  | _ => QStr (str_content (message_content last_message))
  end.

(** The run of a compiled sub-graph on a question that is a list of content
    blocks.  The model of [src/rag/graph.py] takes a [str] question; what a
    sub-graph makes of a list is left open, and nothing is assumed of it. *)
Variable blocks_run :
  LangGraph.CompiledStateGraph -> string -> Rag.M (result Rag.RAGState).

(** Whether the tool object can be called like a function, see
    [wired_tool]. *)
Variable tool_callable : bool.

(** [stored] is the catalog the [retrieve_documents] tool reads.  With no
    [rag_graph] given the node compiles one, inside its [try]. *)
Definition docs_try (stored : Docs.catalog) (state : AgentState)
           (llm : ChatOpenAI) (rag_graph : option LangGraph.CompiledStateGraph)
  : W (result Update) :=
  match messages state with
  | [] =>
      ret (Ok {| u_messages :=
                   [AIMessage (CStr "Por favor, cuéntame qué información de documentos necesitas.")];
                 u_current_context := None |})
  | m :: ms =>
      let last_message := last ms m in
      let user_question := user_question_of last_message in
      match match rag_graph with
            | Some g => Ok g
            | None =>
                Rag.compile_rag_graph (as_rag llm)
                                      (wired_tool tool_callable stored)
            end with
      | Raise e => ret (Raise e)
      | Ok rag_graph =>
          result <- lift_rag
                      match user_question with
                      | QStr q =>
                          let rag_state := Rag.create_initial_rag_state q 3 in
                          LangGraph.invoke rag_graph rag_state
                      | QBlocks repr => blocks_run rag_graph repr
                      end ;;
          match result with
          | Raise e => ret (Raise e)
          | Ok result =>
              let final_response :=
                match Rag.generation result with
                | Some generation => generation
                | None => "No se pudo generar respuesta."
                end in
              ret (Ok {| u_messages := [AIMessage (CStr final_response)];
                         u_current_context := Some "docs" |})
          end
      end
  end.

Definition docs_node (stored : Docs.catalog) (state : AgentState)
           (llm : ChatOpenAI) (rag_graph : option LangGraph.CompiledStateGraph)
  : W Update :=
  r <- docs_try stored state llm rag_graph ;;
  match r with
  | Ok u => ret u
  | Raise e =>
      ret (error_update "❌ Error en docs_node (Agentic RAG): " e (Some "docs"))
  end.

Definition drive_prompt : string :=
  "Eres un especialista en gestión de archivos de Google Drive." ++ nl
  ++ "Tu objetivo es ayudar al usuario a acceder, listar y leer archivos." ++ nl
  ++ nl
  ++ "Cuando el usuario pregunte por archivos o carpetas:" ++ nl
  ++ "1. Usa list_drive_files para explorar la estructura" ++ nl
  ++ "2. Usa read_drive_file para acceder al contenido" ++ nl
  ++ "3. Presenta la información de forma clara y organizada" ++ nl
  ++ "4. Ofrece sugerencias de navegación si es relevante" ++ nl
  ++ nl
  ++ "Tono: Profesional, colaborativo, eficiente.".

Definition drive_try (state : AgentState) (llm : ChatOpenAI)
  : W (result Update) :=
  let drive_tools := create_drive_tools_mock in
  match bind_tools llm drive_tools with
  | Raise e => ret (Raise e)
  | Ok _ =>
      let messages := SystemMessage (CStr drive_prompt) :: messages state in
      response <- invoke_chat llm (Some drive_tools) messages ;;
      match response with
      | Raise e => ret (Raise e)
      | Ok c =>
          ret (Ok {| u_messages := [AIMessage c];
                     u_current_context := Some "drive" |})
      end
  end.

Definition drive_node (state : AgentState) (llm : ChatOpenAI) : W Update :=
  r <- drive_try state llm ;;
  match r with
  | Ok u => ret u
  | Raise e => ret (error_update "❌ Error en drive_node (MCP): " e (Some "drive"))
  end.

Definition general_prompt : string :=
  "Eres un asistente familiar amigable y conversacional." ++ nl
  ++ "Tu objetivo es ser útil, empático y accesible en conversaciones generales." ++ nl
  ++ nl
  ++ "Puedes:" ++ nl
  ++ "1. Responder preguntas generales" ++ nl
  ++ "2. Proporcionar información general" ++ nl
  ++ "3. Ser conversacional y agradable" ++ nl
  ++ "4. Sugerir derivar a especialistas (finanzas, salud, documentos) si es necesario" ++ nl
  ++ nl
  ++ "Tono: Amigable, accesible, servicial.".

Definition general_try (state : AgentState) (llm : ChatOpenAI)
  : W (result Update) :=
  let messages := SystemMessage (CStr general_prompt) :: messages state in
  response <- invoke_chat llm None messages ;;
  match response with
  | Raise e => ret (Raise e)
  | Ok c =>
      ret (Ok {| u_messages := [AIMessage c]; u_current_context := None |})
  end.

Definition general_node (state : AgentState) (llm : ChatOpenAI) : W Update :=
  r <- general_try state llm ;;
  match r with
  | Ok u => ret u
  | Raise e => ret (error_update "❌ Error en general_node: " e None)
  end.

(** [state.get("current_context", "general")]. *)
Definition route_based_on_context (state : AgentState) : string :=
  match current_context state with
  | Some context => context
  | None => "general"
  end.

(** *** Building the graph *)

Definition action : Type := AgentState -> W Update.
Definition path : Type := AgentState -> string.
Definition StateGraph : Type := @LangGraph.StateGraph action path.

(** The keys of [AgentState]. *)
Definition AgentState_keys : list string :=
  [ "messages"; "user_id"; "active_goals"; "current_context";
    "retrieved_docs"; "reasoning_steps"; "session_id" ].

(** The runtime of the assistant's graph. *)
Context {H : LangGraph.Pregel action path AgentState W}.

(** [build_workflow(llm)] for a model that is given: the sub-graph is
    compiled first, outside any [try], then the workflow is put together
    and compiled. *)
Definition build_workflow (stored : Docs.catalog) (llm : ChatOpenAI)
  : result LangGraph.CompiledStateGraph :=
  bind (Rag.compile_rag_graph (as_rag llm) (wired_tool tool_callable stored))
       (fun rag_graph =>
  let workflow : StateGraph := LangGraph.new_graph AgentState_keys in
  bind (LangGraph.add_node workflow "router"
          (fun state => ret (router_node state)))
       (fun workflow =>
  bind (LangGraph.add_node workflow "finance"
          (fun state => finance_node state llm))
       (fun workflow =>
  bind (LangGraph.add_node workflow "health"
          (fun state => health_node state llm))
       (fun workflow =>
  bind (LangGraph.add_node workflow "docs"
          (fun state => docs_node stored state llm (Some rag_graph)))
       (fun workflow =>
  bind (LangGraph.add_node workflow "drive"
          (fun state => drive_node state llm))
       (fun workflow =>
  bind (LangGraph.add_node workflow "general"
          (fun state => general_node state llm))
       (fun workflow =>
  bind (LangGraph.add_edge workflow LangGraph.START "router") (fun workflow =>
  bind (LangGraph.add_conditional_edges
          workflow "router" route_based_on_context
          [ ("finance", "finance"); ("health", "health"); ("docs", "docs");
            ("drive", "drive"); ("general", "general") ])
       (fun workflow =>
  bind (LangGraph.add_edge workflow "finance" LangGraph.END) (fun workflow =>
  bind (LangGraph.add_edge workflow "health" LangGraph.END) (fun workflow =>
  bind (LangGraph.add_edge workflow "docs" LangGraph.END) (fun workflow =>
  bind (LangGraph.add_edge workflow "drive" LangGraph.END) (fun workflow =>
  bind (LangGraph.add_edge workflow "general" LangGraph.END) (fun workflow =>
  let graph := LangGraph.compile workflow in
  graph)))))))))))))).

End Nodes.

End Assistant.

(** ** Sample inputs for the assistant's graph *)

(** A model that binds any tools and answers every request with [text]. *)
Definition chatty (text : string) : Assistant.ChatOpenAI :=
  {| Assistant.bind_tools := fun _ => Ok tt;
     Assistant.invoke := fun _ _ _ => Ok (CStr text);
     Assistant.as_rag := answering text |}.

(** The goal of the example in [src/state.py]. *)
Definition savings_goal : Assistant.Goal (F := Exact.floats) :=
  {| Assistant.name := "ahorro";
     Assistant.target := flit 500%Q;
     Assistant.current := flit 150%Q;
     Assistant.unit := "USD";
     Assistant.deadline := None |}.

(** A state with the given goals whose history is one user utterance. *)
Definition asking (goals : list (Assistant.Goal (F := Exact.floats)))
           (utterance : string) : Assistant.AgentState (F := Exact.floats) :=
  Assistant.apply_update
    (Assistant.create_initial_state "user_123" (Some goals))
    {| Assistant.u_messages := [HumanMessage (CStr utterance)];
       Assistant.u_current_context := None |}.


Definition nothing_sent : Assistant.World :=
  {| Assistant.chat_log := []; Assistant.rag_log := [] |}.

(* ===================================================================== *)
(** ** [src/tools/finance.py]: the finance tools                         *)
(* ===================================================================== *)

Module Finance.

(** The float operations of this module that [PyFloat] does not list, the
    two ways a float is printed ([format_f n x] is [f"{x:.nf}"], [str_float]
    is [f"{x}"]) and [repr] of a [str].  [fsum xs] is the builtin [sum(xs)]
    over the floats [xs]: it is not the additions done one after the other,
    since CPython, from 3.12 on, carries a correction term along.  Nothing
    is assumed of them. *)
Class PyArith {F : PyFloat} : Type := {
  fsub : float -> float -> float;
  fdiv : float -> float -> float;
  fle : float -> float -> bool;
  fsum : list float -> float;
  format_f : nat -> float -> string;
  str_float : float -> string;
  repr_str : string -> string
}.

(** [f"{s:<w}"] and [f"{s:>w}"]. *)
Definition ljust (w : nat) (s : string) : string :=
  s ++ repeat_str " " (w - Py.len s).

Definition rjust (w : nat) (s : string) : string :=
  repeat_str " " (w - Py.len s) ++ s.

Section Tools.

Context {S : PyStr} {F : PyFloat} {A : PyArith}.

Record expense : Type := {
  e_id : nat;
  e_amount : float;
  e_category : string;
  e_description : string;
  e_date : string
}.

(** An entry of ["monthly_goals"]; both keys are read with [get]. *)
Record goal_data : Type := {
  g_target : option float;
  g_current : option float
}.

Record user_db : Type := {
  expenses : list expense;
  budgets : Assistant.dict float;
  monthly_goals : Assistant.dict goal_data
}.

(** The type of [MOCK_DB], the state the tools share. *)
Definition db : Type := Assistant.dict user_db.

Definition St (A : Type) : Type := db -> A * db.

Definition ret {A : Type} (a : A) : St A := fun MOCK_DB => (a, MOCK_DB).

Definition mbind {A B : Type} (m : St A) (k : A -> St B) : St B :=
  fun MOCK_DB => let (a, MOCK_DB') := m MOCK_DB in k a MOCK_DB'.

Notation "x <- m ;; k" := (mbind m (fun x => k))
  (at level 61, m at next level, right associativity).

(** An [int] that meets a float is converted, as Python does; the [int]
    [0] a look-up falls back on is taken as that float, which prints and
    compares alike. *)
Definition zero : float := float_of_Z 0.

Definition default_budgets : Assistant.dict float :=
  [ ("food", flit 200); ("transport", flit 100);
    ("entertainment", flit 50); ("savings", flit 500) ].

Definition MOCK_DB : db :=
  [ ("user_123",
     {| expenses :=
          [ {| e_id := 1; e_amount := flit 50; e_category := "food";
               e_description := "Groceries"; e_date := "2025-12-01" |};
            {| e_id := 2; e_amount := flit 30; e_category := "transport";
               e_description := "Uber"; e_date := "2025-12-02" |};
            {| e_id := 3; e_amount := flit 20; e_category := "entertainment";
               e_description := "Movie"; e_date := "2025-12-03" |} ];
        budgets :=
          [ ("food", flit 200); ("transport", flit 100);
            ("entertainment", flit 50); ("savings", flit 500) ];
        monthly_goals :=
          [ ("savings", {| g_target := Some (flit 500);
                           g_current := Some (flit 150) |}) ] |}) ].

(** [_get_user_db]: an unknown user is entered with the default budgets. *)
Definition _get_user_db (user_id : string) : St user_db :=
  fun MOCK_DB =>
    match Assistant.dict_get MOCK_DB user_id with
    | Some user => (user, MOCK_DB)
    | None =>
        let user := {| expenses := [];
                       budgets := default_budgets;
                       monthly_goals := [] |} in
        (user, Assistant.dict_set MOCK_DB user_id user)
    end.

Definition _get_category_spent (user_id category : string) : St float :=
  user_db <- _get_user_db user_id ;;
  ret (fsum (map e_amount
                 (filter (fun exp => String.eqb (e_category exp) category)
                         (expenses user_db)))).

Definition _get_total_spent (user_id : string) : St float :=
  user_db <- _get_user_db user_id ;;
  ret (fsum (map e_amount (expenses user_db))).

Definition valid_categories : list string :=
  [ "food"; "transport"; "entertainment"; "utilities"; "other" ].

(** [add_expense]; [today] is [datetime.now().strftime("%Y-%m-%d")] at the
    time of the call.  The new entry is appended to the list the user's
    record holds, so the record in [MOCK_DB] changes. *)
Definition add_expense (today : string) (user_id : string) (amount : float)
           (category description : string) : St string :=
  user_db <- _get_user_db user_id ;;
  if fle amount zero
  then ret ("❌ Error: Amount must be positive. Got: " ++ str_float amount)
  else if negb (str_in category valid_categories)
  then ret ("❌ Error: Invalid category '" ++ category ++ "'. Valid: "
            ++ String.concat ", " valid_categories)
  else
    let new_expense :=
      {| e_id := length (expenses user_db) + 1;
         e_amount := amount;
         e_category := category;
         e_description := description;
         e_date := today |} in
    let user_db :=
      {| expenses := (expenses user_db ++ [new_expense])%list;
         budgets := budgets user_db;
         monthly_goals := monthly_goals user_db |} in
    _ <- (fun MOCK_DB => (tt, Assistant.dict_set MOCK_DB user_id user_db)) ;;
    let category_budget :=
      match Assistant.dict_get (budgets user_db) category with
      | Some budget => budget
      | None => zero
      end in
    category_spent <- _get_category_spent user_id category ;;
    let remaining := fsub category_budget category_spent in
    ret ("✅ Expense recorded: $" ++ format_f 2 amount ++ " for '" ++ description
         ++ "' (" ++ category ++ ")" ++ nl
         ++ "   Budget remaining for " ++ category ++ ": $"
         ++ format_f 2 remaining ++ "/" ++ format_f 2 category_budget).

(** [(a / b * 100) if b > 0 else 0]. *)
Definition percent (a b : float) : float :=
  if flt zero b then fmul (fdiv a b) (float_of_Z 100) else zero.

(** [str(list(d.keys()))]. *)
Definition repr_keys {V : Type} (d : Assistant.dict V) : string :=
  "[" ++ String.concat ", " (map (fun entry => repr_str (fst entry)) d) ++ "]".

Definition check_budget (user_id category : string) : St string :=
  user_db <- _get_user_db user_id ;;
  match Assistant.dict_get (budgets user_db) category with
  | None =>
      ret ("❌ Category '" ++ category ++ "' not found. Available: "
           ++ repr_keys (budgets user_db))
  | Some budget =>
      spent <- _get_category_spent user_id category ;;
      let remaining := fsub budget spent in
      let percentage := percent spent budget in
      let status :=
        if fle remaining zero then "🚨 BUDGET EXCEEDED"
        else if flt remaining (fmul budget (flit 0.1))
        then "⚠️  WARNING: Low budget remaining"
        else "✅ Within budget" in
      ret ("💰 " ++ upper category ++ " Budget Status:" ++ nl
           ++ "   Budget: $" ++ format_f 2 budget ++ nl
           ++ "   Spent: $" ++ format_f 2 spent
           ++ " (" ++ format_f 1 percentage ++ "%)" ++ nl
           ++ "   Remaining: $" ++ format_f 2 remaining ++ nl
           ++ "   " ++ status)
  end.

(** The body of [for category, budget in user_db["budgets"].items()]. *)
Fixpoint category_details_loop (user_id : string) (items : Assistant.dict float)
         (category_details : list string) : St (list string) :=
  match items with
  | [] => ret category_details
  | (category, budget) :: rest =>
      spent <- _get_category_spent user_id category ;;
      let percentage := percent spent budget in
      category_details_loop
        user_id rest
        (app category_details
             [ "  • " ++ ljust 15 (upper category)
               ++ " $" ++ rjust 7 (format_f 2 spent)
               ++ "/$" ++ ljust 7 (format_f 2 budget)
               ++ " (" ++ rjust 5 (format_f 1 percentage) ++ "%)" ])
  end.

Definition goal_line (entry : string * goal_data) : string :=
  let (goal_name, goal_data) := entry in
  let current := match g_current goal_data with Some x => x | None => zero end in
  let target := match g_target goal_data with Some x => x | None => zero end in
  let progress := percent current target in
  "  • " ++ goal_name ++ ": $" ++ format_f 2 current ++ "/$" ++ format_f 2 target
  ++ " (" ++ format_f 1 progress ++ "%)" ++ nl.

Definition get_balance (user_id : string) : St string :=
  user_db <- _get_user_db user_id ;;
  total_spent <- _get_total_spent user_id ;;
  let total_budget := fsum (map snd (budgets user_db)) in
  let total_remaining := fsub total_budget total_spent in
  category_details <- category_details_loop user_id (budgets user_db) [] ;;
  let health :=
    if flt total_remaining zero then "🚨 CRITICAL - Over budget!"
    else if flt total_remaining (fmul total_budget (flit 0.1))
    then "⚠️  WARNING - Budget tight"
    else if flt (fmul total_budget (flit 0.5)) total_remaining
    then "✅ HEALTHY - Good spending habits"
    else "✅ OK - On track" in
  let goals_summary :=
    match monthly_goals user_db with
    | [] => ""
    | goals =>
        fold_left (fun out entry => out ++ goal_line entry) goals
                  (nl ++ "📈 Monthly Goals:" ++ nl)
    end in
  ret ("💳 FINANCIAL SUMMARY" ++ nl
       ++ repeat_str "=" 45 ++ nl
       ++ "Total Spent: $" ++ format_f 2 total_spent ++ nl
       ++ "Monthly Budget: $" ++ format_f 2 total_budget ++ nl
       ++ "Remaining: $" ++ format_f 2 total_remaining ++ nl
       ++ "Health: " ++ health ++ nl
       ++ nl ++ "📊 By Category:" ++ nl
       ++ String.concat nl category_details
       ++ goals_summary).

(** [category_totals[cat] = category_totals.get(cat, 0) + exp["amount"]],
    over the expenses. *)
Definition category_totals_of (expenses : list expense) : Assistant.dict float :=
  fold_left
    (fun category_totals exp =>
       let cat := e_category exp in
       let old := match Assistant.dict_get category_totals cat with
                  | Some x => x
                  | None => zero
                  end in
       Assistant.dict_set category_totals cat (fadd old (e_amount exp)))
    expenses [].

(** [max(d, key=d.get)] from the first entry on: a later key wins only with
    a greater value. *)
Definition max_key (first : string * float) (rest : Assistant.dict float) : string * float :=
  fold_left (fun best entry => if flt (snd best) (snd entry) then entry else best)
            rest first.

Definition get_spending_insights (user_id : string) (category : option string)
  : St string :=
  user_db <- _get_user_db user_id ;;
  let insights := "🔍 SPENDING INSIGHTS" ++ nl ++ repeat_str "=" 45 ++ nl in
  match category with
  | Some (String c rest) =>
      let category := String c rest in
      match Assistant.dict_get (budgets user_db) category with
      | None => ret ("❌ Category '" ++ category ++ "' not found")
      | Some budget =>
          spent <- _get_category_spent user_id category ;;
          let percentage := percent spent budget in
          let advice :=
            if flt (float_of_Z 80) percentage
            then
              let advice :=
                "⚠️  Your " ++ category ++ " spending is HIGH ("
                ++ format_f 1 percentage ++ "% of budget)" in
              if String.eqb category "food"
              then advice ++ nl
                   ++ "💡 Consider: meal planning, cooking at home, bulk buying"
              else if String.eqb category "entertainment"
              then advice ++ nl
                   ++ "💡 Consider: free activities, streaming consolidation"
              else if String.eqb category "transport"
              then advice ++ nl
                   ++ "💡 Consider: public transport, carpooling, cycling"
              else advice
            else "✅ Your " ++ category ++ " spending is reasonable ("
                 ++ format_f 1 percentage ++ "%)" in
          ret (insights ++ advice)
      end
  | _ =>
      let expenses := expenses user_db in
      match expenses with
      | [] =>
          ret (insights
               ++ "No expenses recorded yet. Start tracking to get insights!")
      | _ =>
          let category_totals := category_totals_of expenses in
          let insights :=
            match category_totals with
            | [] => insights
            | first :: others =>
                let (max_category, max_amount) := max_key first others in
                let total := fsum (map snd category_totals) in
                let percentage := percent max_amount total in
                let insights :=
                  insights ++ "📌 Largest Expense Category: "
                           ++ upper max_category ++ nl in
                let insights :=
                  insights ++ "   Amount: $" ++ format_f 2 max_amount
                           ++ " (" ++ format_f 1 percentage ++ "% of total)"
                           ++ nl ++ nl in
                if flt (float_of_Z 40) percentage
                then (insights ++ "💡 Consider: " ++ max_category
                               ++ " is taking up a large portion." ++ nl)
                     ++ "   Try to balance spending across categories." ++ nl
                else insights
                     ++ "✅ Good spending distribution across categories!" ++ nl
            end in
          total_spent <- _get_total_spent user_id ;;
          let total_budget := fsum (map snd (budgets user_db)) in
          let budget_usage := percent total_spent total_budget in
          let insights :=
            insights ++ nl ++ "💰 Overall Budget Usage: "
                     ++ format_f 1 budget_usage ++ "%" ++ nl in
          if flt (float_of_Z 80) budget_usage
          then ret (insights
                    ++ "⚠️  You're approaching your monthly budget limit!")
          else ret (insights ++ "✅ You're on a good spending trajectory.")
      end
  end.

End Tools.

End Finance.

(** Exact arithmetic on rationals for the remaining float operations; on
    rationals every way of summing agrees.  The three printing functions
    are stand-ins: the integer part in decimal, and the text between single
    quotes. *)
#[export] Instance exact_arith : Finance.PyArith (F := Exact.floats) :=
  @Finance.Build_PyArith
    Exact.floats
    (Qminus : Q -> Q -> Q)
    (Qdiv : Q -> Q -> Q)
    (fun a b : Q => negb (Exact.lt b a))
    (fun xs : list Q => fold_left Qplus xs 0%Q)
    (fun (_ : nat) (x : Q) => str_of_Z (Exact.trunc x))
    (fun x : Q => str_of_Z (Exact.trunc x))
    (fun s => "'" ++ s ++ "'").

(* ===================================================================== *)
(** ** [src/tools/health.py]: the habit tools                            *)
(* ===================================================================== *)

Module Health.

(** The clock at the time of a call.  [today] is
    [datetime.now().strftime("%Y-%m-%d")]; [this_week s] is the outcome of
    parsing [s] with [datetime.strptime(s, "%Y-%m-%d")] and comparing it
    with the Monday [_get_week_start] gives: the exception of a text that
    is no date, or whether the date is on or after that Monday. *)
Record Clock : Type := {
  today : string;
  this_week : string -> result bool
}.

(** An entry of ["check_ins"]: a date, or a dict of which only ["date"] is
    ever read; its other keys are kept as text. *)
Inductive check_in : Type :=
| Day (date : string)
| Entry (date : option string) (others : list (string * string)).

(** [c if isinstance(c, str) else c.get("date", "")]. *)
Definition check_in_date (c : check_in) : string :=
  match c with
  | Day date => date
  | Entry (Some date) _ => date
  | Entry None _ => ""
  end.

(** A habit; every habit of [MOCK_DB] and every habit the tools create has
    the three keys. *)
Record habit : Type := {
  target : Z;
  unit : string;
  check_ins : list check_in
}.

(** An entry of ["milestones"]: the two streaks are read with [get], the
    other keys never. *)
Record milestone : Type := {
  streak_current : option Z;
  streak_best : option Z;
  other_counts : list (string * Z)
}.

Record user_db : Type := {
  habits : Assistant.dict habit;
  milestones : Assistant.dict milestone
}.

Definition db : Type := Assistant.dict user_db.

(** The state the tools share, with the exception of a body that fails: the
    changes made before the failure stay. *)
Definition St (A : Type) : Type := db -> result A * db.

Definition ret {A : Type} (a : A) : St A := fun MOCK_DB => (Ok a, MOCK_DB).

Definition mbind {A B : Type} (m : St A) (k : A -> St B) : St B :=
  fun MOCK_DB =>
    match m MOCK_DB with
    | (Ok a, MOCK_DB') => k a MOCK_DB'
    | (Raise e, MOCK_DB') => (Raise e, MOCK_DB')
    end.

Definition lift {A : Type} (r : result A) : St A := fun MOCK_DB => (r, MOCK_DB).

Notation "x <- m ;; k" := (mbind m (fun x => k))
  (at level 61, m at next level, right associativity).

(** [try: ... except Exception as e: return prefix + str(e)]. *)
Definition catching (prefix : string) (body : St string) : db -> string * db :=
  fun MOCK_DB =>
    match body MOCK_DB with
    | (Ok text, MOCK_DB') => (text, MOCK_DB')
    | (Raise e, MOCK_DB') => (prefix ++ str_exn e, MOCK_DB')
    end.

Definition MOCK_DB : db :=
  [ ("user_123",
     {| habits :=
          [ ("gym",
             {| target := 3; unit := "times_per_week";
                check_ins := [ Day "2025-12-01"; Day "2025-12-03";
                               Day "2025-12-04" ] |});
            ("reading",
             {| target := 4; unit := "books_per_month";
                check_ins :=
                  [ Entry (Some "2025-12-01") [("book", "Atomic Habits")];
                    Entry (Some "2025-12-15")
                          [("book", "Thinking, Fast and Slow")] ] |});
            ("meditation",
             {| target := 5; unit := "times_per_week";
                check_ins := [ Day "2025-12-01"; Day "2025-12-02";
                               Day "2025-12-03" ] |});
            ("sleep",
             {| target := 8; unit := "hours_per_day";
                check_ins :=
                  [ Entry (Some "2025-12-01") [("hours", "7.5")];
                    Entry (Some "2025-12-02") [("hours", "8.0")];
                    Entry (Some "2025-12-03") [("hours", "7.0")] ] |}) ];
        milestones :=
          [ ("gym", {| streak_current := Some 2%Z; streak_best := Some 7%Z;
                       other_counts := [] |});
            ("reading", {| streak_current := None; streak_best := None;
                           other_counts := [("books_completed", 2%Z)] |});
            ("meditation", {| streak_current := None; streak_best := None;
                              other_counts := [("days_active", 45%Z)] |}) ] |}) ].

Definition _get_user_db (user_id : string) : St user_db :=
  fun MOCK_DB =>
    match Assistant.dict_get MOCK_DB user_id with
    | Some user => (Ok user, MOCK_DB)
    | None =>
        let user := {| habits := []; milestones := [] |} in
        (Ok user, Assistant.dict_set MOCK_DB user_id user)
    end.

(** [_count_week_check_ins]: the first entry whose date does not parse
    stops the count. *)
Fixpoint count_from (now : Clock) (check_ins : list check_in) (count : Z)
  : result Z :=
  match check_ins with
  | [] => Ok count
  | check_in :: rest =>
      bind (this_week now (check_in_date check_in)) (fun in_week =>
      count_from now rest (if in_week then count + 1 else count)%Z)
  end.

Definition _count_week_check_ins (now : Clock) (check_ins : list check_in)
  : result Z :=
  count_from now check_ins 0%Z.

Definition valid_habits : list string :=
  [ "gym"; "reading"; "meditation"; "sleep"; "water"; "coding" ].

(** [d.get(key, default)] on a streak. *)
Definition streak_or (field : option Z) (default : Z) : Z :=
  match field with
  | Some v => v
  | None => default
  end.

(** The record of a user written back into [MOCK_DB]: the dicts the tools
    change are the ones [MOCK_DB] holds. *)
Definition store (user_id : string) (user : user_db) : St Datatypes.unit :=
  fun MOCK_DB => (Ok tt, Assistant.dict_set MOCK_DB user_id user).

Section Tools.

Context {S : PyStr}.

Definition log_habit_try (now : Clock) (user_id habit_name additional_info : string)
  : St string :=
  user_db <- _get_user_db user_id ;;
  let today := today now in
  if negb (str_in habit_name valid_habits)
  then ret ("❌ Invalid habit '" ++ habit_name ++ "'. Valid: "
            ++ String.concat ", " valid_habits)
  else
    (* a habit met for the first time is created *)
    let user_habits :=
      match Assistant.dict_get (habits user_db) habit_name with
      | Some _ => habits user_db
      | None =>
          Assistant.dict_set (habits user_db) habit_name
                             {| target := 3; unit := "times_per_week";
                                check_ins := [] |}
      end in
    _ <- store user_id {| habits := user_habits;
                          milestones := milestones user_db |} ;;
    match Assistant.dict_get user_habits habit_name with
    | None => lift (Raise (KeyError habit_name))
    | Some habit =>
        if str_in today (map check_in_date (check_ins habit))
        then ret ("⚠️ You've already logged " ++ habit_name
                  ++ " today! One entry per day.")
        else
          let new_check_in :=
            if String.eqb additional_info "" then Day today
            else Entry (Some today) [("info", additional_info)] in
          let habit :=
            {| target := target habit; unit := unit habit;
               check_ins := (check_ins habit ++ [new_check_in])%list |} in
          let user_habits := Assistant.dict_set user_habits habit_name habit in
          _ <- store user_id {| habits := user_habits;
                                milestones := milestones user_db |} ;;
          week_count <- lift (_count_week_check_ins now (check_ins habit)) ;;
          let habit_target := target habit in
          let user_milestones :=
            match Assistant.dict_get (milestones user_db) habit_name with
            | Some _ => milestones user_db
            | None =>
                Assistant.dict_set (milestones user_db) habit_name
                                   {| streak_current := Some 1%Z;
                                      streak_best := Some 1%Z;
                                      other_counts := [] |}
            end in
          match Assistant.dict_get user_milestones habit_name with
          | None => lift (Raise (KeyError habit_name))
          | Some milestone =>
              let milestone :=
                {| streak_current := Some week_count;
                   streak_best :=
                     Some (Z.max (streak_or (streak_best milestone) 0) week_count);
                   other_counts := other_counts milestone |} in
              _ <- store user_id
                         {| habits := user_habits;
                            milestones :=
                              Assistant.dict_set user_milestones habit_name
                                                 milestone |} ;;
              let progress_emoji :=
                if (habit_target <=? week_count)%Z then "🔥" else "💪" in
              let status :=
                if (habit_target <=? week_count)%Z
                then "🎉 TARGET REACHED! " ++ str_of_Z week_count ++ "/"
                     ++ str_of_Z habit_target ++ " this week!"
                else str_of_Z week_count ++ "/" ++ str_of_Z habit_target
                     ++ " completed this week" in
              ret ("✅ " ++ upper habit_name ++ " logged!" ++ nl
                   ++ progress_emoji ++ " " ++ status ++ nl
                   ++ "📊 Details: "
                   ++ (if String.eqb additional_info "" then "Completed"
                       else additional_info))
          end
    end.

Definition log_habit (now : Clock) (user_id habit_name additional_info : string)
  : db -> string * db :=
  catching "❌ Error logging habit: "
           (log_habit_try now user_id habit_name additional_info).

Context {F : PyFloat} {A : Finance.PyArith}.

(** [user_db["milestones"].get(habit_name, {})] and a streak of it. *)
Definition streak_of (user_db : user_db) (habit_name : string)
           (field : milestone -> option Z) : Z :=
  match Assistant.dict_get (milestones user_db) habit_name with
  | Some milestone => streak_or (field milestone) 0
  | None => 0%Z
  end.

(** The loop of the report over all habits. *)
Fixpoint progress_loop (now : Clock) (user_db : user_db)
         (items : Assistant.dict habit) (report : string) : result string :=
  match items with
  | [] => Ok report
  | (habit_name, habit_data) :: rest =>
      let habit_target := target habit_data in
      bind (_count_week_check_ins now (check_ins habit_data)) (fun week_count =>
      let streak := streak_of user_db habit_name streak_current in
      let status :=
        if (habit_target <=? week_count)%Z then "✅"
        else if (0 <? week_count)%Z then "⚠️ "
        else "❌" in
      let report := report ++ nl ++ status ++ " " ++ upper habit_name ++ nl in
      let report :=
        report ++ "   Progress: " ++ str_of_Z week_count ++ "/"
               ++ str_of_Z habit_target ++ nl in
      let report :=
        report ++ "   Streak: " ++ str_of_Z streak ++ " days" ++ nl in
      progress_loop now user_db rest report)
  end.

Definition check_habit_progress_try (now : Clock) (user_id : string)
           (habit_name : option string) : St string :=
  user_db <- _get_user_db user_id ;;
  match habits user_db with
  | [] => ret "📭 No habits tracked yet. Start by logging a habit!"
  | _ =>
      match habit_name with
      | Some (String c rest) =>
          let habit_name := String c rest in
          if negb (str_in habit_name valid_habits)
          then ret ("❌ Invalid habit '" ++ habit_name ++ "'")
          else
            match Assistant.dict_get (habits user_db) habit_name with
            | None =>
                ret ("ℹ️ " ++ habit_name
                     ++ " not tracked yet. Start logging to see progress!")
            | Some habit =>
                let habit_target := target habit in
                let check_ins := check_ins habit in
                week_count <- lift (_count_week_check_ins now check_ins) ;;
                let streak := streak_of user_db habit_name streak_current in
                let best_streak := streak_of user_db habit_name streak_best in
                let evaluation :=
                  if (habit_target <=? week_count)%Z
                  then ("🌟", "EXCELLENT!")
                  else if Finance.fle (fmul (float_of_Z habit_target) (flit 0.7))
                                      (float_of_Z week_count)
                  then ("😊", "Good progress!")
                  else if (0 <? week_count)%Z
                  then ("💪", "Keep going!")
                  else ("🚀", "Time to start!") in
                let (eval_icon, eval_text) := evaluation in
                ret ("📊 " ++ upper habit_name ++ " PROGRESS" ++ nl
                     ++ repeat_str "=" 40 ++ nl
                     ++ "This Week: " ++ str_of_Z week_count ++ "/"
                     ++ str_of_Z habit_target ++ " " ++ eval_icon ++ nl
                     ++ "Status: " ++ eval_text ++ nl
                     ++ "Current Streak: " ++ str_of_Z streak ++ " days" ++ nl
                     ++ "Best Streak: " ++ str_of_Z best_streak ++ " days" ++ nl
                     ++ "Total Logged: " ++ str_of_nat (length check_ins)
                     ++ " times")
            end
      | _ =>
          let report :=
            "📊 ALL HABITS PROGRESS" ++ nl ++ repeat_str "=" 40 ++ nl in
          lift (progress_loop now user_db (habits user_db) report)
      end
  end.

Definition check_habit_progress (now : Clock) (user_id : string)
           (habit_name : option string) : db -> string * db :=
  catching "❌ Error checking progress: "
           (check_habit_progress_try now user_id habit_name).

(** [sum(_count_week_check_ins(h.get("check_ins", [])) for h in
    habits.values())]. *)
Fixpoint total_completed_of (now : Clock) (items : Assistant.dict habit)
         (total : Z) : result Z :=
  match items with
  | [] => Ok total
  | (_, h) :: rest =>
      bind (_count_week_check_ins now (check_ins h)) (fun count =>
      total_completed_of now rest (total + count)%Z)
  end.

(** The search for the habit with the most check-ins this week: a later
    habit wins only with a greater count, and a count of zero never wins. *)
Fixpoint best_loop (now : Clock) (items : Assistant.dict habit)
         (best_habit : option string) (best_score : Z)
  : result (option string * Z) :=
  match items with
  | [] => Ok (best_habit, best_score)
  | (name, habit) :: rest =>
      bind (_count_week_check_ins now (check_ins habit)) (fun score =>
      if (best_score <? score)%Z
      then best_loop now rest (Some name) score
      else best_loop now rest best_habit best_score)
  end.

(** The text of the dashboard for a user without habits: the two adjacent
    literals ["💪 HEALTH DASHBOARD\n"] and ["="] are one literal, and it is
    that literal which is repeated 40 times. *)
Definition empty_dashboard : string :=
  repeat_str ("💪 HEALTH DASHBOARD" ++ nl ++ "=") 40
  ++ nl
  ++ "📭 No habits tracked yet!" ++ nl ++ nl
  ++ "Start your wellness journey:" ++ nl
  ++ "• Log your first habit" ++ nl
  ++ "• Set realistic targets" ++ nl
  ++ "• Build consistency".

Definition get_health_summary_try (now : Clock) (user_id : string) : St string :=
  user_db <- _get_user_db user_id ;;
  let habits := habits user_db in
  match habits with
  | [] => ret empty_dashboard
  | _ =>
      let total_habits := Z.of_nat (length habits) in
      let active_habits :=
        Z.of_nat (length (filter (fun entry =>
                                    match check_ins (snd entry) with
                                    | [] => false
                                    | _ => true
                                    end) habits)) in
      let total_target :=
        fold_left (fun total entry => (total + target (snd entry))%Z) habits 0%Z in
      total_completed <- lift (total_completed_of now habits 0%Z) ;;
      let compliance :=
        if (0 <? total_target)%Z
        then fmul (Finance.fdiv (float_of_Z total_completed)
                                (float_of_Z total_target))
                  (float_of_Z 100)
        else float_of_Z 0 in
      best <- lift (best_loop now habits None 0%Z) ;;
      let (best_habit, best_score) := best : option string * Z in
      let wellness :=
        if Finance.fle (float_of_Z 90) compliance then ("🌟", "EXCELLENT")
        else if Finance.fle (float_of_Z 70) compliance then ("😊", "GOOD")
        else if Finance.fle (float_of_Z 50) compliance then ("💪", "FAIR")
        else ("🚀", "STARTING") in
      let (wellness_icon, wellness_text) := wellness in
      let recommendations :=
        app (if flt compliance (float_of_Z 70)
             then ["📌 Try to reach 70% compliance this week"] else [])
            (app (if (active_habits <? total_habits)%Z
                  then ["📌 Start tracking "
                        ++ str_of_Z (total_habits - active_habits)
                        ++ " more habit(s)"]
                  else [])
                 (match best_habit with
                  | Some (String c rest) =>
                      ["📌 Keep up your " ++ String c rest ++ " streak!"]
                  | _ => []
                  end)) in
      let rec_text :=
        match recommendations with
        | [] => "✅ All good!"
        | _ => String.concat nl (map (fun r => "  " ++ r) recommendations)
        end in
      (* the last line of the statistics looks the best habit up *)
      match best_habit with
      | None => lift (Raise (Exception "None"))
      | Some name =>
          match Assistant.dict_get habits name with
          | None => lift (Raise (KeyError name))
          | Some best =>
              ret ("💪 HEALTH DASHBOARD" ++ nl
                   ++ repeat_str "=" 40 ++ nl
                   ++ "Wellness Score: " ++ wellness_icon ++ " " ++ wellness_text
                   ++ " (" ++ Finance.format_f 1 compliance ++ "%)" ++ nl ++ nl
                   ++ "📊 STATS:" ++ nl
                   ++ "  • Habits Active: " ++ str_of_Z active_habits ++ "/"
                   ++ str_of_Z total_habits ++ nl
                   ++ "  • Weekly Target: " ++ str_of_Z total_completed ++ "/"
                   ++ str_of_Z total_target ++ nl
                   ++ "  • Best Habit: " ++ name ++ nl
                   ++ "  • Score: " ++ str_of_Z best_score ++ "/"
                   ++ str_of_Z (target best) ++ nl ++ nl
                   ++ "💡 RECOMMENDATIONS:" ++ nl
                   ++ rec_text ++ nl)
          end
      end
  end.

Definition get_health_summary (now : Clock) (user_id : string)
  : db -> string * db :=
  catching "❌ Error generating health summary: "
           (get_health_summary_try now user_id).

Definition get_habit_motivation_try (user_id : string)
           (habit_name : option string) : St string :=
  user_db <- _get_user_db user_id ;;
  match habit_name with
  | Some (String c rest) =>
      let habit_name := String c rest in
      match Assistant.dict_get (habits user_db) habit_name with
      | None =>
          ret ("ℹ️ No motivation data yet for " ++ habit_name
               ++ ". Start logging to build momentum!")
      | Some habit =>
          let current_streak := streak_of user_db habit_name streak_current in
          let best_streak := streak_of user_db habit_name streak_best in
          let habit_target := target habit in
          let msg :=
            if (habit_target <=? current_streak)%Z
            then "🔥 You crushed it! " ++ str_of_Z current_streak ++ "/"
                 ++ str_of_Z habit_target ++ " for " ++ habit_name ++ "!"
            else if (0 <? current_streak)%Z && (current_streak <? habit_target)%Z
            then
              let remaining := (habit_target - current_streak)%Z in
              "💪 " ++ str_of_Z current_streak ++ " done! Just "
              ++ str_of_Z remaining ++ " more for " ++ habit_name ++ "!"
            else if (current_streak =? 0)%Z && (0 <? best_streak)%Z
            then "🚀 You've done " ++ str_of_Z best_streak
                 ++ " before! Let's beat that again!"
            else "✨ Today is the day to start " ++ habit_name ++ "!" in
          let msg :=
            if (current_streak <? best_streak)%Z && (0 <? best_streak)%Z
            then msg ++ nl ++ "📈 Your best: " ++ str_of_Z best_streak
                     ++ " days. Let's surpass it!"
            else msg in
          ret msg
      end
  | _ =>
      let total_streak :=
        fold_left (fun total entry =>
                     (total + streak_of user_db (fst entry) streak_current)%Z)
                  (habits user_db) 0%Z in
      if (10 <=? total_streak)%Z
      then ret ("🌟 You're on FIRE! Keep that momentum going!" ++ nl
                ++ "Your consistency is inspiring. Keep it up! 🚀")
      else if (5 <=? total_streak)%Z
      then ret ("💪 Great work! You're building strong habits!" ++ nl
                ++ "Every day counts. You're doing amazing! 🎉")
      else if (0 <? total_streak)%Z
      then ret ("✨ You've started your journey! Keep going!" ++ nl
                ++ "Small steps lead to big changes. You got this! 💪")
      else ret ("🚀 Ready to build amazing habits?" ++ nl
                ++ "Today is the perfect day to start!" ++ nl
                ++ "One habit, one day at a time. Let's go! 🔥")
  end.

Definition get_habit_motivation (user_id : string) (habit_name : option string)
  : db -> string * db :=
  catching "❌ Error generating motivation: "
           (get_habit_motivation_try user_id habit_name).

End Tools.

End Health.

(** A clock for the samples: Thursday 15 January 2026, whose week starts on
    Monday 12 January.  Dates in ISO form compare as their texts do; the
    stand-in takes every text for a date. *)
Definition january_2026 : Health.Clock :=
  {| Health.today := "2026-01-15";
     Health.this_week := fun s => Ok (negb (String.ltb s "2026-01-12")) |}.

(* ===================================================================== *)
(** * Properties                                                         *)
(* ===================================================================== *)

(** ** Substring tests *)

Section Substrings.









End Substrings.

(** ** The router *)

Section RouterFacts.

Import Router.

Ltac split_ltb :=
  repeat match goal with
         | |- context [(?a <? ?b)%nat] =>
             destruct (Nat.ltb_spec a b); cbn [andb]
         end.

Lemma decide_in_categories (d f h k : nat) : In (decide d f h k) categories.
Proof. unfold decide, categories, gtb. split_ltb; simpl; tauto. Qed.

(** What the [if]/[elif] chain computes: a category is chosen when its
    score is positive, at least the score of every category tested before
    it and above the score of every category tested after it. *)
Lemma decide_last_maximum (d f h k : nat) :
  (decide d f h k = "drive" <-> 0 < d /\ f < d /\ h < d /\ k < d)
  /\ (decide d f h k = "finance" <-> 0 < f /\ d <= f /\ h < f /\ k < f)
  /\ (decide d f h k = "health" <-> 0 < h /\ d <= h /\ f <= h /\ k < h)
  /\ (decide d f h k = "docs" <-> 0 < k /\ d <= k /\ f <= k /\ h <= k)
  /\ (decide d f h k = "general" <-> d = 0 /\ f = 0 /\ h = 0 /\ k = 0).
Proof.
  unfold decide, gtb. split_ltb;
    repeat split; intros; try discriminate; try reflexivity; lia.
Qed.

Lemma score_filter (keywords : list string) (text : string) :
  score keywords text = length (filter (fun kw => contains kw text) keywords).
Proof.
  unfold score. induction keywords as [| kw kws IH]; simpl; [reflexivity |].
  destruct (contains kw text); simpl; now rewrite IH.
Qed.

Lemma user_text_of_str {S : PyStr} (m : message) (utterance : string) :
  message_content m = CStr utterance ->
  user_text_of m = Ok (lower utterance).
Proof. destruct m; simpl; intros ->; reflexivity. Qed.

Lemma router_node_classify {S : PyStr} (state : AgentState)
      (m : message) (ms : list message) (utterance : string) :
  messages state = m :: ms ->
  message_content (last ms m) = CStr utterance ->
  router_node state = classify (lower utterance).
Proof.
  intros Hm Hc. unfold router_node, router_try. rewrite Hm.
  now rewrite (user_text_of_str _ _ Hc).
Qed.

End RouterFacts.

(** C4 fails on the code.  The two questions about files that
    [tests/test_mcp_integration.py] lists for the drive specialist hold
    one keyword, "archivo", which is a drive keyword and a documents
    keyword: the two categories tie at one match, the others have none.  The
    order of the claim, drive first, gives "drive", as the test expects; the
    router answers "docs". *)
Theorem router_tie_goes_to_docs :
  forall (S : PyStr) (utterance : string),
    lower utterance = "¿dónde están mis archivos importantes?"
    \/ lower utterance = "¿cómo descargo un archivo?" ->
    let text := lower utterance in
    Router.score Router.drive_keywords text = 1
    /\ Router.score Router.finance_keywords text = 0
    /\ Router.score Router.health_keywords text = 0
    /\ Router.score Router.docs_keywords text = 1
    /\ Router.decide_by_precedence 1 0 0 1 = "drive"
    /\ Router.router_node (said utterance) = "docs".
Proof.
  intros S utterance Hlower text.
  rewrite (router_node_classify (said utterance) (HumanMessage (CStr utterance))
                                [] utterance eq_refl eq_refl).
  unfold Router.classify. fold text. unfold text.
  destruct Hlower as [-> | ->]; vm_compute; repeat split.
Qed.

Lemma router_tie_goes_to_docs_witness :
  @Router.router_node Latin1.str_methods
     (said "¿Dónde están mis archivos importantes?") = "docs"
  /\ @Router.router_node Latin1.str_methods
       (said "¿Cómo descargo un archivo?") = "docs".
Proof.
  split.
  - apply (router_tie_goes_to_docs Latin1.str_methods
             "¿Dónde están mis archivos importantes?"). now left.
  - apply (router_tie_goes_to_docs Latin1.str_methods
             "¿Cómo descargo un archivo?"). now right.
Defined.

(** Another tie: one finance keyword and one health keyword; the order
    drive, finance, health, docs would give finance, the router answers
    health. *)
Example router_tie_finance_health :
  let text := Latin1.lower "dinero salud" in
  Router.score Router.drive_keywords text = 0%nat
  /\ Router.score Router.finance_keywords text = 1%nat
  /\ Router.score Router.health_keywords text = 1%nat
  /\ Router.score Router.docs_keywords text = 0%nat
  /\ Router.decide_by_precedence 0 1 1 0 = "finance"
  /\ @Router.router_node Latin1.str_methods (said "dinero salud") = "health".
Proof.
  vm_compute. repeat split.
Qed.

(** X31: what the router computes.  For every utterance it scores each
    category by the number of entries of its keyword list that occur in the
    lower-cased utterance, and picks a category whose score is positive and
    maximal; among categories with the same maximal score the one tested
    last in the order drive, finance, health, docs wins; with no positive
    score the answer is general. *)
Theorem router_picks_last_maximum :
  forall (S : PyStr) (state : Router.AgentState)
         (m : message) (ms : list message) (utterance : string),
    Router.messages state = m :: ms ->
    message_content (last ms m) = CStr utterance ->
    let text := lower utterance in
    let count := fun keywords =>
      length (filter (fun kw => contains kw text) keywords) in
    let d := count Router.drive_keywords in
    let f := count Router.finance_keywords in
    let h := count Router.health_keywords in
    let k := count Router.docs_keywords in
    (Router.router_node state = "drive" <-> 0 < d /\ f < d /\ h < d /\ k < d)
    /\ (Router.router_node state = "finance" <-> 0 < f /\ d <= f /\ h < f /\ k < f)
    /\ (Router.router_node state = "health" <-> 0 < h /\ d <= h /\ f <= h /\ k < h)
    /\ (Router.router_node state = "docs" <-> 0 < k /\ d <= k /\ f <= k /\ h <= k)
    /\ (Router.router_node state = "general" <-> d = 0 /\ f = 0 /\ h = 0 /\ k = 0).
Proof.
  intros S state m ms utterance Hm Hc text count d f h k.
  rewrite (router_node_classify state m ms utterance Hm Hc).
  unfold Router.classify. fold text. rewrite !score_filter.
  apply decide_last_maximum.
Qed.

Lemma router_picks_last_maximum_witness :
  @Router.router_node Latin1.str_methods (said "Dinero y SALUD") = "health".
Proof.
  apply (router_picks_last_maximum Latin1.str_methods (said "Dinero y SALUD")
           (HumanMessage (CStr "Dinero y SALUD")) [] "Dinero y SALUD"
           eq_refl eq_refl).
  vm_compute. repeat split; lia.
Defined.

(** Scenario E: a finance keyword routes to finance, no keyword to general. *)
Example router_scenario_E :
  @Router.router_node Latin1.str_methods (said "¿Cuánto dinero gasté?") = "finance"
  /\ @Router.router_node Latin1.str_methods (said "Tengo dolor de cabeza") = "general".
Proof. split; vm_compute; reflexivity. Qed.

(** C10: the router always answers, with one of the five categories; an
    empty history gives general, and so does any error raised while
    classifying. *)
Theorem router_never_fails :
  forall (S : PyStr) (state : Router.AgentState),
    In (Router.router_node state) Router.categories
    /\ (Router.messages state = [] -> Router.router_node state = "general")
    /\ (forall e, Router.router_try state = Raise e ->
                  Router.router_node state = "general").
Proof.
  intros S state. repeat split.
  - unfold Router.router_node, Router.router_try.
    destruct (Router.messages state) as [| m ms]; [simpl; tauto |].
    destruct (Router.user_text_of (last ms m)) as [text | e]; simpl.
    + apply decide_in_categories.
    + tauto.
  - intro Hm. unfold Router.router_node, Router.router_try. now rewrite Hm.
  - intros e He. unfold Router.router_node. now rewrite He.
Qed.

Lemma router_never_fails_witness :
  @Router.router_node Latin1.str_methods (said_blocks "[{'type': 'text'}]") = "general"
  /\ @Router.router_node Latin1.str_methods
       {| Router.messages := []; Router.user_id := "user";
          Router.current_context := "" |} = "general".
Proof.
  split.
  - apply (proj2 (proj2 (router_never_fails Latin1.str_methods
                           (said_blocks "[{'type': 'text'}]")))
             (AttributeError "'list' object has no attribute 'lower'")).
    reflexivity.
  - apply (proj1 (proj2 (router_never_fails Latin1.str_methods _))).
    reflexivity.
Defined.

(** ** Excerpts and templates *)

Section Excerpts.


Lemma take_split (n : nat) (s : string) :
  exists rest,
    s = take n s ++ rest
    /\ Py.len (take n s) = Nat.min n (Py.len s)
    /\ whole_chars rest.
Proof.
  revert n. induction s as [| c s IH]; intro n.
  - exists "". destruct n; repeat split.
  - cbn [take Py.len]. destruct (is_cont c) eqn:Hc.
    + destruct (IH n) as [rest [Hs [Hlen Hrest]]]. exists rest.
      cbn [append Py.len]. rewrite Hc. repeat split; [now f_equal | assumption ..].
    + destruct n as [| n].
      * exists (String c s). repeat split. exact Hc.
      * destruct (IH n) as [rest [Hs [Hlen Hrest]]]. exists rest.
        cbn [append Py.len Nat.min]. rewrite Hc.
        repeat split; [now f_equal | now f_equal | assumption].
Qed.


Lemma no_braces_app (a b : string) :
  Rag.no_braces (a ++ b) = Rag.no_braces a && Rag.no_braces b.
Proof.
  induction a as [| c a IH]; [reflexivity |].
  cbn [append Rag.no_braces]. rewrite IH. now rewrite !andb_assoc.
Qed.

End Excerpts.

(** ** The nodes of the RAG sub-graph *)

Section RagNodes.

Import Rag.
Context {S : PyStr} {T : ChatPromptTemplate}.

Ltac run_node :=
  unfold grade_node, grade_try, rewrite_node, rewrite_try,
         generate_node, generate_try, mbind, invoke_llm, ret.

Ltac plain_prompt :=
  apply format_plain; cbn [forallb snd andb];
  rewrite ?no_braces_app;
  repeat match goal with
         | H : no_braces _ = true |- _ => rewrite H
         end;
  reflexivity.


Lemma rewrite_prompt_plain (original_question : string) :
  no_braces original_question = true ->
  format_messages (rewrite_prompt original_question)
  = Ok (rewrite_prompt original_question).
Proof. intros Hq. unfold rewrite_prompt. plain_prompt. Qed.

Lemma generate_prompt_plain (question combined_context : string) :
  no_braces question = true -> no_braces combined_context = true ->
  format_messages (generate_prompt question combined_context)
  = Ok (generate_prompt question combined_context).
Proof. intros Hq Hc. unfold generate_prompt. plain_prompt. Qed.



(** The grade is one of the two labels of the conditional edge. *)
Lemma grade_node_label (state : RAGState) (llm : ChatOpenAI) (log : list prompt) :
  fst (grade_node state llm log) = "generate"
  \/ fst (grade_node state llm log) = "rewrite".
Proof.
  run_node. destruct (documents state) as [[[| c s] | [| d ds]] |]; simpl; auto.
  destruct (format_messages _); simpl; auto.
  destruct (llm _ _); simpl; auto.
  destruct (contains _ _); simpl; auto.
Qed.

(** [state.get("loop_count", 0) + 1]. *)
Definition next_loop (state : RAGState) : Z :=
  match loop_count state with
  | Some n => n + 1
  | None => 1
  end.

(** The dict [rewrite_node] returns from its handler. *)
Definition rewrite_failed (state : RAGState) (e : exn) : Update :=
  {| u_question := None;
     u_documents := None;
     u_generation := None;
     u_loop_count := Some (next_loop state);
     u_messages := [AIMessage (CStr ("❌ Error en rewrite: " ++ str_exn e))] |}.

Lemma rewrite_node_cases (state : RAGState) (llm : ChatOpenAI)
      (log : list prompt) :
  rewrite_node state llm log
  = match format_messages (rewrite_prompt (question state)) with
    | Ok formatted =>
        (match llm (length log) formatted with
         | Ok answer =>
             {| u_question := Some (strip answer);
                u_documents := None;
                u_generation := None;
                u_loop_count := Some (next_loop state);
                u_messages :=
                  [AIMessage (CStr ("[REWRITE] Reformulated question: "
                                    ++ strip answer))] |}
         | Raise e => rewrite_failed state e
         end, (log ++ [formatted])%list)
    | Raise e => (rewrite_failed state e, log)
    end.
Proof.
  run_node. unfold rewrite_failed, next_loop, get_or.
  destruct (format_messages _) as [formatted | e];
    [destruct (llm (length log) formatted) |];
    now destruct (loop_count state).
Qed.

(** The dict [generate_node] returns from its handler. *)
Definition generate_failed (e : exn) : Update :=
  {| u_question := None;
     u_documents := None;
     u_generation := Some ("Error generando respuesta: " ++ str_exn e);
     u_loop_count := None;
     u_messages := [AIMessage (CStr ("❌ Error en generate: " ++ str_exn e))] |}.

Definition generate_nothing : Update :=
  {| u_question := None;
     u_documents := None;
     u_generation := Some no_documents_message;
     u_loop_count := None;
     u_messages := [AIMessage (CStr "[GENERATE] No documents available")] |}.

Lemma generate_node_cases (state : RAGState) (llm : ChatOpenAI)
      (log : list prompt) :
  generate_node state llm log
  = match documents state with
    | None | Some (DStr EmptyString) | Some (DList []) => (generate_nothing, log)
    | Some (DStr _) =>
        (generate_failed (AttributeError "'str' object has no attribute 'get'"),
         log)
    | Some (DList docs) =>
        match format_messages
                (generate_prompt (question state) (combined_context docs)) with
        | Ok formatted =>
            (match llm (length log) formatted with
             | Ok answer =>
                 {| u_question := None;
                    u_documents := None;
                    u_generation := Some (strip answer);
                    u_loop_count := None;
                    u_messages :=
                      [AIMessage (CStr ("[GENERATE] Generated answer from "
                                        ++ str_of_nat (length docs)
                                        ++ " documents"))] |}
             | Raise e => generate_failed e
             end, (log ++ [formatted])%list)
        | Raise e => (generate_failed e, log)
        end
    end.
Proof.
  run_node.
  destruct (documents state) as [[[| c s] | [| d ds]] |]; try reflexivity.
  destruct (format_messages _) as [formatted | e]; [| reflexivity].
  now destruct (llm (length log) formatted).
Qed.

(** The sibling that is not wired in: it does send the loop to generate
    once the counter has reached the limit. *)
Lemma should_continue_retrieve_bound (state : RAGState) :
  should_continue_retrieve state = "generate"
  <-> (get_or (max_loops state) 3 <= get_or (loop_count state) 0)%Z.
Proof.
  unfold should_continue_retrieve.
  destruct (Z.leb_spec (get_or (max_loops state) 3) (get_or (loop_count state) 0));
    split; intro H'; first [ reflexivity | discriminate H' | lia ].
Qed.

(** [compile_rag_graph] does not get past its second workflow: the node
    "retrieve" is added to it twice and the second [add_node] raises.
    Nothing is compiled, whatever the model, the tool and the runtime. *)
Lemma compile_rag_graph_raises
      {G : LangGraph.Pregel action path RAGState M}
      (llm : ChatOpenAI) (retrieve_tool : tool) :
  compile_rag_graph llm retrieve_tool
  = Raise (ValueError "Node `retrieve` already present.").
Proof. reflexivity. Qed.

End RagNodes.




(** C6: [rewrite_node] adds exactly 1 to the retry counter, 0 standing for a
    counter that is absent, whatever happens.  The prompt is built from the
    question and handed to the template library.  When the library formats
    it, and it does so unchanged when the question holds no brace, the
    model is asked once, with the formatted prompt: the question is kept
    when the call fails and becomes the trimmed reply when it succeeds.
    When the library refuses the prompt the model is not asked and the
    question is kept. *)
Theorem rewrite_node_counts :
  forall (S : PyStr) (T : Rag.ChatPromptTemplate) (state : Rag.RAGState)
         (llm : Rag.ChatOpenAI) (log : list Rag.prompt),
    let out := Rag.rewrite_node state llm log in
    let state' := Rag.apply_update state (fst out) in
    let asked := Rag.rewrite_prompt (Rag.question state) in
    Rag.loop_count state'
    = Some match Rag.loop_count state with
           | Some n => (n + 1)%Z
           | None => 1%Z
           end
    /\ (forall formatted e,
           Rag.format_messages asked = Ok formatted ->
           llm (length log) formatted = Raise e ->
           Rag.question state' = Rag.question state
           /\ snd out = (log ++ [formatted])%list)
    /\ (forall formatted answer,
           Rag.format_messages asked = Ok formatted ->
           llm (length log) formatted = Ok answer ->
           Rag.question state' = strip answer
           /\ snd out = (log ++ [formatted])%list)
    /\ (forall e,
           Rag.format_messages asked = Raise e ->
           Rag.question state' = Rag.question state /\ snd out = log)
    /\ (Rag.no_braces (Rag.question state) = true ->
        Rag.format_messages asked = Ok asked).
Proof.
  intros S T state llm log out state' asked.
  unfold state', out. rewrite rewrite_node_cases. fold asked.
  split; [| split; [| split; [| split]]].
  - destruct (Rag.format_messages asked) as [formatted | e];
      [destruct (llm (length log) formatted) |]; reflexivity.
  - intros formatted e -> ->. now split.
  - intros formatted answer -> ->. now split.
  - intros e ->. now split.
  - apply rewrite_prompt_plain.
Qed.

(** On the third pass with the model down, on the third pass with the model
    up, with a question that holds a brace, and on a state without the
    counter. *)
Lemma rewrite_node_counts_witness :
  (let state := on_pass 2 3 "plan" [sample_doc] in
   let state' :=
     Rag.apply_update state
       (fst (Rag.rewrite_node (S := Latin1.str_methods) (T := Fstring.templates)
               state always_down [])) in
   Rag.question state' = "plan" /\ Rag.loop_count state' = Some 3%Z)
  /\ (let state := on_pass 2 3 "plan" [sample_doc] in
      let state' :=
        Rag.apply_update state
          (fst (Rag.rewrite_node (S := Latin1.str_methods) (T := Fstring.templates)
                  state (answering "  plan nutricional  ") [])) in
      Rag.question state' = "plan nutricional"
      /\ Rag.loop_count state' = Some 3%Z)
  /\ (let state := on_pass 2 3 "what does } mean" [sample_doc] in
      let out :=
        Rag.rewrite_node (S := Latin1.str_methods) (T := Fstring.templates)
          state (answering "closing brace") [] in
      Rag.question (Rag.apply_update state (fst out)) = "what does } mean"
      /\ snd out = []
      /\ Rag.loop_count (Rag.apply_update state (fst out)) = Some 3%Z)
  /\ (let state := just_asked "plan" in
      Rag.loop_count
        (Rag.apply_update state
           (fst (Rag.rewrite_node (S := Latin1.str_methods)
                   (T := Fstring.templates) state always_no [])))
      = Some 1%Z).
Proof.
  pose proof (fun state llm =>
                rewrite_node_counts Latin1.str_methods Fstring.templates
                                    state llm []) as Hrewrite.
  split; [| split; [| split]].
  - destruct (Hrewrite (on_pass 2 3 "plan" [sample_doc]) always_down)
      as [Hcount [Hdown _]].
    split; [| exact Hcount].
    exact (proj1 (Hdown _ (Exception "Connection error.") eq_refl eq_refl)).
  - destruct (Hrewrite (on_pass 2 3 "plan" [sample_doc])
                       (answering "  plan nutricional  "))
      as [Hcount [_ [Hup _]]].
    split; [| exact Hcount].
    exact (proj1 (Hup _ "  plan nutricional  " eq_refl eq_refl)).
  - destruct (Hrewrite (on_pass 2 3 "what does } mean" [sample_doc])
                       (answering "closing brace"))
      as [Hcount [_ [_ [Hrefused _]]]].
    destruct (Hrefused (ValueError "Single '}' encountered in format string")
                       eq_refl) as [Hq Hlog].
    split; [exact Hq | split; [exact Hlog | exact Hcount]].
  - exact (proj1 (Hrewrite (just_asked "plan") always_no)).
Defined.

(** C7: with no documents [generate_node] returns the fixed message, whatever
    the question and the model, and the model is not called.  With
    documents, the prompt is handed to the template library; when the call
    to the model that follows fails, or when the library refuses the prompt
    and no call is made, the generation is the error text of what was
    raised.  In every case the node returns a dict with a generation: no
    exception leaves it. *)
Theorem generate_node_fallbacks :
  forall (S : PyStr) (T : Rag.ChatPromptTemplate) (state : Rag.RAGState)
         (llm : Rag.ChatOpenAI) (log : list Rag.prompt),
    (Rag.documents state = Some (Rag.DList []) \/ Rag.documents state = None ->
     Rag.generate_node state llm log
     = ({| Rag.u_question := None;
           Rag.u_documents := None;
           Rag.u_generation := Some Rag.no_documents_message;
           Rag.u_loop_count := None;
           Rag.u_messages :=
             [AIMessage (CStr "[GENERATE] No documents available")] |}, log))
    /\ (forall (d : Rag.doc) (ds : list Rag.doc),
           Rag.documents state = Some (Rag.DList (d :: ds)) ->
           let asked :=
             Rag.generate_prompt (Rag.question state)
                                 (Rag.combined_context (d :: ds)) in
           (forall formatted e,
               Rag.format_messages asked = Ok formatted ->
               llm (length log) formatted = Raise e ->
               Rag.u_generation (fst (Rag.generate_node state llm log))
               = Some ("Error generando respuesta: " ++ str_exn e)
               /\ snd (Rag.generate_node state llm log)
                  = (log ++ [formatted])%list)
           /\ (forall e,
                  Rag.format_messages asked = Raise e ->
                  Rag.u_generation (fst (Rag.generate_node state llm log))
                  = Some ("Error generando respuesta: " ++ str_exn e)
                  /\ snd (Rag.generate_node state llm log) = log)
           /\ (Rag.no_braces (Rag.question state) = true ->
               Rag.no_braces (Rag.combined_context (d :: ds)) = true ->
               Rag.format_messages asked = Ok asked))
    /\ (exists text,
           Rag.u_generation (fst (Rag.generate_node state llm log)) = Some text).
Proof.
  intros S T state llm log. rewrite generate_node_cases.
  split; [| split].
  - now intros [-> | ->].
  - intros d ds -> asked. fold asked. split; [| split].
    + intros formatted e -> ->. now split.
    + intros e ->. now split.
    + apply generate_prompt_plain.
  - destruct (Rag.documents state) as [[[| c s] | [| d ds]] |];
      try (eexists; reflexivity).
    destruct (Rag.format_messages _) as [formatted | e];
      [destruct (llm (length log) formatted) |]; eexists; reflexivity.
Qed.

Lemma generate_node_fallbacks_witness :
  Rag.u_generation
    (fst (Rag.generate_node (S := Latin1.str_methods) (T := Fstring.templates)
            (retrieved "plan" []) always_no []))
  = Some Rag.no_documents_message
  /\ Rag.u_generation
       (fst (Rag.generate_node (S := Latin1.str_methods) (T := Fstring.templates)
               (retrieved "plan" [sample_doc]) always_down []))
     = Some "Error generando respuesta: Connection error."
  /\ (let out :=
        Rag.generate_node (S := Latin1.str_methods) (T := Fstring.templates)
          (retrieved "what does } mean" [sample_doc]) (answering "A brace.") [] in
      Rag.u_generation (fst out)
      = Some "Error generando respuesta: Single '}' encountered in format string"
      /\ snd out = []).
Proof.
  pose proof (fun state llm =>
                generate_node_fallbacks Latin1.str_methods Fstring.templates
                                        state llm []) as Hgen.
  split; [| split].
  - now rewrite (proj1 (Hgen (retrieved "plan" []) always_no)
                       (or_introl eq_refl)).
  - destruct (Hgen (retrieved "plan" [sample_doc]) always_down) as [_ [H _]].
    destruct (H sample_doc [] eq_refl) as [H' _].
    exact (proj1 (H' _ (Exception "Connection error.") eq_refl eq_refl)).
  - destruct (Hgen (retrieved "what does } mean" [sample_doc])
                   (answering "A brace.")) as [_ [H _]].
    destruct (H sample_doc [] eq_refl) as [_ [H' _]].
    exact (H' (ValueError "Single '}' encountered in format string") eq_refl).
Defined.

(** ** The retry limit *)

(** C1 fails on the code.  [grade_node] reads neither counter: its answer and
    the call it makes are the same whatever [loop_count] and [max_loops]
    hold.  So with the counter at the limit, here both 1, a document
    retrieved and a model that answers "no", the grade is rewrite, not
    generate, and [rewrite_node] then takes the counter to 2, above the
    limit.  [should_continue_retrieve], which would send such a state to
    generate, is called nowhere. *)
Theorem retry_limit_not_enforced :
  (forall (S : PyStr) (T : Rag.ChatPromptTemplate) (state : Rag.RAGState)
          (llm : Rag.ChatOpenAI) (log : list Rag.prompt)
          (loops limit : option Z),
      Rag.grade_node (with_counters state loops limit) llm log
      = Rag.grade_node state llm log)
  /\ (let state := on_pass 1 1 "plan" [sample_doc] in
      Rag.loop_count state = Some 1%Z
      /\ Rag.max_loops state = Some 1%Z
      /\ Rag.grade_node (S := Latin1.str_methods) (T := Fstring.templates)
           state always_no []
         = ("rewrite",
            [Rag.grade_prompt "plan" "Plan Nutricional Familiar" "Lunes: pescado"])
      /\ Rag.loop_count
           (Rag.apply_update state
              (fst (Rag.rewrite_node (S := Latin1.str_methods)
                      (T := Fstring.templates) state always_no [])))
         = Some 2%Z
      /\ Rag.should_continue_retrieve state = "generate").
Proof.
  split.
  - intros S T state llm log loops limit. reflexivity.
  - cbv zeta. repeat split; vm_compute; reflexivity.
Qed.

(** C2 fails on the code: no run of the retrieval loop takes place.
    [compile_rag_graph] raises for every model, tool and runtime, at the
    second [add_node("retrieve", ...)] on its second workflow, so there is
    no graph to invoke, no rewrite and no generate.  The state such a run
    would start from is the one [create_initial_rag_state] returns. *)
Theorem retrieval_loop_never_built :
  forall (S : PyStr) (T : Rag.ChatPromptTemplate)
         (G : LangGraph.Pregel Rag.action Rag.path Rag.RAGState Rag.M)
         (llm : Rag.ChatOpenAI) (retrieve_tool : Rag.tool),
    Rag.compile_rag_graph llm retrieve_tool
    = Raise (ValueError "Node `retrieve` already present.")
    /\ Rag.loop_count (Rag.create_initial_rag_state "plan" 1) = Some 0%Z
    /\ Rag.max_loops (Rag.create_initial_rag_state "plan" 1) = Some 1%Z.
Proof.
  intros S T G llm retrieve_tool.
  split; [apply compile_rag_graph_raises | split; reflexivity].
Qed.

(** ** The retrieval tool *)

Section ToolOutput.

Import Docs.
Context {S : PyStr} {F : PyFloat} {D : Difflib F}.

Lemma append_nonempty (a b : string) : a <> "" -> a ++ b <> "".
Proof. destruct a; [intro H; now elim H | discriminate]. Qed.

Lemma format_results_nonempty (entries : list (nat * SearchResult)) (output : string) :
  output <> "" ->
  fold_left (fun out entry => out ++ format_result entry) entries output <> "".
Proof.
  revert output. induction entries as [| entry entries IH]; intros output Ho.
  - exact Ho.
  - simpl. apply IH. now apply append_nonempty.
Qed.

(** Every branch of [retrieve_documents] returns text that is not empty. *)
Lemma retrieve_documents_nonempty (query : string) (stored : catalog) :
  fst (retrieve_documents query stored) <> "".
Proof.
  unfold retrieve_documents.
  destruct (String.eqb query "" || (Py.len (strip query) <? 2)%nat);
    [discriminate |].
  destruct (_search_documents query 3 stored) as [[| r results] docs'].
  - discriminate.
  - cbn [fst]. apply format_results_nonempty. discriminate.
Qed.

End ToolOutput.

Lemma retrieve_node_on_text (state : Rag.RAGState) (retrieve_tool : Rag.tool)
      (text : string) :
  retrieve_tool (Rag.question state) = Ok (Rag.DStr text) -> text <> "" ->
  Rag.retrieve_node state retrieve_tool
  = {| Rag.u_question := None;
       Rag.u_documents := Some (Rag.DList []);
       Rag.u_generation := None;
       Rag.u_loop_count := None;
       Rag.u_messages :=
         [AIMessage (CStr ("❌ Error en retrieve: "
                           ++ "'str' object has no attribute 'get'"))] |}.
Proof.
  intros Htool Htext. unfold Rag.retrieve_node, Rag.retrieve_try.
  rewrite Htool. destruct text; [now elim Htext | reflexivity].
Qed.

(** C3: when the retrieval tool returns text that is not empty,
    [retrieve_node] takes its handler and returns an empty list of documents
    with an error message; the tool wired in, [retrieve_documents], returns
    such text on every query, so the documents that reach the state are the
    empty list.  They are the empty list as well where the tool object
    cannot be called like a function: that call raises inside the same
    [try]. *)
Theorem retrieve_node_text_tool :
  (forall (state : Rag.RAGState) (retrieve_tool : Rag.tool) (text : string),
      retrieve_tool (Rag.question state) = Ok (Rag.DStr text) -> text <> "" ->
      Rag.retrieve_node state retrieve_tool
      = {| Rag.u_question := None;
           Rag.u_documents := Some (Rag.DList []);
           Rag.u_generation := None;
           Rag.u_loop_count := None;
           Rag.u_messages :=
             [AIMessage (CStr ("❌ Error en retrieve: "
                               ++ "'str' object has no attribute 'get'"))] |})
  /\ (forall (S : PyStr) (F : PyFloat) (D : Difflib F)
             (stored : Docs.catalog) (query : string),
         fst (Docs.retrieve_documents query stored) <> "")
  /\ (forall (S : PyStr) (F : PyFloat) (D : Difflib F) (callable : bool)
             (stored : Docs.catalog) (state : Rag.RAGState),
         Rag.documents
           (Rag.apply_update state
              (Rag.retrieve_node state (wired_tool callable stored)))
         = Some (Rag.DList [])).
Proof.
  split; [exact retrieve_node_on_text |]. split.
  - intros S F D stored query. apply retrieve_documents_nonempty.
  - intros S F D [|] stored state.
    + rewrite (retrieve_node_on_text state (wired_tool true stored)
                 (fst (Docs.retrieve_documents (Rag.question state) stored))
                 eq_refl (retrieve_documents_nonempty _ _)).
      reflexivity.
    + reflexivity.
Qed.

Lemma retrieve_node_text_tool_witness :
  Rag.u_documents (Rag.retrieve_node (retrieved "plan" []) text_tool)
  = Some (Rag.DList []).
Proof.
  rewrite (proj1 retrieve_node_text_tool (retrieved "plan" []) text_tool "1. PLAN"
             eq_refl ltac:(discriminate)).
  reflexivity.
Defined.

(** ** The stable descending sort *)

Section SortDesc.

Context {F : PyFloat} {A : Type}.
Variable key : A -> float.

Let ge (a b : A) : Prop := flt (key a) (key b) = false.

Lemma insert_desc_Forall (P : A -> Prop) (x : A) (xs : list A) :
  P x -> Forall P xs -> Forall P (insert_desc key x xs).
Proof.
  intros Hx Hxs. induction Hxs as [| y ys Hy Hys IH]; simpl.
  - now constructor.
  - destruct (flt (key x) (key y)); repeat constructor; assumption.
Qed.

Lemma insert_desc_sorted (x : A) (xs : list A) :
  StronglySorted ge xs -> StronglySorted ge (insert_desc key x xs).
Proof.
  induction 1 as [| y ys Hs IH Hy]; simpl.
  - repeat constructor.
  - destruct (flt (key x) (key y)) eqn:Hxy.
    + constructor; [exact IH |].
      apply insert_desc_Forall; [| exact Hy].
      unfold ge. now apply flt_asym.
    + constructor; [now constructor |].
      constructor; [exact Hxy |].
      apply (Forall_impl _ (fun z Hz => fge_trans _ _ _ Hxy Hz) Hy).
Qed.

Lemma sort_desc_sorted (xs : list A) : StronglySorted ge (sort_desc key xs).
Proof.
  induction xs as [| x xs IH]; simpl; [constructor | now apply insert_desc_sorted].
Qed.

Lemma insert_desc_perm (x : A) (xs : list A) :
  Permutation (x :: xs) (insert_desc key x xs).
Proof.
  induction xs as [| y ys IH]; simpl; [reflexivity |].
  destruct (flt (key x) (key y)); [| reflexivity].
  rewrite perm_swap. now constructor.
Qed.

Lemma sort_desc_perm (xs : list A) : Permutation xs (sort_desc key xs).
Proof.
  induction xs as [| x xs IH]; simpl; [constructor |].
  rewrite <- insert_desc_perm. now constructor.
Qed.

Lemma firstn_Forall (P : A -> Prop) (n : nat) (xs : list A) :
  Forall P xs -> Forall P (firstn n xs).
Proof.
  intro H. revert n. induction H as [| y ys Hy Hys IH]; intros [| n]; simpl;
    constructor; auto.
Qed.

Lemma firstn_sorted (n : nat) (xs : list A) :
  StronglySorted ge xs -> StronglySorted ge (firstn n xs).
Proof.
  intro Hs. revert n. induction Hs as [| y ys Hs IH Hy]; intros [| n]; simpl;
    try constructor; [apply IH | now apply firstn_Forall].
Qed.

End SortDesc.

(** ** The document search *)

Section SearchFacts.

Import Docs.
Context {S : PyStr} {F : PyFloat} {D : Difflib F}.

Lemma keyword_step_weight (d : Doc) (tag_matches : num) (keyword : string) :
  keyword_step (map lower (tags d)) (lower (title d)) (lower (category d))
               tag_matches keyword
  = match keyword_weight d keyword with
    | Some w => num_add tag_matches w
    | None => tag_matches
    end.
Proof.
  unfold keyword_step, keyword_weight.
  destruct (str_in keyword (map lower (tags d))); [reflexivity |].
  destruct (existsb _ (map lower (tags d))); [reflexivity |].
  destruct (contains keyword (lower (title d))); [reflexivity |].
  now destruct (contains keyword (lower (category d))).
Qed.

(** The loop over the keywords adds up the weights of those that match. *)
Lemma keyword_loop (d : Doc) (keywords : list string) (start : num) :
  fold_left (keyword_step (map lower (tags d)) (lower (title d))
                          (lower (category d))) keywords start
  = fold_left num_add (matched_weights d keywords) start.
Proof.
  revert start. induction keywords as [| kw kws IH]; intro start; simpl.
  - reflexivity.
  - rewrite keyword_step_weight.
    destruct (keyword_weight d kw); simpl; apply IH.
Qed.

(** The first loop appends, in catalog order, an entry for each document
    with a positive overlap. *)
Lemma phase1_loop (query : string) (docs : catalog) (results : list SearchResult) :
  fold_left (phase1_step query (split (lower query))) docs results
  = (results ++ phase1_spec query docs)%list.
Proof.
  revert results. induction docs as [| d docs IH]; intro results.
  - simpl. now rewrite app_nil_r.
  - cbn [fold_left]. rewrite IH. unfold phase1_step, phase1_spec.
    rewrite keyword_loop. cbn [filter]. fold (overlap d query).
    destruct (num_pos (overlap d query)); [| reflexivity].
    now rewrite <- app_assoc.
Qed.

Lemma seen_app (results : list SearchResult) (r : SearchResult) (d : Doc) :
  seen (results ++ [r]) d = seen results d || Z.eqb (id (doc r)) (id d).
Proof. unfold seen. rewrite existsb_app. simpl. now rewrite orb_false_r. Qed.

(** The second loop, over a catalog without repeated identifiers, appends an
    entry for each document not found by the first loop whose content is
    similar enough to the query. *)
Lemma phase2_loop (query : string) (docs : catalog) (results : list SearchResult) :
  NoDup (map id docs) ->
  fold_left (phase2_step query) docs results
  = (results ++ phase2_spec query results docs)%list.
Proof.
  revert results. induction docs as [| d docs IH]; intros results Hnd.
  - simpl. now rewrite app_nil_r.
  - inversion Hnd as [| x xs Hnotin Hnd' Heq]; subst.
    cbn [fold_left]. rewrite (IH _ Hnd'). unfold phase2_step, phase2_spec.
    cbn [filter].
    destruct (seen results d) eqn:Hseen; [reflexivity |].
    cbn [negb andb].
    destruct (flt (flit (15 # 100)) (_calculate_similarity query (content d)));
      [| reflexivity].
    cbn [map]. rewrite <- app_assoc. cbn [app]. do 3 f_equal.
    apply filter_ext_in. intros d' Hd'. f_equal. f_equal.
    rewrite seen_app. cbn [doc].
    destruct (Z.eqb_spec (id d) (id d')) as [Heq | _];
      [| now rewrite orb_false_r].
    elim Hnotin. rewrite Heq. now apply in_map.
Qed.

Lemma search_documents_spec (query : string) (top_k : Z) (docs : catalog) :
  NoDup (map id docs) -> (0 <= top_k)%Z ->
  _search_documents query top_k docs
  = (search_spec query (Z.to_nat top_k) docs, docs).
Proof.
  intros Hnd Hk. unfold _search_documents, search_spec, slice_to.
  rewrite phase1_loop. cbn [app].
  destruct (Z.leb_spec 0 top_k) as [_ | Hneg]; [| lia].
  destruct (Z.ltb_spec (Z.of_nat (length (phase1_spec query docs))) top_k) as [Hlt | Hge];
    destruct (Nat.ltb_spec (length (phase1_spec query docs)) (Z.to_nat top_k));
    try lia.
  - now rewrite (phase2_loop query docs _ Hnd).
  - now rewrite app_nil_r.
Qed.

(** The entries of the two phases are scored as the specification says. *)
Lemma phase1_spec_scored (query : string) (docs : catalog) :
  Forall2 (phase1_scored query)
          (filter (fun d => num_pos (overlap d query)) docs)
          (phase1_spec query docs).
Proof.
  unfold phase1_spec.
  induction (filter (fun d => num_pos (overlap d query)) docs) as [| d ds IH];
    cbn [map]; constructor; [| exact IH].
  split; [reflexivity |]. split; [reflexivity |].
  destruct (take_split 300 (content d)) as [rest [Hsplit [Hlen Hrest]]].
  exists (take 300 (content d)), rest. now repeat split.
Qed.

Lemma phase2_spec_scored (query : string) (found : list SearchResult)
      (docs : catalog) :
  Forall2 (phase2_scored query)
          (filter (phase2_takes query found) docs)
          (phase2_spec query found docs).
Proof.
  unfold phase2_spec.
  change (fun d => negb (seen found d)
                   && flt (flit (15 # 100))
                          (_calculate_similarity query (content d)))
    with (phase2_takes query found).
  induction (filter (phase2_takes query found) docs) as [| d ds IH];
    cbn [map]; constructor; [| exact IH].
  now repeat split.
Qed.

(** Neither function assigns to the catalog. *)
Lemma search_documents_reads (query : string) (top_k : Z) (docs : catalog) :
  snd (_search_documents query top_k docs) = docs.
Proof. reflexivity. Qed.

Lemma retrieve_documents_reads (query : string) (docs : catalog) :
  snd (retrieve_documents query docs) = docs.
Proof.
  unfold retrieve_documents. destruct (_ || _); [reflexivity |].
  pose proof (search_documents_reads query 3 docs) as Hr.
  destruct (_search_documents query 3 docs) as [[| r results] docs'];
    exact Hr.
Qed.

End SearchFacts.

(** C8: over a catalog without repeated identifiers and for a non-negative
    [top_k], the result of [_search_documents] is made as follows.  Phase 1
    gives an entry, in catalog order, to each document whose keyword
    overlap is positive (2 for a keyword equal to a tag, else 1 for a
    keyword inside a tag, else 1.5 for a keyword inside the title, else 1
    for a keyword inside the category), scored 0.6 times the overlap plus
    0.4 times the similarity ratio of the query and the first 300
    characters of the content.  Phase 2 adds nothing when phase 1 gave
    [top_k] entries or more; otherwise it gives an entry to each other
    document whose whole content has a ratio above 0.15 with the query,
    scored by that ratio.  The result is the first [top_k] entries of a
    rearrangement of all these entries in which no entry is followed by one
    of a greater score.  [top_k] is 3 when not given, so a search then
    returns at most three entries. *)
Theorem search_documents_scoring :
  forall (S : PyStr) (F : PyFloat) (D : Difflib F)
         (docs : Docs.catalog) (query : string) (top_k : Z),
    NoDup (map Docs.id docs) -> (0 <= top_k)%Z ->
    let results := fst (Docs._search_documents query top_k docs) in
    (exists found added ranked : list Docs.SearchResult,
        Forall2 (Docs.phase1_scored query)
                (filter (fun d => num_pos (Docs.overlap d query)) docs) found
        /\ (Z.to_nat top_k <= length found -> added = [])
        /\ (length found < Z.to_nat top_k ->
            Forall2 (Docs.phase2_scored query)
                    (filter (Docs.phase2_takes query found) docs) added)
        /\ Permutation (found ++ added) ranked
        /\ Docs.descending ranked
        /\ results = firstn (Z.to_nat top_k) ranked)
    /\ Docs.descending results
    /\ length results <= Z.to_nat top_k
    /\ length (fst (Docs._search_documents query Docs.default_top_k docs)) <= 3.
Proof.
  intros S F D docs query top_k Hnd Hk results. unfold results.
  rewrite (search_documents_spec query top_k docs Hnd Hk),
          (search_documents_spec query Docs.default_top_k docs Hnd ltac:(discriminate)).
  cbn [fst]. unfold Docs.search_spec. cbv zeta.
  set (found := Docs.phase1_spec query docs).
  split; [| split; [| split]].
  - exists found,
           (if (length found <? Z.to_nat top_k)%nat
            then Docs.phase2_spec query found docs else []),
           (sort_desc Docs.score
              (found ++ (if (length found <? Z.to_nat top_k)%nat
                         then Docs.phase2_spec query found docs else []))).
    split; [apply phase1_spec_scored |].
    split; [| split; [| split; [| split]]].
    + intro Hfull.
      now destruct (Nat.ltb_spec (length found) (Z.to_nat top_k)); [lia |].
    + intro Hfew.
      destruct (Nat.ltb_spec (length found) (Z.to_nat top_k)); [| lia].
      apply phase2_spec_scored.
    + apply sort_desc_perm.
    + apply sort_desc_sorted.
    + reflexivity.
  - apply firstn_sorted, sort_desc_sorted.
  - apply firstn_le_length.
  - apply firstn_le_length.
Qed.

Lemma MOCK_DOCS_ids : map Docs.id Docs.MOCK_DOCS = [1; 2; 3; 4; 5; 6; 7]%Z.
Proof. reflexivity. Qed.

Lemma MOCK_DOCS_NoDup : NoDup (map Docs.id Docs.MOCK_DOCS).
Proof.
  rewrite MOCK_DOCS_ids.
  repeat (constructor; [cbn [In]; intuition discriminate |]). constructor.
Qed.

Lemma search_documents_scoring_witness :
  let results :=
    fst (@Docs._search_documents Latin1.str_methods Exact.floats Exact.matcher
           "Póliza de seguro" 3 Docs.MOCK_DOCS) in
  exists ranked,
    results = firstn 3 ranked
    /\ Docs.descending ranked
    /\ length ranked = 4.
Proof.
  destruct (search_documents_scoring Latin1.str_methods Exact.floats Exact.matcher
              Docs.MOCK_DOCS "Póliza de seguro" 3 MOCK_DOCS_NoDup
              ltac:(discriminate))
    as [[found [added [ranked [Hfound [Hfull [_ [Hperm [Hsorted Hresults]]]]]]]] _].
  exists ranked. split; [exact Hresults |]. split; [exact Hsorted |].
  assert (Hlen : length found = 4)
    by (rewrite <- (Forall2_length Hfound); vm_compute; reflexivity).
  rewrite <- (Permutation_length Hperm), length_app, Hfull, Hlen;
    [reflexivity | rewrite Hlen; vm_compute; lia].
Defined.

(** C9: a search reads the catalog and leaves it as it was, so the same
    search made again returns the same list in the same order; so does the
    tool built on it. *)
Theorem search_documents_repeatable :
  forall (S : PyStr) (F : PyFloat) (D : Difflib F)
         (docs : Docs.catalog) (query : string) (top_k : Z),
    (let (first, docs1) := Docs._search_documents query top_k docs in
     let (second, docs2) := Docs._search_documents query top_k docs1 in
     docs1 = docs /\ docs2 = docs /\ second = first)
    /\ (let (first, docs1) := Docs.retrieve_documents query docs in
        let (second, docs2) := Docs.retrieve_documents query docs1 in
        docs1 = docs /\ docs2 = docs /\ second = first).
Proof.
  intros S F D docs query top_k. split.
  - destruct (Docs._search_documents query top_k docs) as [first docs1] eqn:H1.
    pose proof (search_documents_reads query top_k docs) as Hr.
    rewrite H1 in Hr. cbn [snd] in Hr. subst docs1. rewrite H1. now repeat split.
  - destruct (Docs.retrieve_documents query docs) as [first docs1] eqn:H1.
    pose proof (retrieve_documents_reads query docs) as Hr.
    rewrite H1 in Hr. cbn [snd] in Hr. subst docs1. rewrite H1. now repeat split.
Qed.

(* ===================================================================== *)
(** * Further properties of the RAG sub-graph                            *)
(* ===================================================================== *)

(** X5: [generate_node] shows the model the first five documents only: the
    prompt sent and the generation returned are the same as for the state
    that holds just those five. *)
Theorem generate_node_first_five :
  forall (S : PyStr) (T : Rag.ChatPromptTemplate) (llm : Rag.ChatOpenAI)
         (state : Rag.RAGState) (log : list Rag.prompt) (docs : list Rag.doc),
    Rag.documents state = Some (Rag.DList docs) ->
    let five :=
      Rag.apply_update state
        {| Rag.u_question := None;
           Rag.u_documents := Some (Rag.DList (firstn 5 docs));
           Rag.u_generation := None;
           Rag.u_loop_count := None;
           Rag.u_messages := [] |} in
    snd (Rag.generate_node state llm log) = snd (Rag.generate_node five llm log)
    /\ Rag.u_generation (fst (Rag.generate_node state llm log))
       = Rag.u_generation (fst (Rag.generate_node five llm log)).
Proof.
  intros S T llm state log docs Hd five.
  assert (Hctx : Rag.combined_context (firstn 5 docs) = Rag.combined_context docs)
    by (unfold Rag.combined_context; now rewrite firstn_firstn).
  unfold Rag.generate_node, Rag.generate_try, Rag.mbind, Rag.invoke_llm, Rag.ret.
  unfold five. cbn [Rag.apply_update Rag.documents Rag.question Rag.u_documents
                    Rag.u_question Rag.or_old].
  rewrite Hd. destruct docs as [| d ds]; [now split |].
  rewrite <- Hctx. change (firstn 5 (d :: ds)) with (d :: firstn 4 ds).
  cbv iota beta. destruct (Rag.format_messages _); [| now split].
  destruct (llm _ _); now split.
Qed.

Lemma generate_node_first_five_witness :
  let docs := [sample_doc; sample_doc; sample_doc; sample_doc; sample_doc;
               [("title", "Sexto"); ("content", "No se envía")]] in
  snd (Rag.generate_node (S := Latin1.str_methods) (T := Fstring.templates)
         (retrieved "plan" docs) (answering "ok") [])
  = snd (Rag.generate_node (S := Latin1.str_methods) (T := Fstring.templates)
           (Rag.apply_update (retrieved "plan" docs)
              {| Rag.u_question := None;
                 Rag.u_documents := Some (Rag.DList (firstn 5 docs));
                 Rag.u_generation := None;
                 Rag.u_loop_count := None;
                 Rag.u_messages := [] |})
           (answering "ok") []).
Proof.
  intro docs.
  exact (proj1 (generate_node_first_five Latin1.str_methods Fstring.templates
                  (answering "ok") (retrieved "plan" docs) [] docs eq_refl)).
Defined.

(* ===================================================================== *)
(** * Further properties of the document search                          *)
(* ===================================================================== *)

Section ListFacts.

Context {A B : Type}.

Lemma slice_to_firstn (k : Z) (xs : list A) :
  exists n, slice_to k xs = firstn n xs.
Proof. unfold slice_to. destruct (0 <=? k)%Z; eexists; reflexivity. Qed.

Lemma firstn_NoDup (n : nat) (xs : list A) : NoDup xs -> NoDup (firstn n xs).
Proof.
  intro H. rewrite <- (firstn_skipn n xs) in H.
  now apply NoDup_app_remove_r in H.
Qed.

Lemma filter_map_NoDup (f : A -> B) (keep : A -> bool) (xs : list A) :
  NoDup (map f xs) -> NoDup (map f (filter keep xs)).
Proof.
  induction xs as [| x xs IH]; simpl; intro H; [constructor |].
  inversion H as [| y ys Hnotin Hnd]; subst.
  destruct (keep x); simpl; [| now apply IH].
  constructor; [| now apply IH].
  intro Hin. apply Hnotin. apply in_map_iff in Hin as [z [Hz Hin]].
  apply filter_In in Hin as [Hin _]. rewrite <- Hz. now apply in_map.
Qed.

End ListFacts.

Section SearchResults.

Import Docs.
Context {S : PyStr} {F : PyFloat} {D : Difflib F}.

(** What can be said of an entry of [results]. *)
Definition entry_ok (query : string) (docs : catalog) (r : SearchResult) : Prop :=
  In (doc r) docs
  /\ ((r = phase1_entry query (doc r)
       /\ num_pos (overlap (doc r) query) = true)
      \/ (r = phase2_entry query (doc r)
          /\ flt (flit (15 # 100)) (score r) = true)).

Lemma phase1_spec_ok (query : string) (docs : catalog) :
  Forall (entry_ok query docs) (phase1_spec query docs).
Proof.
  apply Forall_forall. intros r Hr. unfold phase1_spec in Hr.
  apply in_map_iff in Hr as [d [<- Hd]]. apply filter_In in Hd as [Hin Hpos].
  split; [exact Hin | left; now split].
Qed.

Lemma phase2_loop_ok (query : string) (docs sub : catalog)
      (results : list SearchResult) :
  incl sub docs ->
  Forall (entry_ok query docs) results ->
  Forall (entry_ok query docs) (fold_left (phase2_step query) sub results).
Proof.
  revert results. induction sub as [| d sub IH]; intros results Hincl Hok.
  - exact Hok.
  - cbn [fold_left]. apply IH; [intros x Hx; apply Hincl; now right |].
    unfold phase2_step. destruct (seen results d); [exact Hok |].
    destruct (flt _ _) eqn:Hflt; [| exact Hok].
    apply Forall_app. split; [exact Hok |]. constructor; [| constructor].
    split; [apply Hincl; now left | right; now split].
Qed.

Lemma search_results_ok (query : string) (top_k : Z) (docs : catalog) :
  Forall (entry_ok query docs) (fst (_search_documents query top_k docs)).
Proof.
  unfold _search_documents. cbn [fst].
  destruct (slice_to_firstn top_k
              (sort_desc score
                 (if (Z.of_nat (length (fold_left
                                          (phase1_step query (split (lower query)))
                                          docs [])) <? top_k)%Z
                  then fold_left (phase2_step query) docs
                         (fold_left (phase1_step query (split (lower query))) docs [])
                  else fold_left (phase1_step query (split (lower query))) docs [])))
    as [n ->].
  apply firstn_Forall.
  eapply Permutation_Forall; [apply sort_desc_perm |].
  rewrite phase1_loop. cbn [app].
  destruct (_ <? _)%Z; [| apply phase1_spec_ok].
  apply phase2_loop_ok; [apply incl_refl | apply phase1_spec_ok].
Qed.

Lemma seen_false (results : list SearchResult) (d : Doc) :
  seen results d = false -> ~ In (id d) (map (fun r => id (doc r)) results).
Proof.
  intros Hseen Hin. apply in_map_iff in Hin as [r [Hr Hin]].
  assert (H : seen results d = true).
  { unfold seen. apply existsb_exists. exists r. split; [exact Hin |].
    now apply Z.eqb_eq. }
  congruence.
Qed.

Lemma phase2_loop_NoDup (query : string) (sub : catalog)
      (results : list SearchResult) :
  NoDup (map (fun r => id (doc r)) results) ->
  NoDup (map (fun r => id (doc r)) (fold_left (phase2_step query) sub results)).
Proof.
  revert results. induction sub as [| d sub IH]; intros results Hnd.
  - exact Hnd.
  - cbn [fold_left]. apply IH. unfold phase2_step.
    destruct (seen results d) eqn:Hseen; [exact Hnd |].
    destruct (flt _ _); [| exact Hnd].
    rewrite map_app. cbn [map doc].
    apply NoDup_app; [exact Hnd | repeat constructor; intros [] |].
    intros x Hx [<- | []]. now apply (seen_false results d Hseen).
Qed.

Lemma phase1_spec_ids (query : string) (docs : catalog) :
  map (fun r => id (doc r)) (phase1_spec query docs)
  = map id (filter (fun d => num_pos (overlap d query)) docs).
Proof. unfold phase1_spec. rewrite map_map. reflexivity. Qed.

Lemma phase1_spec_reason (query : string) (docs : catalog) :
  Forall (fun r => reason r = "tag_match") (phase1_spec query docs).
Proof.
  apply Forall_forall. intros r Hr. unfold phase1_spec in Hr.
  now apply in_map_iff in Hr as [d [<- _]].
Qed.

End SearchResults.

(** X6: whatever the query, [top_k] and the catalog, every entry returned
    by [_search_documents] holds a document of the catalog and is either a
    keyword match (reason "tag_match", positive overlap, the 60/40 score) or
    a content match (reason "content_match", scored by the similarity of the
    query to the whole content, which is above 0.15). *)
Theorem search_results_sound :
  forall (S : PyStr) (F : PyFloat) (D : Difflib F)
         (docs : Docs.catalog) (query : string) (top_k : Z) (r : Docs.SearchResult),
    In r (fst (Docs._search_documents query top_k docs)) ->
    In (Docs.doc r) docs
    /\ ((Docs.reason r = "tag_match"
         /\ num_pos (Docs.overlap (Docs.doc r) query) = true
         /\ Docs.score r
            = fadd (fmul (to_float (Docs.overlap (Docs.doc r) query)) (flit (6 # 10)))
                   (fmul (Docs._calculate_similarity query
                            (take 300 (Docs.content (Docs.doc r))))
                         (flit (4 # 10))))
        \/ (Docs.reason r = "content_match"
            /\ Docs.score r
               = Docs._calculate_similarity query (Docs.content (Docs.doc r))
            /\ flt (flit (15 # 100)) (Docs.score r) = true)).
Proof.
  intros S F D docs query top_k r Hr.
  pose proof (search_results_ok query top_k docs) as Hok.
  rewrite Forall_forall in Hok. destruct (Hok r Hr) as [Hin [[Hr1 Hpos] | [Hr2 Hflt]]].
  - split; [exact Hin | left]. rewrite Hr1 at 1 3. now repeat split.
  - split; [exact Hin | right]. rewrite Hr2 at 1 2. now repeat split.
Qed.

Lemma search_results_sound_witness :
  Forall (fun r => In (Docs.doc r) Docs.MOCK_DOCS)
         (fst (@Docs._search_documents Latin1.str_methods Exact.floats
                 Exact.matcher "Póliza de seguro" 3 Docs.MOCK_DOCS)).
Proof.
  apply Forall_forall. intros r Hr.
  exact (proj1 (search_results_sound Latin1.str_methods Exact.floats Exact.matcher
                  Docs.MOCK_DOCS "Póliza de seguro" 3 r Hr)).
Defined.

(** X7: over a catalog without repeated identifiers no document is returned
    twice, for any query and any [top_k]. *)
Theorem search_results_distinct :
  forall (S : PyStr) (F : PyFloat) (D : Difflib F)
         (docs : Docs.catalog) (query : string) (top_k : Z),
    NoDup (map Docs.id docs) ->
    NoDup (map (fun r => Docs.id (Docs.doc r))
               (fst (Docs._search_documents query top_k docs))).
Proof.
  intros S F D docs query top_k Hnd. unfold Docs._search_documents. cbn [fst].
  match goal with
  | |- NoDup (map _ (slice_to top_k ?l)) =>
      destruct (slice_to_firstn top_k l) as [n ->]
  end.
  rewrite <- firstn_map. apply firstn_NoDup.
  eapply Permutation_NoDup; [apply Permutation_map, sort_desc_perm |].
  rewrite phase1_loop. cbn [app].
  assert (H1 : NoDup (map (fun r => Docs.id (Docs.doc r))
                          (Docs.phase1_spec query docs)))
    by (rewrite phase1_spec_ids; now apply filter_map_NoDup).
  destruct (_ <? _)%Z; [now apply phase2_loop_NoDup | exact H1].
Qed.

Lemma search_results_distinct_witness :
  NoDup (map (fun r => Docs.id (Docs.doc r))
             (fst (@Docs._search_documents Latin1.str_methods Exact.floats
                     Exact.matcher "plan de salud" 3 Docs.MOCK_DOCS))).
Proof.
  exact (search_results_distinct Latin1.str_methods Exact.floats Exact.matcher
           Docs.MOCK_DOCS "plan de salud" 3 MOCK_DOCS_NoDup).
Defined.

(** X8: content matches are looked for only when the keyword matches are
    fewer than [top_k]: when at least [top_k] documents have a positive
    keyword overlap, every entry returned is a keyword match. *)
Theorem search_keyword_matches_suffice :
  forall (S : PyStr) (F : PyFloat) (D : Difflib F)
         (docs : Docs.catalog) (query : string) (top_k : Z),
    (top_k <= Z.of_nat (length (filter (fun d => num_pos (Docs.overlap d query))
                                       docs)))%Z ->
    Forall (fun r => Docs.reason r = "tag_match")
           (fst (Docs._search_documents query top_k docs)).
Proof.
  intros S F D docs query top_k Hk. unfold Docs._search_documents. cbn [fst].
  match goal with
  | |- Forall _ (slice_to top_k ?l) =>
      destruct (slice_to_firstn top_k l) as [n ->]
  end.
  apply firstn_Forall.
  eapply Permutation_Forall; [apply sort_desc_perm |].
  rewrite phase1_loop. cbn [app].
  assert (Hlen : length (Docs.phase1_spec query docs)
                 = length (filter (fun d => num_pos (Docs.overlap d query)) docs))
    by (unfold Docs.phase1_spec; apply length_map).
  destruct (Z.ltb_spec (Z.of_nat (length (Docs.phase1_spec query docs))) top_k);
    [lia | apply phase1_spec_reason].
Qed.

Lemma search_keyword_matches_suffice_witness :
  Forall (fun r => Docs.reason r = "tag_match")
         (fst (@Docs._search_documents Latin1.str_methods Exact.floats
                 Exact.matcher "salud" 2 Docs.MOCK_DOCS)).
Proof.
  apply (search_keyword_matches_suffice Latin1.str_methods Exact.floats
           Exact.matcher Docs.MOCK_DOCS "salud" 2).
  vm_compute. discriminate.
Defined.

Section Text.

Lemma str_app_assoc (a b c : string) : (a ++ b) ++ c = a ++ b ++ c.
Proof. induction a as [| x a IH]; simpl; [reflexivity | now rewrite IH]. Qed.

Lemma str_app_nil_r (a : string) : a ++ "" = a.
Proof. induction a as [| x a IH]; simpl; [reflexivity | now rewrite IH]. Qed.

Lemma concat_cons (x : string) (xs : list string) :
  String.concat "" (x :: xs) = x ++ String.concat "" xs.
Proof. destruct xs; simpl; [now rewrite str_app_nil_r | reflexivity]. Qed.

(** A loop of [output += f(entry)] appends the pieces in order. *)
Lemma fold_append {A : Type} (f : A -> string) (entries : list A) (output : string) :
  fold_left (fun out entry => out ++ f entry) entries output
  = output ++ String.concat "" (map f entries).
Proof.
  revert output. induction entries as [| e es IH]; intro output.
  - simpl. now rewrite str_app_nil_r.
  - cbn [fold_left map]. now rewrite IH, concat_cons, str_app_assoc.
Qed.

End Text.

(** X9: [retrieve_documents] gives one of three answers.  A query that is
    empty or shorter than two characters once stripped gets the fixed "too
    short" text and nothing is searched; a search without result gets the
    "no relevant documents" text with the query quoted; otherwise the answer
    is the header, the query, the number of documents found, which is
    between 1 and 3, and one block per document in rank order. *)
Theorem retrieve_documents_answers :
  forall (S : PyStr) (F : PyFloat) (D : Difflib F)
         (docs : Docs.catalog) (query : string),
    let out := fst (Docs.retrieve_documents query docs) in
    let results := fst (Docs._search_documents query 3 docs) in
    ((query = "" \/ Py.len (strip query) < 2)
     /\ out = "❌ Error: Query too short. Please provide at least 2 characters.")
    \/ (query <> "" /\ 2 <= Py.len (strip query) /\ results = []
        /\ out = "📭 No relevant documents found for: '" ++ query ++ "'" ++ nl
                 ++ "Try searching for: insurance, nutrition, contract, exercise, emergency")
    \/ (query <> "" /\ 2 <= Py.len (strip query)
        /\ 1 <= length results <= 3
        /\ out = "📄 DOCUMENT RETRIEVAL RESULTS" ++ nl ++ repeat_str "=" 50 ++ nl
                 ++ "Query: '" ++ query ++ "'" ++ nl
                 ++ "Found " ++ str_of_nat (length results) ++ " document(s):"
                 ++ nl ++ nl
                 ++ String.concat ""
                      (map Docs.format_result (Rag.enumerate 1 results))).
Proof.
  intros S F D docs query out results. unfold out, Docs.retrieve_documents.
  destruct (String.eqb_spec query "") as [Hq | Hq].
  - left. cbn [orb fst]. split; [now left | reflexivity].
  - cbn [orb]. destruct (Nat.ltb_spec (Py.len (strip query)) 2) as [Hl | Hl].
    + left. split; [now right | reflexivity].
    + right.
      assert (Hle : length results <= 3).
      { unfold results, Docs._search_documents. cbn [fst].
        unfold slice_to. cbn [Z.leb Z.compare]. apply firstn_le_length. }
      fold results in Hle. unfold results in *.
      destruct (Docs._search_documents query 3 docs) as [[| r rs] docs'].
      * left. now repeat split.
      * right. cbn [fst] in *. split; [exact Hq |]. split; [exact Hl |].
        split; [simpl length in *; lia |].
        rewrite fold_append, !str_app_assoc. reflexivity.
Qed.

(* ===================================================================== *)
(** * Further properties of the router                                   *)
(* ===================================================================== *)

Lemma last_of_app (m0 : message) (ms0 ms : list message) (m : message) :
  m0 :: ms0 = (ms ++ [m])%list -> last ms0 m0 = m.
Proof.
  destruct ms as [| x ms]; simpl; intro H; injection H as -> ->.
  - reflexivity.
  - apply last_last.
Qed.

(** X10: the router classifies the last message alone: two states whose
    histories end with the same message get the same category, whatever
    came before and whoever the user is. *)
Theorem router_reads_last_message :
  forall (S : PyStr) (s1 s2 : Router.AgentState)
         (before1 before2 : list message) (m : message),
    Router.messages s1 = (before1 ++ [m])%list ->
    Router.messages s2 = (before2 ++ [m])%list ->
    Router.router_node s1 = Router.router_node s2.
Proof.
  intros S s1 s2 before1 before2 m H1 H2.
  unfold Router.router_node, Router.router_try.
  destruct (Router.messages s1) as [| a1 r1] eqn:E1;
    [now destruct before1 |].
  destruct (Router.messages s2) as [| a2 r2] eqn:E2;
    [now destruct before2 |].
  now rewrite (last_of_app a1 r1 before1 m H1), (last_of_app a2 r2 before2 m H2).
Qed.

Lemma router_reads_last_message_witness :
  @Router.router_node Latin1.str_methods
    {| Router.messages :=
         [HumanMessage (CStr "¿Cuánto dinero gasté?");
          AIMessage (CStr "Gastaste 150 USD.");
          HumanMessage (CStr "Gracias")];
       Router.user_id := "user";
       Router.current_context := "finance" |}
  = @Router.router_node Latin1.str_methods (said "Gracias").
Proof.
  apply (router_reads_last_message Latin1.str_methods _ _
           [HumanMessage (CStr "¿Cuánto dinero gasté?");
            AIMessage (CStr "Gastaste 150 USD.")] []
           (HumanMessage (CStr "Gracias"))); reflexivity.
Defined.

(* ===================================================================== *)
(** * The browsing tools                                                 *)
(* ===================================================================== *)

Section BrowseFacts.

Import Docs Browse.

Definition in_category (cat : string) (d : Doc) : bool :=
  String.eqb (Docs.category d) cat.

(** The documents filed under [cat], none when the key is absent. *)
Definition filed (by_category : groups) (cat : string) : list Doc :=
  match get_key by_category cat with
  | Ok docs => docs
  | Raise _ => []
  end.

Lemma has_key_get (by_category : groups) (cat : string) :
  has_key by_category cat = true <-> exists docs, get_key by_category cat = Ok docs.
Proof.
  induction by_category as [| [k v] rest IH]; simpl.
  - split; [discriminate | intros [docs H]; discriminate H].
  - destruct (String.eqb k cat); simpl; [split; eauto | exact IH].
Qed.

Lemma has_key_keys (by_category : groups) (cat : string) :
  has_key by_category cat = true <-> In cat (map fst by_category).
Proof.
  unfold has_key. rewrite existsb_exists, in_map_iff. split.
  - intros [e [He Heq]]. exists e. apply String.eqb_eq in Heq. now split.
  - intros [e [Heq He]]. exists e. split; [exact He |]. now apply String.eqb_eq.
Qed.

Lemma get_set_key (by_category : groups) (cat cat' : string) (v : list Doc) :
  get_key (set_key by_category cat v) cat'
  = if String.eqb cat cat' then Ok v else get_key by_category cat'.
Proof.
  induction by_category as [| [k old] rest IH]; simpl.
  - destruct (String.eqb_spec cat cat'); [reflexivity |].
    now destruct (String.eqb_spec cat cat').
  - destruct (String.eqb_spec k cat) as [-> | Hk]; simpl.
    + destruct (String.eqb cat cat'); reflexivity.
    + destruct (String.eqb_spec k cat') as [-> | Hk'].
      * destruct (String.eqb_spec cat cat') as [-> | _]; [now elim Hk | reflexivity].
      * exact IH.
Qed.

Lemma keys_set_key (by_category : groups) (cat : string) (v : list Doc) :
  map fst (set_key by_category cat v)
  = if has_key by_category cat then map fst by_category
    else (map fst by_category ++ [cat])%list.
Proof.
  unfold has_key. induction by_category as [| [k old] rest IH]; simpl.
  - reflexivity.
  - destruct (String.eqb k cat); simpl; [reflexivity |].
    rewrite IH. now destruct (existsb _ rest).
Qed.

Lemma sizes_set_key (by_category : groups) (cat : string) (v : list Doc) :
  list_sum (map (fun e => length (snd e)) (set_key by_category cat v)) + length (filed by_category cat)
  = list_sum (map (fun e => length (snd e)) by_category) + length v.
Proof.
  unfold filed. induction by_category as [| [k old] rest IH]; simpl.
  - lia.
  - destruct (String.eqb k cat); simpl; lia.
Qed.

(** One turn of the grouping loop: it does not fail, files the document
    last under its category and leaves the other categories alone. *)
Lemma group_step_files (by_category : groups) (d : Doc) :
  exists by_category',
    group_step by_category d = Ok by_category'
    /\ (forall cat, filed by_category' cat
                    = if in_category cat d
                      then (filed by_category cat ++ [d])%list
                      else filed by_category cat)
    /\ map fst by_category'
       = (if has_key by_category (Docs.category d) then map fst by_category
          else (map fst by_category ++ [Docs.category d])%list)
    /\ list_sum (map (fun e => length (snd e)) by_category')
       = Datatypes.S (list_sum (map (fun e => length (snd e)) by_category)).
Proof.
  unfold group_step.
  set (cat := Docs.category d).
  set (start := if has_key by_category cat then by_category
                else set_key by_category cat []).
  assert (Hget : get_key start cat = Ok (filed by_category cat)).
  { unfold start, filed. destruct (has_key by_category cat) eqn:Hk.
    - apply has_key_get in Hk as [docs ->]. reflexivity.
    - rewrite get_set_key, String.eqb_refl.
      destruct (get_key by_category cat) as [docs |] eqn:Hg; [| reflexivity].
      assert (has_key by_category cat = true) by (apply has_key_get; eauto).
      congruence. }
  assert (Hother : forall c, c <> cat -> get_key start c = get_key by_category c).
  { intros c Hc. unfold start. destruct (has_key by_category cat); [reflexivity |].
    rewrite get_set_key. destruct (String.eqb_spec cat c); [now elim Hc | reflexivity]. }
  assert (Hkeys : map fst start
                  = if has_key by_category cat then map fst by_category
                    else (map fst by_category ++ [cat])%list).
  { unfold start. destruct (has_key by_category cat) eqn:Hk; [reflexivity |].
    now rewrite keys_set_key, Hk. }
  assert (Hhas : has_key start cat = true) by (apply has_key_get; eauto).
  assert (Hsize : list_sum (map (fun e => length (snd e)) start)
                  = list_sum (map (fun e => length (snd e)) by_category)).
  { unfold start. destruct (has_key by_category cat) eqn:Hk; [reflexivity |].
    pose proof (sizes_set_key by_category cat []) as Hs. simpl in Hs.
    assert (Hf : filed by_category cat = []).
    { unfold filed. destruct (get_key by_category cat) eqn:Hg; [| reflexivity].
      assert (has_key by_category cat = true) by (apply has_key_get; eauto).
      congruence. }
    rewrite Hf in Hs. simpl in Hs. lia. }
  rewrite Hget. cbn [bind]. eexists. split; [reflexivity |].
  split; [| split].
  - intro c. unfold filed at 1, in_category. rewrite get_set_key. fold cat.
    rewrite String.eqb_sym.
    destruct (String.eqb_spec c cat) as [-> | Hc]; [reflexivity |].
    unfold filed. now rewrite (Hother c Hc).
  - now rewrite keys_set_key, Hhas, Hkeys.
  - pose proof (sizes_set_key start cat (filed by_category cat ++ [d])%list) as Hs.
    assert (Hf : filed start cat = filed by_category cat)
      by (unfold filed at 1; now rewrite Hget).
    rewrite Hf, length_app in Hs. simpl in Hs. lia.
Qed.

(** The grouping loop as a whole. *)
Lemma group_loop_files (docs : list Doc) :
  forall by_category,
    NoDup (map fst by_category) ->
    exists by_category',
      group_loop by_category docs = Ok by_category'
      /\ (forall cat, filed by_category' cat
                      = (filed by_category cat ++ filter (in_category cat) docs)%list)
      /\ NoDup (map fst by_category')
      /\ (forall cat, In cat (map fst by_category')
                      <-> In cat (map fst by_category)
                          \/ In cat (map Docs.category docs))
      /\ list_sum (map (fun e => length (snd e)) by_category')
         = list_sum (map (fun e => length (snd e)) by_category) + length docs.
Proof.
  induction docs as [| d docs IH]; intros by_category Hnd.
  - exists by_category. simpl. split; [reflexivity |].
    split; [intro cat; now rewrite app_nil_r |].
    split; [exact Hnd |]. split; [intro cat; tauto | lia].
  - destruct (group_step_files by_category d) as [g1 [Hstep [Hfiled [Hkeys Hsize]]]].
    assert (Hnd1 : NoDup (map fst g1)).
    { rewrite Hkeys. destruct (has_key by_category (Docs.category d)) eqn:Hk;
        [exact Hnd |].
      apply NoDup_app; [exact Hnd | repeat constructor; intros [] |].
      intros x Hx [<- | []].
      apply has_key_keys in Hx. congruence. }
    destruct (IH g1 Hnd1) as [g2 [Hloop [Hfiled2 [Hnd2 [Hkeys2 Hsize2]]]]].
    exists g2. cbn [group_loop]. rewrite Hstep. cbn [bind].
    split; [exact Hloop |]. split; [| split; [exact Hnd2 | split]].
    + intro cat. rewrite Hfiled2, Hfiled. cbn [filter].
      destruct (in_category cat d); [now rewrite <- app_assoc | reflexivity].
    + intro cat. rewrite Hkeys2, Hkeys. cbn [map In].
      destruct (has_key by_category (Docs.category d)) eqn:Hk.
      * apply has_key_keys in Hk. split; [tauto |].
        intros [H | [<- | H]]; tauto.
      * rewrite in_app_iff. cbn [In]. tauto.
    + rewrite Hsize2, Hsize. simpl. lia.
Qed.

End BrowseFacts.

Section BrowseOrder.

Import Browse.

Lemma ltb_asym (a b : string) : String.ltb a b = true -> String.ltb b a = false.
Proof.
  unfold String.ltb. rewrite (String.compare_antisym b a).
  destruct (String.compare a b); simpl; intro H; first [discriminate H | reflexivity].
Qed.

Lemma ltb_total (a b : string) :
  a <> b -> String.ltb b a = false -> String.ltb a b = true.
Proof.
  unfold String.ltb. intros Hne. rewrite (String.compare_antisym b a).
  destruct (String.compare a b) eqn:Hc; simpl; intro H;
    first [discriminate H | reflexivity | idtac].
  apply String.compare_eq_iff in Hc. contradiction.
Qed.

Lemma insert_asc_perm (x : string) (xs : list string) :
  Permutation (x :: xs) (insert_asc x xs).
Proof.
  induction xs as [| y ys IH]; simpl; [apply Permutation_refl |].
  destruct (String.ltb y x); [| apply Permutation_refl].
  eapply perm_trans; [apply perm_swap | now apply perm_skip].
Qed.

Lemma sorted_perm (xs : list string) : Permutation xs (sorted xs).
Proof.
  induction xs as [| x xs IH]; simpl; [apply perm_nil |].
  eapply perm_trans; [apply perm_skip, IH | apply insert_asc_perm].
Qed.

Lemma insert_asc_ascending (x : string) (xs : list string) :
  Sorted (fun a b => String.ltb b a = false) xs ->
  Sorted (fun a b => String.ltb b a = false) (insert_asc x xs).
Proof.
  induction xs as [| y ys IH]; intro Hs; simpl.
  - repeat constructor.
  - destruct (String.ltb y x) eqn:Hyx.
    + apply Sorted_inv in Hs as [Hys Hhd]. constructor; [now apply IH |].
      destruct ys as [| z zs]; simpl.
      * constructor. now apply ltb_asym.
      * destruct (String.ltb z x); constructor.
        -- now inversion Hhd.
        -- now apply ltb_asym.
    + constructor; [exact Hs | now constructor].
Qed.

Lemma sorted_ascending (xs : list string) :
  Sorted (fun a b => String.ltb b a = false) (sorted xs).
Proof.
  induction xs as [| x xs IH]; simpl; [constructor | now apply insert_asc_ascending].
Qed.

(** Without repeated elements the order is strict. *)
Lemma ascending_strict (xs : list string) :
  NoDup xs ->
  Sorted (fun a b => String.ltb b a = false) xs ->
  Sorted (fun a b => String.ltb a b = true) xs.
Proof.
  induction xs as [| x xs IH]; intros Hnd Hs; [constructor |].
  apply Sorted_inv in Hs as [Hs Hhd]. inversion Hnd as [| ? ? Hnotin Hnd']; subst.
  constructor; [now apply IH |].
  destruct xs as [| y ys]; constructor.
  inversion Hhd; subst. apply ltb_total; [| assumption].
  intros ->. apply Hnotin. now left.
Qed.

Lemma sorted_strict (xs : list string) :
  NoDup xs -> Sorted (fun a b => String.ltb a b = true) (sorted xs).
Proof.
  intro Hnd. apply ascending_strict; [| apply sorted_ascending].
  eapply Permutation_NoDup; [apply sorted_perm | exact Hnd].
Qed.

End BrowseOrder.

Section BrowseListing.

Import Docs Browse.

Context {S : PyStr}.

(** What [list_all_documents] prints for one category and its documents. *)
Definition block (cat : string) (members : list Doc) : string :=
  nl ++ "📁 " ++ upper cat ++ " ("
     ++ str_of_nat (length members) ++ " document"
     ++ (if negb (length members =? 1)%nat then "s" else "") ++ ")" ++ nl
  ++ String.concat "" (map listing_entry members).

Definition category_block (docs : catalog) (cat : string) : string :=
  block cat (filter (in_category cat) docs).

Lemma listing_loop_blocks (by_category : groups) (categories : list string) :
  forall output,
    (forall cat, In cat categories -> In cat (map fst by_category)) ->
    listing_loop by_category output categories
    = Ok (output ++ String.concat ""
                      (map (fun cat => block cat (filed by_category cat)) categories)).
Proof.
  induction categories as [| cat rest IH]; intros output Hkeys.
  - simpl. now rewrite str_app_nil_r.
  - assert (Hin : In cat (map fst by_category)) by (apply Hkeys; now left).
    apply has_key_keys, has_key_get in Hin as [docs Hget].
    cbn [listing_loop map]. unfold listing_step. rewrite Hget. cbn [bind].
    rewrite IH by (intros c Hc; apply Hkeys; now right).
    rewrite fold_append, concat_cons.
    replace (filed by_category cat) with docs by (unfold filed; now rewrite Hget).
    unfold block. now rewrite !str_app_assoc.
Qed.

Lemma get_key_entry (by_category : groups) (k : string) (v : list Doc) :
  NoDup (map fst by_category) -> In (k, v) by_category ->
  get_key by_category k = Ok v.
Proof.
  induction by_category as [| [k' v'] rest IH]; intros Hnd Hin; [destruct Hin |].
  inversion Hnd as [| ? ? Hnotin Hnd']; subst. simpl.
  destruct Hin as [Heq | Hin].
  - inversion Heq; subst. now rewrite String.eqb_refl.
  - destruct (String.eqb_spec k' k) as [-> | _]; [| now apply IH].
    elim Hnotin. apply in_map_iff. now exists (k, v).
Qed.

Lemma get_key_raises (by_category : groups) (cat : string) (e : exn) :
  get_key by_category cat = Raise e -> e = KeyError cat.
Proof.
  induction by_category as [| [k v] rest IH]; simpl.
  - intro H. now inversion H.
  - destruct (String.eqb k cat); [discriminate | exact IH].
Qed.

Lemma sizes_by_key (by_category : groups) :
  NoDup (map fst by_category) ->
  map (fun e => length (snd e)) by_category
  = map (fun cat => length (filed by_category cat)) (map fst by_category).
Proof.
  intro Hnd. rewrite map_map. apply map_ext_in. intros [k v] Hin.
  unfold filed. simpl. now rewrite (get_key_entry _ _ _ Hnd Hin).
Qed.

Lemma list_sum_perm (xs ys : list nat) :
  Permutation xs ys -> list_sum xs = list_sum ys.
Proof. induction 1; simpl; lia. Qed.

End BrowseListing.

(** X11: the grouping loop of [list_all_documents] never fails, and the
    dict it builds holds, under every category, exactly the catalog's
    documents of that category in catalog order; its keys are the categories
    that occur, each once, and no document is lost or filed twice: the sizes
    of the groups add up to the size of the catalog. *)
Theorem list_all_documents_groups :
  forall (docs : Docs.catalog),
  exists by_category,
    Browse.group_loop [] docs = Ok by_category
    /\ (forall cat, Browse.get_key by_category cat
                    = match filter (in_category cat) docs with
                      | [] => Raise (KeyError cat)
                      | members => Ok members
                      end)
    /\ NoDup (map fst by_category)
    /\ (forall cat, In cat (map fst by_category) <-> In cat (map Docs.category docs))
    /\ list_sum (map (fun e => length (snd e)) by_category) = length docs.
Proof.
  intro docs.
  destruct (group_loop_files docs [] (NoDup_nil _))
    as [g [Hloop [Hfiled [Hnd [Hkeys Hsize]]]]].
  exists g. split; [exact Hloop |]. split; [| split; [exact Hnd | split]].
  - intro cat. specialize (Hfiled cat). unfold filed in Hfiled. simpl in Hfiled.
    destruct (Browse.get_key g cat) as [members | e] eqn:Hget.
    + rewrite <- Hfiled.
      assert (Hin : In cat (map fst g)) by (apply has_key_keys, has_key_get; eauto).
      apply Hkeys in Hin as [[] | Hin].
      apply in_map_iff in Hin as [d [Hd Hin]].
      assert (Hm : In d (filter (in_category cat) docs)).
      { apply filter_In. split; [exact Hin |]. unfold in_category.
        now apply String.eqb_eq. }
      rewrite <- Hfiled in Hm. destruct members; [destruct Hm | reflexivity].
    + rewrite <- Hfiled. now rewrite (get_key_raises _ _ _ Hget).
  - intro cat. rewrite Hkeys. simpl. tauto.
  - rewrite Hsize. reflexivity.
Qed.

(** X12: [list_all_documents] never takes its error branch and leaves the
    catalog alone.  Its text is the heading, the number of documents in the
    catalog and one block per category; the categories shown are exactly
    those that occur in the catalog, each once, in strictly ascending order,
    every block lists that category's documents in catalog order, and the
    counts shown in the blocks add up to the total shown on top. *)
Theorem list_all_documents_lists :
  forall (S : PyStr) (docs : Docs.catalog),
  exists categories,
    Sorted (fun a b => String.ltb a b = true) categories
    /\ (forall cat, In cat categories <-> In cat (map Docs.category docs))
    /\ list_sum (map (fun cat => length (filter (in_category cat) docs)) categories)
       = length docs
    /\ Browse.list_all_documents docs
       = ("📚 FAMILY DOCUMENT DATABASE" ++ nl ++ repeat_str "=" 50 ++ nl
          ++ "Total Documents: " ++ str_of_nat (length docs) ++ nl ++ nl
          ++ "CATEGORIES:" ++ nl
          ++ String.concat "" (map (category_block docs) categories),
          docs).
Proof.
  intros S docs.
  destruct (group_loop_files docs [] (NoDup_nil _))
    as [g [Hloop [Hfiled [Hnd [Hkeys Hsize]]]]].
  simpl in Hfiled, Hkeys, Hsize.
  exists (Browse.sorted (map fst g)).
  assert (Hperm := sorted_perm (map fst g)).
  split; [now apply sorted_strict |]. split; [| split].
  - intro cat. split; intro Hin.
    + assert (Hk : In cat (map fst g))
        by (eapply Permutation_in; [apply Permutation_sym, Hperm | exact Hin]).
      apply Hkeys in Hk. tauto.
    + eapply Permutation_in; [exact Hperm | apply Hkeys; now right].
  - transitivity
      (list_sum (map (fun cat => length (filter (in_category cat) docs)) (map fst g))).
    + symmetry. apply list_sum_perm, Permutation_map, Hperm.
    + rewrite <- Hsize, (sizes_by_key g Hnd). f_equal. apply map_ext.
      intro cat. now rewrite Hfiled.
  - unfold Browse.list_all_documents, Browse.list_all_try.
    rewrite Hloop. cbn [bind].
    rewrite listing_loop_blocks
      by (intros cat Hin; eapply Permutation_in;
          [apply Permutation_sym, Hperm | exact Hin]).
    rewrite (map_ext (fun cat => block cat (filed g cat)) (category_block docs))
      by (intro cat; unfold category_block; now rewrite Hfiled).
    now rewrite !str_app_assoc.
Qed.

(** X13: [search_by_category] leaves the catalog alone and gives one of two
    answers.  When the lowered name is a category of the catalog, the text
    says how many documents it found, at least one, and shows exactly the
    documents [list_all_documents] puts under that category, in the same
    order.  Otherwise the text says the category was not found, quoting the
    name as given, and names every category of the catalog once. *)
Theorem search_by_category_answers :
  forall (S : PyStr) (P : Browse.PySet) (docs : Docs.catalog) (category : string),
    let found := filter (in_category (lower category)) docs in
    let out := fst (Browse.search_by_category category docs) in
    snd (Browse.search_by_category category docs) = docs
    /\ ((In (lower category) (map Docs.category docs)
         /\ 1 <= length found
         /\ out = "📚 CATEGORY: " ++ upper (lower category) ++ nl
                  ++ repeat_str "=" 50 ++ nl
                  ++ "Found " ++ str_of_nat (length found) ++ " document(s):"
                  ++ nl ++ nl
                  ++ String.concat "" (map Browse.category_entry found))
        \/ (~ In (lower category) (map Docs.category docs)
            /\ exists available,
                 NoDup available
                 /\ (forall cat, In cat available <-> In cat (map Docs.category docs))
                 /\ out = "❌ Category '" ++ category ++ "' not found." ++ nl
                          ++ "Available categories: "
                          ++ String.concat ", " available)).
Proof.
  intros S P docs category found out.
  assert (Hin : In (lower category) (map Docs.category docs) <-> found <> []).
  { unfold found. split.
    - intros Hc Hnil. apply in_map_iff in Hc as [d [Hd Hc]].
      assert (Hm : In d (filter (in_category (lower category)) docs)).
      { apply filter_In. split; [exact Hc |]. unfold in_category.
        now apply String.eqb_eq. }
      rewrite Hnil in Hm. destruct Hm.
    - destruct (filter _ docs) as [| d ds] eqn:Hf; [congruence |]. intros _.
      assert (Hm : In d (filter (in_category (lower category)) docs))
        by (rewrite Hf; now left).
      apply filter_In in Hm as [Hd Hc]. apply in_map_iff. exists d.
      split; [| exact Hd]. unfold in_category in Hc. now apply String.eqb_eq in Hc. }
  unfold out, Browse.search_by_category, Browse.matching_docs.
  change (filter (fun d => String.eqb (Docs.category d) (lower category)) docs)
    with found.
  destruct found as [| d ds] eqn:Hfound.
  - split; [reflexivity |]. right. split; [intro Hc; now apply Hin in Hc |].
    exists (Browse.set_iter (map Docs.category docs)).
    split; [apply Browse.set_iter_NoDup |].
    split; [intro cat; apply Browse.set_iter_In | reflexivity].
  - split; [reflexivity |]. left. split; [apply Hin; discriminate |].
    split; [simpl; lia |].
    cbn [fst]. rewrite fold_append. now rewrite !str_app_assoc.
Qed.

(* ===================================================================== *)
(** * The assistant's graph                                              *)
(* ===================================================================== *)

Section Dicts.

Import Assistant.

Context {V : Type}.

Lemma dict_get_set (d : dict V) (k k' : string) (v : V) :
  dict_get (dict_set d k v) k'
  = if String.eqb k k' then Some v else dict_get d k'.
Proof.
  induction d as [| [k0 old] rest IH]; simpl.
  - reflexivity.
  - destruct (String.eqb_spec k0 k) as [-> | Hk]; simpl.
    + destruct (String.eqb k k'); reflexivity.
    + destruct (String.eqb_spec k0 k') as [-> | Hk'].
      * destruct (String.eqb_spec k k') as [-> | _]; [now elim Hk | reflexivity].
      * exact IH.
Qed.

Lemma dict_set_keys (d : dict V) (k : string) (v : V) :
  map fst (dict_set d k v)
  = if existsb (fun entry => String.eqb (fst entry) k) d then map fst d
    else (map fst d ++ [k])%list.
Proof.
  induction d as [| [k0 old] rest IH]; simpl.
  - reflexivity.
  - destruct (String.eqb k0 k); simpl; [reflexivity |].
    rewrite IH. now destruct (existsb _ rest).
Qed.

Lemma dict_set_NoDup (d : dict V) (k : string) (v : V) :
  NoDup (map fst d) -> NoDup (map fst (dict_set d k v)).
Proof.
  intro Hnd. rewrite dict_set_keys.
  destruct (existsb _ d) eqn:Hex; [exact Hnd |].
  apply NoDup_app; [exact Hnd | repeat constructor; intros [] |].
  intros x Hx [<- | []].
  apply in_map_iff in Hx as [entry [Hfst Hin]].
  assert (existsb (fun entry => String.eqb (fst entry) k) d = true).
  { apply existsb_exists. exists entry. split; [exact Hin |].
    now apply String.eqb_eq. }
  congruence.
Qed.

Lemma dict_set_nonempty (d : dict V) (k : string) (v : V) : dict_set d k v <> [].
Proof.
  destruct d as [| [k0 old] rest]; simpl; [discriminate |].
  destruct (String.eqb k0 k); discriminate.
Qed.

Lemma find_last {A : Type} (p : A -> bool) (xs : list A) (x : A) :
  find p (xs ++ [x])
  = match find p xs with
    | Some y => Some y
    | None => if p x then Some x else None
    end.
Proof.
  induction xs as [| y ys IH]; simpl; [reflexivity |].
  destruct (p y); [reflexivity | exact IH].
Qed.

End Dicts.

Section InitialState.

Import Assistant.

Context {F : PyFloat}.

Lemma goals_dict_get (goals : list Goal) (n : string) :
  forall d : dict Goal,
    dict_get (fold_left (fun d goal => dict_set d (name goal) goal) goals d) n
    = match find (fun goal => String.eqb (name goal) n) (rev goals) with
      | Some goal => Some goal
      | None => dict_get d n
      end.
Proof.
  induction goals as [| g gs IH]; intro d; [reflexivity |].
  cbn [fold_left rev]. rewrite IH, find_last, dict_get_set.
  destruct (find _ (rev gs)); [reflexivity |].
  now destruct (String.eqb (name g) n).
Qed.

Lemma goals_dict_NoDup (goals : list Goal) :
  forall d : dict Goal,
    NoDup (map fst d) ->
    NoDup (map fst (fold_left (fun d goal => dict_set d (name goal) goal) goals d)).
Proof.
  induction goals as [| g gs IH]; intros d Hnd; [exact Hnd |].
  cbn [fold_left]. now apply IH, dict_set_NoDup.
Qed.

Lemma goals_dict_nonempty (goals : list Goal) :
  forall d : dict Goal,
    d <> [] ->
    fold_left (fun d goal => dict_set d (name goal) goal) goals d <> [].
Proof.
  induction goals as [| g gs IH]; intros d Hd; [exact Hd |].
  cbn [fold_left]. apply IH, dict_set_nonempty.
Qed.

End InitialState.

(** X14: [create_initial_state] files the goals by name.  Looking a name up
    in [active_goals] gives the goal given last under that name, or nothing
    when no goal has it, so of several goals with one name only the last is
    kept; no name is stored twice; and the dict is empty only when no goal
    was given.  The history starts empty and the context as "unknown". *)
Theorem create_initial_state_goals :
  forall (F : PyFloat) (user_id : string) (goals : list Assistant.Goal),
  exists goals_dict,
    Assistant.create_initial_state user_id (Some goals)
    = {| Assistant.messages := [];
         Assistant.user_id := user_id;
         Assistant.active_goals := Some goals_dict;
         Assistant.current_context := Some "unknown";
         Assistant.retrieved_docs := None;
         Assistant.reasoning_steps := Some [];
         Assistant.session_id := None |}
    /\ (forall n, Assistant.dict_get goals_dict n
                  = find (fun goal => String.eqb (Assistant.name goal) n) (rev goals))
    /\ NoDup (map fst goals_dict)
    /\ (goals_dict = [] <-> goals = []).
Proof.
  intros F user_id goals. eexists. split; [reflexivity |]. split; [| split].
  - intro n. rewrite goals_dict_get. now destruct (find _ (rev goals)).
  - apply goals_dict_NoDup. constructor.
  - split.
    + destruct goals as [| g gs]; [reflexivity |]. cbn [fold_left]. intro H.
      now apply goals_dict_nonempty in H; [| apply dict_set_nonempty].
    + now intros ->.
Qed.

Section Specialists.

Import Assistant.

Context {F : PyFloat}.

(** The request [finance_node] sends when it gets that far. *)
Definition finance_request (state : AgentState) : request :=
  (Some finance_tools,
   SystemMessage (CStr (finance_prompt "No goals defined yet")) :: messages state).

Lemma finance_node_stopped (state : AgentState) (llm : ChatOpenAI) (w : World) (e : exn) :
  bind_tools llm finance_tools = Raise e
  \/ ((exists u, bind_tools llm finance_tools = Ok u) /\ goals_text_of state = Raise e) ->
  finance_node state llm w = (error_update "❌ Error en finance_node: " e None, w).
Proof.
  unfold finance_node, finance_try, mbind, ret.
  intros [-> | [[u ->] ->]]; reflexivity.
Qed.

Lemma finance_node_asks (state : AgentState) (llm : ChatOpenAI) (w : World)
      (u : Datatypes.unit) (text : string) :
  bind_tools llm finance_tools = Ok u ->
  goals_text_of state = Ok text ->
  finance_node state llm w
  = (match invoke llm (length (chat_log w)) (fst (finance_request state))
                  (snd (finance_request state)) with
     | Ok c => {| u_messages := [AIMessage c]; u_current_context := None |}
     | Raise e => error_update "❌ Error en finance_node: " e None
     end,
     {| chat_log := (chat_log w ++ [finance_request state])%list;
        rag_log := rag_log w |}).
Proof.
  intros Hbind Htext.
  assert (text = "").
  { unfold goals_text_of in Htext.
    destruct (active_goals state) as [[| entry rest] |]; congruence. }
  subst text.
  unfold finance_node, finance_try, mbind, ret, invoke_chat, finance_request.
  rewrite Hbind, Htext. cbn [String.eqb fst snd].
  now destruct (invoke llm _ _ _).
Qed.

End Specialists.

(** X15: with any goal in [active_goals], [finance_node] never reaches the
    model.  Building the list of goals for the prompt fails, because the
    loop runs over the names of the dict, and the node answers with its
    error text; nothing is sent.  (When binding the tools fails, it is that
    error which is reported.) *)
Theorem finance_node_goals_fail :
  forall (F : PyFloat) (state : Assistant.AgentState) (llm : Assistant.ChatOpenAI)
         (w : Assistant.World) (entry : string * Assistant.Goal)
         (rest : Assistant.dict Assistant.Goal),
    Assistant.active_goals state = Some (entry :: rest) ->
    Assistant.finance_node state llm w
    = ({| Assistant.u_messages :=
            [AIMessage
               (CStr ("❌ Error en finance_node: "
                      ++ str_exn
                           match Assistant.bind_tools llm Assistant.finance_tools with
                           | Raise e => e
                           | Ok _ =>
                               AttributeError "'str' object has no attribute 'name'"
                           end))];
          Assistant.u_current_context := None |},
       w).
Proof.
  intros F state llm w entry rest Hgoals.
  destruct (Assistant.bind_tools llm Assistant.finance_tools) as [u | e] eqn:Hbind.
  - erewrite finance_node_stopped; [reflexivity |].
    right. split; [now exists u |].
    unfold Assistant.goals_text_of. now rewrite Hgoals.
  - erewrite finance_node_stopped; [reflexivity | now left].
Qed.

Lemma finance_node_goals_fail_witness :
  Assistant.finance_node (asking [savings_goal] "¿Cuánto gasté este mes?")
                         (chatty "Gastaste 100 USD.") nothing_sent
  = ({| Assistant.u_messages :=
          [AIMessage
             (CStr ("❌ Error en finance_node: "
                    ++ "'str' object has no attribute 'name'"))];
        Assistant.u_current_context := None |},
     nothing_sent).
Proof.
  exact (finance_node_goals_fail
           Exact.floats (asking [savings_goal] "¿Cuánto gasté este mes?")
           (chatty "Gastaste 100 USD.") nothing_sent
           ("ahorro", savings_goal) [] eq_refl).
Defined.

(** X16: the goals never reach the model.  Whatever the state holds,
    [finance_node] sends nothing or one request, and that request is the
    finance tools bound and the history under a system prompt that says
    "No goals defined yet". *)
Theorem finance_node_prompt_without_goals :
  forall (F : PyFloat) (state : Assistant.AgentState) (llm : Assistant.ChatOpenAI)
         (w : Assistant.World),
  exists sent,
    snd (Assistant.finance_node state llm w)
    = {| Assistant.chat_log := (Assistant.chat_log w ++ sent)%list;
         Assistant.rag_log := Assistant.rag_log w |}
    /\ (sent = []
        \/ sent = [(Some Assistant.finance_tools,
                    SystemMessage
                      (CStr (Assistant.finance_prompt "No goals defined yet"))
                    :: Assistant.messages state)]).
Proof.
  intros F state llm w.
  destruct (Assistant.bind_tools llm Assistant.finance_tools) as [u | e] eqn:Hbind.
  - destruct (Assistant.goals_text_of state) as [text | e] eqn:Htext.
    + exists [finance_request state].
      rewrite (finance_node_asks state llm w u text Hbind Htext).
      split; [reflexivity | now right].
    + exists []. rewrite (finance_node_stopped state llm w e)
        by (right; split; [now exists u | exact Htext]).
      split; [| now left]. destruct w; simpl. now rewrite app_nil_r.
  - exists []. rewrite (finance_node_stopped state llm w e) by now left.
    split; [| now left]. destruct w; simpl. now rewrite app_nil_r.
Qed.

(** X17: [docs_node] called without a sub-graph, the default of its third
    parameter.  On a history that is not empty the node sets out to compile
    one; [compile_rag_graph] raises, inside the [try] of the node, and the
    node answers with its error text under the context "docs".  The model
    is not asked and nothing is retrieved, whatever the question, the
    catalog and the runtime.  On an empty history the node asks what is
    wanted and leaves the context alone. *)
Theorem docs_node_cannot_compile :
  forall (S : PyStr) (F : PyFloat) (D : Difflib F)
         (T : Rag.ChatPromptTemplate)
         (G : LangGraph.Pregel Rag.action Rag.path Rag.RAGState Rag.M)
         (blocks_run : LangGraph.CompiledStateGraph -> string
                       -> Rag.M (result Rag.RAGState))
         (tool_callable : bool) (stored : Docs.catalog)
         (llm : Assistant.ChatOpenAI) (state : Assistant.AgentState)
         (w : Assistant.World),
    Assistant.docs_node blocks_run tool_callable stored state llm None w
    = (match Assistant.messages state with
       | [] =>
           {| Assistant.u_messages :=
                [AIMessage
                   (CStr "Por favor, cuéntame qué información de documentos necesitas.")];
              Assistant.u_current_context := None |}
       | _ :: _ =>
           {| Assistant.u_messages :=
                [AIMessage
                   (CStr ("❌ Error en docs_node (Agentic RAG): "
                          ++ "Node `retrieve` already present."))];
              Assistant.u_current_context := Some "docs" |}
       end, w).
Proof.
  intros S F D T G blocks_run tool_callable stored llm state w.
  unfold Assistant.docs_node, Assistant.docs_try, Assistant.mbind, Assistant.ret.
  destruct (Assistant.messages state) as [| m ms]; [reflexivity |].
  now rewrite compile_rag_graph_raises.
Qed.

(** X18: [build_workflow] builds nothing.  Its first step is to compile the
    sub-graph, outside any [try]; that raises, and so does [build_workflow],
    for every model, catalog and runtime, before a node of the assistant's
    graph is added. *)
Theorem build_workflow_raises :
  forall (S : PyStr) (F : PyFloat) (D : Difflib F)
         (T : Rag.ChatPromptTemplate)
         (G : LangGraph.Pregel Rag.action Rag.path Rag.RAGState Rag.M)
         (blocks_run : LangGraph.CompiledStateGraph -> string
                       -> Rag.M (result Rag.RAGState))
         (tool_callable : bool)
         (H : LangGraph.Pregel Assistant.action Assistant.path
                               Assistant.AgentState Assistant.W)
         (stored : Docs.catalog) (llm : Assistant.ChatOpenAI),
    Assistant.build_workflow blocks_run tool_callable stored llm
    = Raise (ValueError "Node `retrieve` already present.").
Proof.
  intros S F D T G blocks_run tool_callable H stored llm.
  unfold Assistant.build_workflow. now rewrite compile_rag_graph_raises.
Qed.

(* ===================================================================== *)
(** * The finance tools                                                  *)
(* ===================================================================== *)

Section FinanceFacts.

Import Finance.

Context {S : PyStr} {F : PyFloat} {A : PyArith}.

(** The record a user has when first met. *)
Definition new_user : user_db :=
  {| expenses := []; budgets := default_budgets; monthly_goals := [] |}.

(** What is on file for a user: the stored record, or the one an unknown
    user is entered with. *)
Definition record_of (stored : db) (user_id : string) : user_db :=
  match Assistant.dict_get stored user_id with
  | Some user => user
  | None => new_user
  end.

(** [MOCK_DB] once the user has been looked up. *)
Definition entered (stored : db) (user_id : string) : db :=
  match Assistant.dict_get stored user_id with
  | Some _ => stored
  | None => Assistant.dict_set stored user_id new_user
  end.

Lemma get_user_db_spec (user_id : string) (stored : db) :
  _get_user_db user_id stored = (record_of stored user_id, entered stored user_id).
Proof.
  unfold _get_user_db, record_of, entered.
  now destruct (Assistant.dict_get stored user_id).
Qed.

Lemma dict_get_entered (stored : db) (user_id : string) :
  Assistant.dict_get (entered stored user_id) user_id
  = Some (record_of stored user_id).
Proof.
  unfold entered, record_of.
  destruct (Assistant.dict_get stored user_id) eqn:H; [exact H |].
  now rewrite dict_get_set, String.eqb_refl.
Qed.

Lemma record_of_entered (stored : db) (user_id other : string) :
  record_of (entered stored user_id) other = record_of stored other.
Proof.
  unfold entered.
  destruct (Assistant.dict_get stored user_id) eqn:H; [reflexivity |].
  unfold record_of. rewrite dict_get_set.
  destruct (String.eqb_spec user_id other) as [<- | _]; [| reflexivity].
  now rewrite H.
Qed.

Lemma entered_known (stored : db) (user_id : string) (user : user_db) :
  Assistant.dict_get stored user_id = Some user -> entered stored user_id = stored.
Proof. unfold entered. now intros ->. Qed.

Lemma entered_idem (stored : db) (user_id : string) :
  entered (entered stored user_id) user_id = entered stored user_id.
Proof. eapply entered_known, dict_get_entered. Qed.

Lemma record_of_set (stored : db) (user_id other : string) (user : user_db) :
  record_of (Assistant.dict_set stored user_id user) other
  = if String.eqb user_id other then user else record_of stored other.
Proof.
  unfold record_of. rewrite dict_get_set. now destruct (String.eqb user_id other).
Qed.

(** The amounts on file in a category, in the order they were added, and
    what has been spent there according to the record. *)
Definition amounts_in (user : user_db) (category : string) : list float :=
  map e_amount
      (filter (fun exp => String.eqb (e_category exp) category) (expenses user)).

Definition spent_in (user : user_db) (category : string) : float :=
  fsum (amounts_in user category).

Lemma get_category_spent_spec (user_id category : string) (stored : db) :
  _get_category_spent user_id category stored
  = (spent_in (record_of stored user_id) category, entered stored user_id).
Proof.
  unfold _get_category_spent, mbind, ret. now rewrite get_user_db_spec.
Qed.

Lemma get_total_spent_spec (user_id : string) (stored : db) :
  _get_total_spent user_id stored
  = (fsum (map e_amount (expenses (record_of stored user_id))),
     entered stored user_id).
Proof.
  unfold _get_total_spent, mbind, ret. now rewrite get_user_db_spec.
Qed.

End FinanceFacts.

Section FinanceFrame.

Import Finance.

Context {S : PyStr} {F : PyFloat} {A : PyArith}.

(** A computation that leaves [MOCK_DB] alone once the user is on file. *)
Definition quiet {T : Type} (user_id : string) (m : St T) : Prop :=
  forall stored user,
    Assistant.dict_get stored user_id = Some user -> snd (m stored) = stored.

Lemma quiet_ret {T : Type} (user_id : string) (t : T) : quiet user_id (ret t).
Proof. now intros stored user _. Qed.

Lemma quiet_bind {T U : Type} (user_id : string) (m : St T) (k : T -> St U) :
  quiet user_id m -> (forall t, quiet user_id (k t)) -> quiet user_id (mbind m k).
Proof.
  intros Hm Hk stored user Hget. unfold mbind.
  specialize (Hm stored user Hget).
  destruct (m stored) as [t stored']. simpl in Hm. subst stored'.
  exact (Hk t stored user Hget).
Qed.

Lemma quiet_get_user_db (user_id : string) : quiet user_id (_get_user_db user_id).
Proof.
  intros stored user Hget. rewrite get_user_db_spec. simpl.
  exact (entered_known stored user_id user Hget).
Qed.

Lemma quiet_category_spent (user_id category : string) :
  quiet user_id (_get_category_spent user_id category).
Proof.
  apply quiet_bind; [apply quiet_get_user_db | intro; apply quiet_ret].
Qed.

Lemma quiet_total_spent (user_id : string) :
  quiet user_id (_get_total_spent user_id).
Proof.
  apply quiet_bind; [apply quiet_get_user_db | intro; apply quiet_ret].
Qed.

Lemma quiet_details_loop (user_id : string) (items : Assistant.dict float) :
  forall category_details,
    quiet user_id (category_details_loop user_id items category_details).
Proof.
  induction items as [| [category budget] rest IH]; intro details; simpl.
  - apply quiet_ret.
  - apply quiet_bind; [apply quiet_category_spent | intro; apply IH].
Qed.

(** A tool that looks the user up and is quiet from there on changes
    [MOCK_DB] as the look-up does. *)
Lemma looked_up {T : Type} (user_id : string) (k : user_db -> St T) (stored : db) :
  (forall user, quiet user_id (k user)) ->
  snd (mbind (_get_user_db user_id) k stored) = snd (_get_user_db user_id stored).
Proof.
  intro Hk. unfold mbind. rewrite get_user_db_spec. simpl.
  exact (Hk _ _ _ (dict_get_entered stored user_id)).
Qed.

Lemma check_budget_frame (user_id category : string) (stored : db) :
  snd (check_budget user_id category stored) = snd (_get_user_db user_id stored).
Proof.
  apply looked_up. intro user.
  destruct (Assistant.dict_get (budgets user) category);
    [| apply quiet_ret].
  apply quiet_bind; [apply quiet_category_spent | intro; apply quiet_ret].
Qed.

Lemma get_balance_frame (user_id : string) (stored : db) :
  snd (get_balance user_id stored) = snd (_get_user_db user_id stored).
Proof.
  apply looked_up. intro user.
  apply quiet_bind; [apply quiet_total_spent | intro total_spent].
  apply quiet_bind; [apply quiet_details_loop | intro; apply quiet_ret].
Qed.

Lemma get_spending_insights_frame (user_id : string) (category : option string)
      (stored : db) :
  snd (get_spending_insights user_id category stored)
  = snd (_get_user_db user_id stored).
Proof.
  apply looked_up. intro user. cbv zeta.
  destruct category as [[| c rest] |].
  - destruct (expenses user); [apply quiet_ret |].
    apply quiet_bind; [apply quiet_total_spent | intro].
    destruct (flt _ _); apply quiet_ret.
  - destruct (Assistant.dict_get (budgets user) (String c rest));
      [| apply quiet_ret].
    apply quiet_bind; [apply quiet_category_spent | intro; apply quiet_ret].
  - destruct (expenses user); [apply quiet_ret |].
    apply quiet_bind; [apply quiet_total_spent | intro].
    destruct (flt _ _); apply quiet_ret.
Qed.

End FinanceFrame.

Section FinanceWrites.

Import Finance.

Context {S : PyStr} {F : PyFloat} {A : PyArith}.

(** A record with one more expense at the end. *)
Definition with_expense (user : user_db) (today : string) (amount : float)
           (category description : string) : user_db :=
  {| expenses :=
       (expenses user
        ++ [ {| e_id := length (expenses user) + 1;
                e_amount := amount;
                e_category := category;
                e_description := description;
                e_date := today |} ])%list;
     budgets := budgets user;
     monthly_goals := monthly_goals user |}.

Lemma add_expense_refused (today user_id : string) (amount : float)
      (category description : string) (stored : db) :
  fle amount zero = true \/ str_in category valid_categories = false ->
  add_expense today user_id amount category description stored
  = (if fle amount zero
     then "❌ Error: Amount must be positive. Got: " ++ str_float amount
     else "❌ Error: Invalid category '" ++ category ++ "'. Valid: "
          ++ String.concat ", " valid_categories,
     snd (_get_user_db user_id stored)).
Proof.
  intro H. unfold add_expense, mbind. rewrite get_user_db_spec. cbn [snd].
  destruct (fle amount zero); [reflexivity |].
  destruct H as [H | ->]; [discriminate | reflexivity].
Qed.

Lemma add_expense_stores (today user_id : string) (amount : float)
      (category description : string) (stored : db) :
  fle amount zero = false ->
  str_in category valid_categories = true ->
  snd (add_expense today user_id amount category description stored)
  = Assistant.dict_set
      (snd (_get_user_db user_id stored)) user_id
      (with_expense (record_of stored user_id) today amount category description).
Proof.
  intros Hpos Hcat. unfold add_expense, mbind. rewrite get_user_db_spec.
  rewrite Hpos, Hcat. cbn [negb snd]. fold (with_expense (record_of stored user_id)
                                             today amount category description).
  rewrite get_category_spent_spec. unfold ret. cbn [snd].
  eapply entered_known. now rewrite dict_get_set, String.eqb_refl.
Qed.

Lemma spent_in_with_expense (user : user_db) (today : string) (amount : float)
      (category description other : string) :
  spent_in (with_expense user today amount category description) other
  = fsum (if String.eqb category other
          then (amounts_in user other ++ [amount])%list
          else amounts_in user other).
Proof.
  unfold spent_in, amounts_in, with_expense. cbn [expenses].
  rewrite filter_app, map_app. cbn [filter e_category].
  destruct (String.eqb category other); cbn [map e_amount];
    [reflexivity | now rewrite app_nil_r].
Qed.

End FinanceWrites.

Section FinanceCalls.

Import Finance.

Context {S : PyStr} {F : PyFloat} {A : PyArith}.

(** A call of one of the four tools. *)
Inductive call : Type :=
| AddExpense (today user_id : string) (amount : float)
             (category description : string)
| CheckBudget (user_id category : string)
| GetBalance (user_id : string)
| GetSpendingInsights (user_id : string) (category : option string).

Definition perform (c : call) : St string :=
  match c with
  | AddExpense today user_id amount category description =>
      add_expense today user_id amount category description
  | CheckBudget user_id category => check_budget user_id category
  | GetBalance user_id => get_balance user_id
  | GetSpendingInsights user_id category =>
      get_spending_insights user_id category
  end.

(** [MOCK_DB] after a series of calls. *)
Fixpoint perform_all (calls : list call) (stored : db) : db :=
  match calls with
  | [] => stored
  | c :: rest => perform_all rest (snd (perform c stored))
  end.

(** What holds of every record, stored or not yet. *)
Record sound (user : user_db) : Prop := {
  ids_in_order : map e_id (expenses user) = seq 1 (length (expenses user));
  budgets_default : budgets user = default_budgets;
  categories_valid :
    Forall (fun exp => str_in (e_category exp) valid_categories = true)
           (expenses user)
}.

Lemma sound_new_user : sound new_user.
Proof. split; [reflexivity | reflexivity | constructor]. Qed.

Lemma sound_MOCK_DB (user_id : string) : sound (record_of MOCK_DB user_id).
Proof.
  unfold record_of, MOCK_DB. cbn [Assistant.dict_get].
  destruct (String.eqb "user_123" user_id); [| apply sound_new_user].
  split; [reflexivity | reflexivity | repeat constructor].
Qed.

Lemma sound_with_expense (user : user_db) (today : string) (amount : float)
      (category description : string) :
  str_in category valid_categories = true ->
  sound user -> sound (with_expense user today amount category description).
Proof.
  intros Hcat [Hids Hbudgets Hcats]. split; cbn [with_expense expenses budgets].
  - rewrite map_app, length_app, Hids. cbn [map e_id length].
    replace (length (expenses user) + 1)
      with (Datatypes.S (length (expenses user))) by lia.
    now rewrite seq_S.
  - exact Hbudgets.
  - apply Forall_app. split; [exact Hcats | now repeat constructor].
Qed.

Lemma perform_records (c : call) (stored : db) :
  (forall user_id, sound (record_of stored user_id)) ->
  forall user_id, sound (record_of (snd (perform c stored)) user_id).
Proof.
  intros Hs other.
  assert (Hsame : forall user_id,
             sound (record_of (snd (_get_user_db user_id stored)) other)).
  { intro user_id. rewrite get_user_db_spec. cbn [snd].
    rewrite record_of_entered. apply Hs. }
  destruct c as [today user_id amount category description
                | user_id category | user_id | user_id category];
    cbn [perform].
  - destruct (fle amount zero) eqn:Hpos.
    + rewrite add_expense_refused by now left. apply Hsame.
    + destruct (str_in category valid_categories) eqn:Hcat.
      * rewrite add_expense_stores by assumption.
        rewrite record_of_set.
        destruct (String.eqb user_id other); [| apply Hsame].
        now apply sound_with_expense.
      * rewrite add_expense_refused by now right. apply Hsame.
  - rewrite check_budget_frame. apply Hsame.
  - rewrite get_balance_frame. apply Hsame.
  - rewrite get_spending_insights_frame. apply Hsame.
Qed.

Lemma perform_all_records (calls : list call) :
  forall stored,
    (forall user_id, sound (record_of stored user_id)) ->
    forall user_id, sound (record_of (perform_all calls stored) user_id).
Proof.
  induction calls as [| c rest IH]; intros stored Hs; [exact Hs |].
  cbn [perform_all]. apply IH. now apply perform_records.
Qed.

Lemma dict_get_entered_other (stored : db) (user_id other : string) :
  other <> user_id ->
  Assistant.dict_get (entered stored user_id) other
  = Assistant.dict_get stored other.
Proof.
  intro Hne. unfold entered.
  destruct (Assistant.dict_get stored user_id); [reflexivity |].
  rewrite dict_get_set.
  destruct (String.eqb_spec user_id other) as [<- | _]; [now elim Hne | reflexivity].
Qed.

End FinanceCalls.

Section FinanceTexts.

Import Finance.

Context {S : PyStr} {F : PyFloat} {A : PyArith}.

Lemma add_expense_text (today user_id : string) (amount : float)
      (category description : string) (stored : db) :
  fle amount zero = false ->
  str_in category valid_categories = true ->
  let user := record_of stored user_id in
  let category_budget :=
    match Assistant.dict_get (budgets user) category with
    | Some budget => budget
    | None => zero
    end in
  fst (add_expense today user_id amount category description stored)
  = "✅ Expense recorded: $" ++ format_f 2 amount ++ " for '" ++ description
    ++ "' (" ++ category ++ ")" ++ nl
    ++ "   Budget remaining for " ++ category ++ ": $"
    ++ format_f 2 (fsub category_budget
                        (fsum (amounts_in user category ++ [amount])))
    ++ "/" ++ format_f 2 category_budget.
Proof.
  intros Hpos Hcat user category_budget.
  unfold add_expense, mbind. rewrite get_user_db_spec.
  rewrite Hpos, Hcat. cbn [negb].
  fold (with_expense (record_of stored user_id) today amount category description).
  rewrite get_category_spent_spec. unfold ret. cbn [fst].
  unfold record_of at 2. rewrite dict_get_set, String.eqb_refl.
  now rewrite spent_in_with_expense, String.eqb_refl.
Qed.

Lemma check_budget_unknown (user_id category : string) (stored : db) :
  Assistant.dict_get (budgets (record_of stored user_id)) category = None ->
  fst (check_budget user_id category stored)
  = "❌ Category '" ++ category ++ "' not found. Available: "
    ++ repr_keys (budgets (record_of stored user_id)).
Proof.
  intro Hnone. unfold check_budget, mbind. rewrite get_user_db_spec.
  now rewrite Hnone.
Qed.

End FinanceTexts.

(** X20: [add_expense] with a positive amount and one of its five
    categories.  The user's record, the default one if the user was
    unknown, gets exactly one more expense at the end, numbered one past
    the number of expenses on file, with the amount, category, description
    and date given; budgets and goals stay; no other user's entry changes;
    and what [_get_category_spent] reports, before the call the sum of the
    amounts on file in a category, is afterwards the sum of those amounts
    followed by the new one for the category given, and the same sum as
    before for the others. *)
Theorem add_expense_records :
  forall (F : PyFloat) (A : Finance.PyArith)
         (today user_id : string) (amount : float)
         (category description : string) (stored : Finance.db),
    Finance.fle amount Finance.zero = false ->
    str_in category Finance.valid_categories = true ->
    let before := fst (Finance._get_user_db user_id stored) in
    let after :=
      snd (Finance.add_expense today user_id amount category description stored) in
    Assistant.dict_get after user_id
    = Some {| Finance.expenses :=
                (Finance.expenses before
                 ++ [ {| Finance.e_id := length (Finance.expenses before) + 1;
                         Finance.e_amount := amount;
                         Finance.e_category := category;
                         Finance.e_description := description;
                         Finance.e_date := today |} ])%list;
              Finance.budgets := Finance.budgets before;
              Finance.monthly_goals := Finance.monthly_goals before |}
    /\ (forall other,
          other <> user_id ->
          Assistant.dict_get after other = Assistant.dict_get stored other)
    /\ (forall c,
          let on_file :=
            map Finance.e_amount
                (filter (fun exp => String.eqb (Finance.e_category exp) c)
                        (Finance.expenses before)) in
          fst (Finance._get_category_spent user_id c stored)
          = Finance.fsum on_file
          /\ fst (Finance._get_category_spent user_id c after)
             = Finance.fsum (if String.eqb category c
                             then (on_file ++ [amount])%list
                             else on_file)).
Proof.
  intros F A today user_id amount category description stored Hpos Hcat
         before after.
  unfold after. rewrite (add_expense_stores _ _ _ _ _ _ Hpos Hcat).
  unfold before. rewrite get_user_db_spec. cbn [fst snd].
  split; [| split].
  - now rewrite dict_get_set, String.eqb_refl.
  - intros other Hne. rewrite dict_get_set.
    destruct (String.eqb_spec user_id other) as [<- | _]; [now elim Hne |].
    now apply dict_get_entered_other.
  - intro c. cbv zeta. rewrite !get_category_spent_spec. cbn [fst].
    split; [reflexivity |].
    rewrite record_of_set, String.eqb_refl. apply spent_in_with_expense.
Qed.

Lemma add_expense_records_witness :
  fst (Finance._get_category_spent
         "user_123" "food"
         (snd (Finance.add_expense (A := exact_arith)
                                   "2025-12-05" "user_123" (flit 25.5) "food"
                                   "Lunch at restaurant" Finance.MOCK_DB)))
  = @Finance.fsum Exact.floats exact_arith [flit 50; flit 25.5].
Proof.
  exact (proj2 (proj2 (proj2 (add_expense_records
                                Exact.floats exact_arith
                                "2025-12-05" "user_123" (flit 25.5) "food"
                                "Lunch at restaurant" Finance.MOCK_DB
                                eq_refl eq_refl)) "food")).
Defined.

(** X21: [add_expense] with an amount that is not above zero, or with a
    category outside its five.  The answer is the error text for the amount
    or, the amount being fine, for the category; nothing is recorded, for
    this user or any other.  The user is looked up first, so an unknown user
    is on file afterwards, with no expense. *)
Theorem add_expense_rejects :
  forall (F : PyFloat) (A : Finance.PyArith)
         (today user_id : string) (amount : float)
         (category description : string) (stored : Finance.db),
    Finance.fle amount Finance.zero = true
    \/ str_in category Finance.valid_categories = false ->
    Finance.add_expense today user_id amount category description stored
    = (if Finance.fle amount Finance.zero
       then "❌ Error: Amount must be positive. Got: " ++ Finance.str_float amount
       else "❌ Error: Invalid category '" ++ category ++ "'. Valid: "
            ++ "food, transport, entertainment, utilities, other",
       snd (Finance._get_user_db user_id stored))
    /\ forall other,
         fst (Finance._get_user_db
                other
                (snd (Finance.add_expense today user_id amount category
                                          description stored)))
         = fst (Finance._get_user_db other stored).
Proof.
  intros F A today user_id amount category description stored H.
  rewrite (add_expense_refused _ _ _ _ _ _ H). split; [reflexivity |].
  intro other. cbn [snd]. rewrite !get_user_db_spec. cbn [fst snd].
  apply record_of_entered.
Qed.

Lemma add_expense_rejects_witness :
  Finance.add_expense (A := exact_arith)
                      "2025-12-05" "user_123" (flit 40) "savings" "Piggy bank"
                      Finance.MOCK_DB
  = ("❌ Error: Invalid category 'savings'. Valid: "
     ++ "food, transport, entertainment, utilities, other",
     Finance.MOCK_DB).
Proof.
  exact (proj1 (add_expense_rejects
                  Exact.floats exact_arith
                  "2025-12-05" "user_123" (flit 40) "savings" "Piggy bank"
                  Finance.MOCK_DB (or_intror eq_refl))).
Defined.

(** X22: the three tools that report never change what is on file.
    [check_budget], [get_balance] and [get_spending_insights] leave
    [MOCK_DB] as the look-up of the user leaves it: a known user's entry and
    everybody else's are untouched, and an unknown user is entered with no
    expenses and the default budgets, which is what any later look-up would
    have found. *)
Theorem reports_change_nothing :
  forall (S : PyStr) (F : PyFloat) (A : Finance.PyArith)
         (user_id category : string) (only : option string) (stored : Finance.db),
    let looked_up := snd (Finance._get_user_db user_id stored) in
    snd (Finance.check_budget user_id category stored) = looked_up
    /\ snd (Finance.get_balance user_id stored) = looked_up
    /\ snd (Finance.get_spending_insights user_id only stored) = looked_up
    /\ (Assistant.dict_get stored user_id <> None -> looked_up = stored)
    /\ (forall other,
          fst (Finance._get_user_db other looked_up)
          = fst (Finance._get_user_db other stored)).
Proof.
  intros S F A user_id category only stored looked_up. unfold looked_up.
  rewrite check_budget_frame, get_balance_frame, get_spending_insights_frame.
  repeat split.
  - rewrite get_user_db_spec. cbn [snd].
    destruct (Assistant.dict_get stored user_id) as [user |] eqn:H;
      [intros _ | intro Hn; now elim Hn].
    exact (entered_known stored user_id user H).
  - intro other. rewrite !get_user_db_spec. cbn [fst snd].
    apply record_of_entered.
Qed.

(** X23: an invariant of the tools.  After any series of calls of the four
    finance tools, starting from the [MOCK_DB] of the module, every user's
    record, stored or yet to be created, has its expenses numbered 1, 2, 3
    and so on in the order they were added, so no two share an id; has the
    four default budgets and no other; and holds only expenses in the five
    categories [add_expense] accepts. *)
Theorem records_stay_sound :
  forall (S : PyStr) (F : PyFloat) (A : Finance.PyArith)
         (calls : list call) (user_id : string),
    let user :=
      fst (Finance._get_user_db user_id (perform_all calls Finance.MOCK_DB)) in
    map Finance.e_id (Finance.expenses user)
    = seq 1 (length (Finance.expenses user))
    /\ Finance.budgets user = Finance.default_budgets
    /\ Forall (fun exp =>
                 str_in (Finance.e_category exp) Finance.valid_categories = true)
              (Finance.expenses user).
Proof.
  intros S F A calls user_id user. unfold user.
  rewrite get_user_db_spec. cbn [fst].
  destruct (perform_all_records calls Finance.MOCK_DB sound_MOCK_DB user_id)
    as [Hids Hbudgets Hcats].
  now repeat split.
Qed.

(** X24: two categories can be spent in but never checked.  After any
    series of calls, [add_expense] records a positive amount under
    "utilities" or "other" and reports a budget of 0.00 for it, with what
    remains computed as zero less the sum of the amounts on file there
    followed by the new one; and
    [check_budget] for that category then answers that the category is not
    found, listing the four default budgets. *)
Theorem unbudgeted_categories :
  forall (S : PyStr) (F : PyFloat) (A : Finance.PyArith)
         (calls : list call) (today user_id : string) (amount : float)
         (category description : string),
    category = "utilities" \/ category = "other" ->
    Finance.fle amount Finance.zero = false ->
    let stored := perform_all calls Finance.MOCK_DB in
    let on_file :=
      map Finance.e_amount
          (filter (fun exp => String.eqb (Finance.e_category exp) category)
                  (Finance.expenses (fst (Finance._get_user_db user_id stored)))) in
    let answer :=
      Finance.add_expense today user_id amount category description stored in
    fst answer
    = "✅ Expense recorded: $" ++ Finance.format_f 2 amount
      ++ " for '" ++ description ++ "' (" ++ category ++ ")" ++ nl
      ++ "   Budget remaining for " ++ category ++ ": $"
      ++ Finance.format_f 2
           (Finance.fsub Finance.zero (Finance.fsum (on_file ++ [amount])))
      ++ "/" ++ Finance.format_f 2 Finance.zero
    /\ fst (Finance.check_budget user_id category (snd answer))
       = "❌ Category '" ++ category ++ "' not found. Available: "
         ++ Finance.repr_keys Finance.default_budgets.
Proof.
  intros S F A calls today user_id amount category description Hcat Hpos
         stored on_file answer.
  assert (Hvalid : str_in category Finance.valid_categories = true)
    by (destruct Hcat as [-> | ->]; reflexivity).
  assert (Hnone : Assistant.dict_get Finance.default_budgets category = None)
    by (destruct Hcat as [-> | ->]; reflexivity).
  destruct (perform_all_records calls Finance.MOCK_DB sound_MOCK_DB user_id)
    as [_ Hbudgets _]. fold stored in Hbudgets.
  split.
  - unfold answer. rewrite (add_expense_text _ _ _ _ _ _ Hpos Hvalid).
    cbv zeta. rewrite Hbudgets, Hnone.
    unfold on_file. now rewrite get_user_db_spec.
  - unfold answer. rewrite (add_expense_stores _ _ _ _ _ _ Hpos Hvalid).
    assert (Hrec : Finance.budgets
                     (record_of
                        (Assistant.dict_set
                           (snd (Finance._get_user_db user_id stored)) user_id
                           (with_expense (record_of stored user_id) today amount
                                         category description)) user_id)
                   = Finance.default_budgets)
      by (rewrite record_of_set, String.eqb_refl; exact Hbudgets).
    rewrite check_budget_unknown; rewrite Hrec; [reflexivity | exact Hnone].
Qed.

Lemma unbudgeted_categories_witness :
  fst (Finance.check_budget
         (S := Latin1.str_methods) (A := exact_arith) "user_123" "utilities"
         (snd (Finance.add_expense
                 (A := exact_arith)
                 "2025-12-05" "user_123" (flit 80) "utilities" "Electricity"
                 (perform_all (S := Latin1.str_methods) (A := exact_arith)
                              [GetBalance "user_123"] Finance.MOCK_DB))))
  = "❌ Category 'utilities' not found. Available: "
    ++ Finance.repr_keys (A := exact_arith)
                         (Finance.default_budgets (F := Exact.floats)).
Proof.
  exact (proj2 (unbudgeted_categories
                  Latin1.str_methods Exact.floats exact_arith
                  [GetBalance "user_123"] "2025-12-05" "user_123" (flit 80)
                  "utilities" "Electricity" (or_introl eq_refl) eq_refl)).
Defined.

(* ===================================================================== *)
(** * The habit tools                                                    *)
(* ===================================================================== *)

Section HealthFacts.

Import Health.

Lemma dict_set_same {V : Type} (d : Assistant.dict V) (k : string) (v : V) :
  Assistant.dict_get d k = Some v -> Assistant.dict_set d k v = d.
Proof.
  induction d as [| [k0 v0] rest IH]; simpl; [discriminate |].
  destruct (String.eqb_spec k0 k) as [-> | _].
  - now intros [= ->].
  - intro H. now rewrite IH.
Qed.

(** What is on file for a user: the stored record, or the empty one an
    unknown user is entered with. *)
Definition habits_of (stored : db) (user_id : string) : user_db :=
  match Assistant.dict_get stored user_id with
  | Some user => user
  | None => {| habits := []; milestones := [] |}
  end.

Definition met (stored : db) (user_id : string) : db :=
  match Assistant.dict_get stored user_id with
  | Some _ => stored
  | None =>
      Assistant.dict_set stored user_id {| habits := []; milestones := [] |}
  end.

Lemma health_user_db_spec (user_id : string) (stored : db) :
  _get_user_db user_id stored = (Ok (habits_of stored user_id), met stored user_id).
Proof.
  unfold _get_user_db, habits_of, met.
  now destruct (Assistant.dict_get stored user_id).
Qed.

Lemma dict_get_met (stored : db) (user_id : string) :
  Assistant.dict_get (met stored user_id) user_id = Some (habits_of stored user_id).
Proof.
  unfold met, habits_of.
  destruct (Assistant.dict_get stored user_id) eqn:H; [exact H |].
  now rewrite dict_get_set, String.eqb_refl.
Qed.

Lemma habits_of_met (stored : db) (user_id other : string) :
  habits_of (met stored user_id) other = habits_of stored other.
Proof.
  unfold met.
  destruct (Assistant.dict_get stored user_id) eqn:H; [reflexivity |].
  unfold habits_of. rewrite dict_get_set.
  destruct (String.eqb_spec user_id other) as [<- | _]; [| reflexivity].
  now rewrite H.
Qed.

Lemma met_known (stored : db) (user_id : string) (user : user_db) :
  Assistant.dict_get stored user_id = Some user -> met stored user_id = stored.
Proof. unfold met. now intros ->. Qed.

Lemma habits_of_set (stored : db) (user_id other : string) (user : user_db) :
  habits_of (Assistant.dict_set stored user_id user) other
  = if String.eqb user_id other then user else habits_of stored other.
Proof.
  unfold habits_of. rewrite dict_get_set. now destruct (String.eqb user_id other).
Qed.

Lemma str_in_In (x : string) (xs : list string) :
  str_in x xs = true <-> In x xs.
Proof.
  unfold str_in. rewrite existsb_exists. split.
  - intros [y [Hin Heq]]. apply String.eqb_eq in Heq. now subst.
  - intro Hin. exists x. split; [exact Hin | apply String.eqb_refl].
Qed.

End HealthFacts.

Section HabitLog.

Import Health.

Context {S : PyStr}.

Definition fresh_habit : habit :=
  {| target := 3; unit := "times_per_week"; check_ins := [] |}.

(** The habits of a user once the habit has been created if need be. *)
Definition habits_with (user : user_db) (habit_name : string)
  : Assistant.dict habit :=
  match Assistant.dict_get (habits user) habit_name with
  | Some _ => habits user
  | None => Assistant.dict_set (habits user) habit_name fresh_habit
  end.

Definition habit_at (user : user_db) (habit_name : string) : habit :=
  match Assistant.dict_get (habits user) habit_name with
  | Some h => h
  | None => fresh_habit
  end.

Lemma habits_with_get (user : user_db) (habit_name : string) :
  Assistant.dict_get (habits_with user habit_name) habit_name
  = Some (habit_at user habit_name).
Proof.
  unfold habits_with, habit_at.
  destruct (Assistant.dict_get (habits user) habit_name) eqn:H; [exact H |].
  now rewrite dict_get_set, String.eqb_refl.
Qed.

Definition new_check_in (today additional_info : string) : check_in :=
  if String.eqb additional_info "" then Day today
  else Entry (Some today) [("info", additional_info)].

Lemma new_check_in_date (today additional_info : string) :
  check_in_date (new_check_in today additional_info) = today.
Proof. unfold new_check_in. now destruct (String.eqb additional_info ""). Qed.

Definition logged (h : habit) (today additional_info : string) : habit :=
  {| target := target h; unit := unit h;
     check_ins := (check_ins h ++ [new_check_in today additional_info])%list |}.

Definition already_text (habit_name : string) : string :=
  "⚠️ You've already logged " ++ habit_name ++ " today! One entry per day.".

Lemma dict_set_set {V : Type} (d : Assistant.dict V) (k : string) (v v' : V) :
  Assistant.dict_set (Assistant.dict_set d k v) k v' = Assistant.dict_set d k v'.
Proof.
  induction d as [| [k0 v0] rest IH]; simpl.
  - now rewrite String.eqb_refl.
  - destruct (String.eqb k0 k) eqn:Hk; simpl; rewrite Hk; [reflexivity |].
    now rewrite IH.
Qed.

(** [log_habit] when today is among the dates of the habit. *)
Lemma log_habit_already (now : Clock) (user_id habit_name additional_info : string)
      (stored : db) :
  let user := habits_of stored user_id in
  str_in habit_name valid_habits = true ->
  str_in (today now)
         (map check_in_date (check_ins (habit_at user habit_name))) = true ->
  log_habit now user_id habit_name additional_info stored
  = (already_text habit_name,
     Assistant.dict_set (met stored user_id) user_id
                        {| habits := habits_with user habit_name;
                           milestones := milestones user |}).
Proof.
  intros user Hvalid Hin.
  unfold log_habit, catching, log_habit_try, mbind.
  rewrite health_user_db_spec. fold user. rewrite Hvalid. cbn [negb]. cbv zeta.
  change (match Assistant.dict_get (habits user) habit_name with
          | Some _ => habits user
          | None =>
              Assistant.dict_set (habits user) habit_name
                {| target := 3; unit := "times_per_week"; check_ins := [] |}
          end) with (habits_with user habit_name).
  unfold store.
  rewrite habits_with_get, Hin. reflexivity.
Qed.

(** [log_habit] when today is not yet among them: the check-in is stored,
    whatever happens afterwards. *)
Lemma log_habit_stores (now : Clock) (user_id habit_name additional_info : string)
      (stored : db) :
  let user := habits_of stored user_id in
  str_in habit_name valid_habits = true ->
  str_in (today now)
         (map check_in_date (check_ins (habit_at user habit_name))) = false ->
  exists user_milestones,
    snd (log_habit now user_id habit_name additional_info stored)
    = Assistant.dict_set
        (met stored user_id) user_id
        {| habits :=
             Assistant.dict_set (habits_with user habit_name) habit_name
                                (logged (habit_at user habit_name) (today now)
                                        additional_info);
           milestones := user_milestones |}.
Proof.
  intros user Hvalid Hin.
  unfold log_habit, catching, log_habit_try, mbind.
  rewrite health_user_db_spec. fold user. rewrite Hvalid. cbn [negb]. cbv zeta.
  change (match Assistant.dict_get (habits user) habit_name with
          | Some _ => habits user
          | None =>
              Assistant.dict_set (habits user) habit_name
                {| target := 3; unit := "times_per_week"; check_ins := [] |}
          end) with (habits_with user habit_name).
  unfold store.
  rewrite habits_with_get, Hin.
  fold (new_check_in (today now) additional_info).
  fold (logged (habit_at user habit_name) (today now) additional_info).
  rewrite dict_set_set. unfold lift.
  destruct (_count_week_check_ins now _) as [week_count | e];
    [| eexists; reflexivity].
  destruct (Assistant.dict_get
              match Assistant.dict_get (milestones user) habit_name with
              | Some _ => milestones user
              | None => _
              end habit_name);
    [| eexists; reflexivity].
  rewrite dict_set_set. unfold ret. eexists. reflexivity.
Qed.

End HabitLog.

Section HabitOncePerDay.

Import Health.

Context {S : PyStr}.

Lemma log_habit_again (now : Clock) (user_id habit_name additional_info : string)
      (stored : db) (user : user_db) (h : habit) :
  Assistant.dict_get stored user_id = Some user ->
  Assistant.dict_get (habits user) habit_name = Some h ->
  str_in (today now) (map check_in_date (check_ins h)) = true ->
  str_in habit_name valid_habits = true ->
  log_habit now user_id habit_name additional_info stored
  = (already_text habit_name, stored).
Proof.
  intros Huser Hhabit Hin Hvalid.
  assert (Hof : habits_of stored user_id = user)
    by (unfold habits_of; now rewrite Huser).
  pose proof (log_habit_already now user_id habit_name additional_info stored)
    as H.
  cbv zeta in H. rewrite Hof in H. rewrite H; [| exact Hvalid |].
  - f_equal. unfold habits_with. rewrite Hhabit.
    rewrite (met_known stored user_id user Huser).
    apply dict_set_same. rewrite Huser. now destruct user.
  - unfold habit_at. now rewrite Hhabit.
Qed.

End HabitOncePerDay.

(** X25: one entry per day.  Once [log_habit] has been called for a habit
    it accepts, whatever came of that call, a second call for the same user
    and habit on the same day answers that the habit has already been
    logged today and leaves [MOCK_DB] as it is, whatever details are given. *)
Theorem log_habit_once_a_day :
  forall (S : PyStr) (now : Health.Clock)
         (user_id habit_name first_info second_info : string)
         (stored : Health.db),
    str_in habit_name Health.valid_habits = true ->
    let after_first :=
      snd (Health.log_habit now user_id habit_name first_info stored) in
    Health.log_habit now user_id habit_name second_info after_first
    = ("⚠️ You've already logged " ++ habit_name
       ++ " today! One entry per day.",
       after_first).
Proof.
  intros S now user_id habit_name first_info second_info stored Hvalid after_first.
  set (user := habits_of stored user_id).
  destruct (str_in (Health.today now)
                   (map Health.check_in_date
                        (Health.check_ins (habit_at user habit_name)))) eqn:Hin.
  - unfold after_first.
    rewrite (log_habit_already now user_id habit_name first_info stored Hvalid Hin).
    cbn [snd]. fold user.
    eapply log_habit_again; [| | exact Hin | exact Hvalid].
    + now rewrite dict_get_set, String.eqb_refl.
    + cbn [Health.habits]. apply habits_with_get.
  - unfold after_first.
    destruct (log_habit_stores now user_id habit_name first_info stored Hvalid Hin)
      as [ms ->]. fold user.
    eapply log_habit_again; [| | | exact Hvalid].
    + now rewrite dict_get_set, String.eqb_refl.
    + cbn [Health.habits]. now rewrite dict_get_set, String.eqb_refl.
    + cbn [logged Health.check_ins]. apply str_in_In.
      rewrite map_app. apply in_or_app. right. left.
      apply new_check_in_date.
Qed.

Lemma log_habit_once_a_day_witness :
  let after_first :=
    snd (Health.log_habit (S := Latin1.str_methods) january_2026
                          "user_123" "gym" "45 minutes strength training"
                          Health.MOCK_DB) in
  Health.log_habit (S := Latin1.str_methods) january_2026
                   "user_123" "gym" "" after_first
  = ("⚠️ You've already logged " ++ "gym" ++ " today! One entry per day.",
     after_first).
Proof.
  exact (log_habit_once_a_day Latin1.str_methods january_2026
           "user_123" "gym" "45 minutes strength training" ""
           Health.MOCK_DB eq_refl).
Defined.

Section HabitSummary.

Import Health.

Context {S : PyStr} {F : PyFloat} {A : Finance.PyArith}.

(** No check-in of the habit falls in the running week. *)
Definition idle (now : Clock) (h : habit) : Prop :=
  Forall (fun c => this_week now (check_in_date c) = Ok false) (check_ins h).

Lemma count_from_idle (now : Clock) (cs : list check_in) :
  Forall (fun c => this_week now (check_in_date c) = Ok false) cs ->
  forall count, count_from now cs count = Ok count.
Proof.
  induction 1 as [| c cs Hc _ IH]; intro count; [reflexivity |].
  cbn [count_from]. rewrite Hc. cbn [bind]. apply IH.
Qed.

Lemma total_completed_idle (now : Clock) (items : Assistant.dict habit) :
  Forall (fun entry => idle now (snd entry)) items ->
  forall total, total_completed_of now items total = Ok total.
Proof.
  induction 1 as [| [name h] items Hh _ IH]; intro total; [reflexivity |].
  cbn [total_completed_of]. unfold _count_week_check_ins.
  rewrite (count_from_idle now _ Hh). cbn [bind].
  rewrite Z.add_0_r. apply IH.
Qed.

Lemma best_loop_idle (now : Clock) (items : Assistant.dict habit) :
  Forall (fun entry => idle now (snd entry)) items ->
  forall best_habit, best_loop now items best_habit 0 = Ok (best_habit, 0%Z).
Proof.
  induction 1 as [| [name h] items Hh _ IH]; intro best_habit; [reflexivity |].
  cbn [best_loop]. unfold _count_week_check_ins.
  rewrite (count_from_idle now _ Hh). cbn [bind Z.ltb Z.compare]. apply IH.
Qed.

End HabitSummary.

(** X26: the dashboard fails in a week without check-ins.  For a user who
    has habits on file, none of them with a check-in on or after this
    week's Monday, [get_health_summary] gives no dashboard: no habit is
    best, the look-up of the best habit fails, and the answer is the error
    text ending in "None".  [MOCK_DB] is as before. *)
Theorem get_health_summary_idle_week :
  forall (F : PyFloat) (A : Finance.PyArith) (now : Health.Clock)
         (user_id : string) (stored : Health.db) (user : Health.user_db),
    Assistant.dict_get stored user_id = Some user ->
    Health.habits user <> [] ->
    Forall (fun entry =>
              Forall (fun c =>
                        Health.this_week now (Health.check_in_date c) = Ok false)
                     (Health.check_ins (snd entry)))
           (Health.habits user) ->
    Health.get_health_summary now user_id stored
    = ("❌ Error generating health summary: None", stored).
Proof.
  intros F A now user_id stored user Huser Hhabits Hidle.
  unfold Health.get_health_summary, Health.catching,
    Health.get_health_summary_try, Health.mbind.
  rewrite health_user_db_spec.
  replace (habits_of stored user_id) with user
    by (unfold habits_of; now rewrite Huser).
  rewrite (met_known stored user_id user Huser).
  destruct (Health.habits user) as [| entry rest] eqn:Hh; [now elim Hhabits |].
  cbv zeta. unfold Health.lift.
  rewrite (total_completed_idle now _ Hidle).
  rewrite (best_loop_idle now _ Hidle).
  repeat match goal with
         | |- context [if Finance.fle ?a ?b then _ else _] =>
             destruct (Finance.fle a b)
         end;
    reflexivity.
Qed.

Lemma get_health_summary_idle_week_witness :
  Health.get_health_summary (A := exact_arith)
                            january_2026 "user_123" Health.MOCK_DB
  = ("❌ Error generating health summary: None", Health.MOCK_DB).
Proof.
  eapply (get_health_summary_idle_week
            Exact.floats exact_arith january_2026
            "user_123" Health.MOCK_DB).
  - reflexivity.
  - discriminate.
  - repeat constructor.
Defined.

Section HabitStreaks.

Import Health.

Context {S : PyStr}.

Definition first_milestone : milestone :=
  {| streak_current := Some 1%Z; streak_best := Some 1%Z; other_counts := [] |}.

Definition milestones_with (user : user_db) (habit_name : string)
  : Assistant.dict milestone :=
  match Assistant.dict_get (milestones user) habit_name with
  | Some _ => milestones user
  | None => Assistant.dict_set (milestones user) habit_name first_milestone
  end.

Definition milestone_at (user : user_db) (habit_name : string) : milestone :=
  match Assistant.dict_get (milestones user) habit_name with
  | Some m => m
  | None => first_milestone
  end.

Lemma milestones_with_get (user : user_db) (habit_name : string) :
  Assistant.dict_get (milestones_with user habit_name) habit_name
  = Some (milestone_at user habit_name).
Proof.
  unfold milestones_with, milestone_at.
  destruct (Assistant.dict_get (milestones user) habit_name) eqn:H; [exact H |].
  now rewrite dict_get_set, String.eqb_refl.
Qed.

Definition counted (m : milestone) (week_count : Z) : milestone :=
  {| streak_current := Some week_count;
     streak_best := Some (Z.max (streak_or (streak_best m) 0) week_count);
     other_counts := other_counts m |}.

Definition logged_text (habit_name additional_info : string)
           (habit_target week_count : Z) : string :=
  "✅ " ++ upper habit_name ++ " logged!" ++ nl
  ++ (if (habit_target <=? week_count)%Z then "🔥" else "💪") ++ " "
  ++ (if (habit_target <=? week_count)%Z
      then "🎉 TARGET REACHED! " ++ str_of_Z week_count ++ "/"
           ++ str_of_Z habit_target ++ " this week!"
      else str_of_Z week_count ++ "/" ++ str_of_Z habit_target
           ++ " completed this week") ++ nl
  ++ "📊 Details: "
  ++ (if String.eqb additional_info "" then "Completed" else additional_info).

Lemma log_habit_success (now : Clock) (user_id habit_name additional_info : string)
      (stored : db) (week_count : Z) :
  let user := habits_of stored user_id in
  let h := logged (habit_at user habit_name) (today now) additional_info in
  str_in habit_name valid_habits = true ->
  str_in (today now)
         (map check_in_date (check_ins (habit_at user habit_name))) = false ->
  _count_week_check_ins now (check_ins h) = Ok week_count ->
  log_habit now user_id habit_name additional_info stored
  = (logged_text habit_name additional_info (target h) week_count,
     Assistant.dict_set
       (met stored user_id) user_id
       {| habits := Assistant.dict_set (habits_with user habit_name) habit_name h;
          milestones :=
            Assistant.dict_set (milestones_with user habit_name) habit_name
                               (counted (milestone_at user habit_name)
                                        week_count) |}).
Proof.
  intros user h Hvalid Hin Hcount.
  unfold log_habit, catching, log_habit_try, mbind.
  rewrite health_user_db_spec. fold user. rewrite Hvalid. cbn [negb]. cbv zeta.
  change (match Assistant.dict_get (habits user) habit_name with
          | Some _ => habits user
          | None =>
              Assistant.dict_set (habits user) habit_name
                {| target := 3; unit := "times_per_week"; check_ins := [] |}
          end) with (habits_with user habit_name).
  change (match Assistant.dict_get (milestones user) habit_name with
          | Some _ => milestones user
          | None =>
              Assistant.dict_set (milestones user) habit_name
                {| streak_current := Some 1%Z; streak_best := Some 1%Z;
                   other_counts := [] |}
          end) with (milestones_with user habit_name).
  unfold store.
  rewrite habits_with_get, Hin.
  fold (new_check_in (today now) additional_info).
  fold (logged (habit_at user habit_name) (today now) additional_info).
  fold h. rewrite dict_set_set. unfold lift. rewrite Hcount.
  rewrite milestones_with_get, dict_set_set. reflexivity.
Qed.

Lemma count_from_mono (now : Clock) (cs : list check_in) :
  forall count total, count_from now cs count = Ok total -> (count <= total)%Z.
Proof.
  induction cs as [| c cs IH]; intros count total; cbn [count_from].
  - intros [= ->]. lia.
  - destruct (this_week now (check_in_date c)) as [[|] |]; cbn [bind];
      [intro H; apply IH in H; lia | apply IH | discriminate].
Qed.

Lemma count_from_last (now : Clock) (cs : list check_in) (c : check_in) :
  forall count,
    count_from now (cs ++ [c]) count
    = bind (count_from now cs count) (fun total =>
      bind (this_week now (check_in_date c)) (fun in_week =>
      Ok (if in_week then total + 1 else total)%Z)).
Proof.
  induction cs as [| c0 cs IH]; intro count; cbn [app count_from].
  - now destruct (this_week now (check_in_date c)).
  - destruct (this_week now (check_in_date c0)); cbn [bind]; [apply IH | reflexivity].
Qed.

End HabitStreaks.

(** X27: a check-in that is accepted.  For a habit [log_habit] accepts and
    that has no entry dated today, with [earlier] check-ins counted for the
    running week and today falling in that week: the answer reports
    [earlier + 1] against the target; the habit, created with target 3 if it
    was not on file, gets exactly one more check-in, dated today, at the
    end; and its milestone has [streak_current] set to [earlier + 1], which
    is at least 1, and [streak_best] to the greater of that and the best on
    file.  [habits_of], [habit_at] and [milestone_at] read what is on file,
    with the values the tool creates for what is not. *)
Theorem log_habit_counts :
  forall (S : PyStr) (now : Health.Clock)
         (user_id habit_name additional_info : string)
         (stored : Health.db) (earlier : Z),
    let user := habits_of stored user_id in
    let h := habit_at user habit_name in
    str_in habit_name Health.valid_habits = true ->
    str_in (Health.today now)
           (map Health.check_in_date (Health.check_ins h)) = false ->
    Health._count_week_check_ins now (Health.check_ins h) = Ok earlier ->
    Health.this_week now (Health.today now) = Ok true ->
    let week_count := (earlier + 1)%Z in
    let answer :=
      Health.log_habit now user_id habit_name additional_info stored in
    let after := habits_of (snd answer) user_id in
    (1 <= week_count)%Z
    /\ fst answer
       = "✅ " ++ upper habit_name ++ " logged!" ++ nl
         ++ (if (Health.target h <=? week_count)%Z then "🔥" else "💪") ++ " "
         ++ (if (Health.target h <=? week_count)%Z
             then "🎉 TARGET REACHED! " ++ str_of_Z week_count ++ "/"
                  ++ str_of_Z (Health.target h) ++ " this week!"
             else str_of_Z week_count ++ "/" ++ str_of_Z (Health.target h)
                  ++ " completed this week") ++ nl
         ++ "📊 Details: "
         ++ (if String.eqb additional_info "" then "Completed"
             else additional_info)
    /\ (exists c,
          Health.check_in_date c = Health.today now
          /\ Assistant.dict_get (Health.habits after) habit_name
             = Some {| Health.target := Health.target h;
                       Health.unit := Health.unit h;
                       Health.check_ins := (Health.check_ins h ++ [c])%list |})
    /\ (exists m,
          Assistant.dict_get (Health.milestones after) habit_name = Some m
          /\ Health.streak_current m = Some week_count
          /\ Health.streak_best m
             = Some (Z.max (Health.streak_or
                              (Health.streak_best (milestone_at user habit_name)) 0)
                           week_count)).
Proof.
  intros S now user_id habit_name additional_info stored earlier user h
         Hvalid Hin Hearlier Htoday week_count answer after.
  assert (Hcount : Health._count_week_check_ins
                     now (Health.check_ins
                            (logged h (Health.today now) additional_info))
                   = Ok week_count).
  { unfold Health._count_week_check_ins in *. cbn [logged Health.check_ins].
    rewrite count_from_last, Hearlier. cbn [bind].
    now rewrite new_check_in_date, Htoday. }
  pose proof (log_habit_success now user_id habit_name additional_info stored
                                week_count Hvalid Hin Hcount) as Hlog.
  fold user in Hlog. fold h in Hlog. fold answer in Hlog.
  assert (Hafter : after
                   = {| Health.habits :=
                          Assistant.dict_set
                            (habits_with user habit_name) habit_name
                            (logged h (Health.today now) additional_info);
                        Health.milestones :=
                          Assistant.dict_set
                            (milestones_with user habit_name) habit_name
                            (counted (milestone_at user habit_name) week_count) |}).
  { unfold after. rewrite Hlog. cbn [snd].
    now rewrite habits_of_set, String.eqb_refl. }
  split; [| split; [| split]].
  - apply count_from_mono in Hearlier. unfold week_count. lia.
  - rewrite Hlog. reflexivity.
  - exists (new_check_in (Health.today now) additional_info).
    split; [apply new_check_in_date |].
    rewrite Hafter. cbn [Health.habits].
    now rewrite dict_get_set, String.eqb_refl.
  - exists (counted (milestone_at user habit_name) week_count).
    rewrite Hafter. cbn [Health.milestones].
    now rewrite dict_get_set, String.eqb_refl.
Qed.

Lemma log_habit_counts_witness :
  fst (Health.log_habit (S := Latin1.str_methods) january_2026
                        "user_123" "gym" "" Health.MOCK_DB)
  = "✅ " ++ @upper Latin1.str_methods "gym" ++ " logged!" ++ nl
    ++ "💪" ++ " " ++ ("1" ++ "/" ++ "3" ++ " completed this week") ++ nl
    ++ "📊 Details: " ++ "Completed".
Proof.
  exact (proj1 (proj2 (log_habit_counts Latin1.str_methods january_2026
                         "user_123" "gym" "" Health.MOCK_DB 0%Z
                         eq_refl eq_refl eq_refl eq_refl))).
Defined.

Section HealthFrame.

Import Health.

Context {S : PyStr} {F : PyFloat} {A : Finance.PyArith}.

(** A computation that leaves [MOCK_DB] alone once the user is on file,
    whether it returns or raises. *)
Definition still {T : Type} (user_id : string) (m : St T) : Prop :=
  forall stored user,
    Assistant.dict_get stored user_id = Some user -> snd (m stored) = stored.

Lemma still_ret {T : Type} (user_id : string) (t : T) : still user_id (ret t).
Proof. now intros stored user _. Qed.

Lemma still_lift {T : Type} (user_id : string) (r : result T) :
  still user_id (lift r).
Proof. now intros stored user _. Qed.

Lemma still_bind {T U : Type} (user_id : string) (m : St T) (k : T -> St U) :
  still user_id m -> (forall t, still user_id (k t)) -> still user_id (mbind m k).
Proof.
  intros Hm Hk stored user Hget. unfold mbind.
  specialize (Hm stored user Hget).
  destruct (m stored) as [[t | e] stored']; simpl in Hm; subst stored'.
  - exact (Hk t stored user Hget).
  - reflexivity.
Qed.

Ltac still :=
  repeat first
    [ apply still_ret
    | apply still_lift
    | apply still_bind; [| intro]
    | match goal with
      | |- still _ (match ?x with _ => _ end) => destruct x
      end
    | progress cbv zeta ].

(** A tool that looks the user up and is still from there on changes
    [MOCK_DB] as the look-up does. *)
Lemma met_only (prefix user_id : string) (k : user_db -> St string) (stored : db) :
  (forall user, still user_id (k user)) ->
  snd (catching prefix (mbind (_get_user_db user_id) k) stored)
  = met stored user_id.
Proof.
  intro Hk. unfold catching, mbind. rewrite health_user_db_spec.
  specialize (Hk (habits_of stored user_id) _ _ (dict_get_met stored user_id)).
  destruct (k (habits_of stored user_id) (met stored user_id)) as [[text | e] stored'];
    exact Hk.
Qed.

Lemma check_habit_progress_frame (now : Clock) (user_id : string)
      (habit_name : option string) (stored : db) :
  snd (check_habit_progress now user_id habit_name stored) = met stored user_id.
Proof. apply met_only. intro user. still. Qed.

Lemma get_health_summary_frame (now : Clock) (user_id : string) (stored : db) :
  snd (get_health_summary now user_id stored) = met stored user_id.
Proof. apply met_only. intro user. still. Qed.

Lemma get_habit_motivation_frame (user_id : string) (habit_name : option string)
      (stored : db) :
  snd (get_habit_motivation user_id habit_name stored) = met stored user_id.
Proof. apply met_only. intro user. still. Qed.

End HealthFrame.

Section HealthCalls.

Import Health.

Context {S : PyStr} {F : PyFloat} {A : Finance.PyArith}.

(** A call of one of the four habit tools, with the clock at that time. *)
Inductive habit_call : Type :=
| LogHabit (now : Clock) (user_id habit_name additional_info : string)
| CheckHabitProgress (now : Clock) (user_id : string) (habit_name : option string)
| GetHealthSummary (now : Clock) (user_id : string)
| GetHabitMotivation (user_id : string) (habit_name : option string).

Definition perform_habit (c : habit_call) : db -> string * db :=
  match c with
  | LogHabit now user_id habit_name additional_info =>
      log_habit now user_id habit_name additional_info
  | CheckHabitProgress now user_id habit_name =>
      check_habit_progress now user_id habit_name
  | GetHealthSummary now user_id => get_health_summary now user_id
  | GetHabitMotivation user_id habit_name =>
      get_habit_motivation user_id habit_name
  end.

Fixpoint perform_habits (calls : list habit_call) (stored : db) : db :=
  match calls with
  | [] => stored
  | c :: rest => perform_habits rest (snd (perform_habit c stored))
  end.

Definition habit_ok (entry : string * habit) : Prop :=
  str_in (fst entry) valid_habits = true
  /\ NoDup (map check_in_date (check_ins (snd entry))).

Definition milestone_ok (entry : string * milestone) : Prop :=
  (streak_or (streak_current (snd entry)) 0
   <= streak_or (streak_best (snd entry)) 0)%Z.

Record tidy (user : user_db) : Prop := {
  habits_ok : Forall habit_ok (habits user);
  milestones_ok : Forall milestone_ok (milestones user)
}.

Lemma Forall_dict_set {V : Type} (P : string * V -> Prop)
      (d : Assistant.dict V) (k : string) (v : V) :
  Forall P d -> P (k, v) -> Forall P (Assistant.dict_set d k v).
Proof.
  intros Hd Hv. induction Hd as [| [k0 v0] rest H0 Hrest IH]; simpl.
  - now constructor.
  - destruct (String.eqb_spec k0 k) as [-> | _]; now constructor.
Qed.

Lemma Forall_dict_get {V : Type} (P : string * V -> Prop)
      (d : Assistant.dict V) (k : string) (v : V) :
  Forall P d -> Assistant.dict_get d k = Some v -> P (k, v).
Proof.
  induction 1 as [| [k0 v0] rest H0 _ IH]; simpl; [discriminate |].
  destruct (String.eqb_spec k0 k) as [-> | _]; [now intros [= <-] | exact IH].
Qed.

Lemma NoDup_last {T : Type} (xs : list T) (x : T) :
  NoDup xs -> ~ In x xs -> NoDup (xs ++ [x]).
Proof.
  intros Hnd Hx. apply NoDup_app; [exact Hnd | repeat constructor; intros [] |].
  intros y Hy [<- | []]. now apply Hx.
Qed.

Lemma tidy_MOCK_DB (user_id : string) : tidy (habits_of MOCK_DB user_id).
Proof.
  unfold habits_of, MOCK_DB. cbn [Assistant.dict_get].
  destruct (String.eqb "user_123" user_id).
  - split; cbn [habits milestones].
    + repeat constructor; cbn; intuition discriminate.
    + repeat constructor; unfold milestone_ok; cbn; lia.
  - split; constructor.
Qed.

(** What [log_habit] leaves on file in each of its outcomes. *)
Lemma log_habit_outcomes (now : Clock) (user_id habit_name additional_info : string)
      (stored : db) :
  let user := habits_of stored user_id in
  let h := habit_at user habit_name in
  snd (log_habit now user_id habit_name additional_info stored) = met stored user_id
  \/ (str_in habit_name valid_habits = true
      /\ exists user_habits user_milestones,
           snd (log_habit now user_id habit_name additional_info stored)
           = Assistant.dict_set (met stored user_id) user_id
                                {| habits := user_habits;
                                   milestones := user_milestones |}
           /\ (user_habits = habits_with user habit_name
               \/ (str_in (today now) (map check_in_date (check_ins h)) = false
                   /\ user_habits
                      = Assistant.dict_set
                          (habits_with user habit_name) habit_name
                          (logged h (today now) additional_info)))
           /\ (user_milestones = milestones user
               \/ exists week_count,
                    user_milestones
                    = Assistant.dict_set
                        (milestones_with user habit_name) habit_name
                        (counted (milestone_at user habit_name) week_count))).
Proof.
  intros user h.
  destruct (str_in habit_name valid_habits) eqn:Hvalid.
  - right. split; [reflexivity |].
    destruct (str_in (today now) (map check_in_date (check_ins h))) eqn:Hin.
    + rewrite (log_habit_already now user_id habit_name additional_info stored
                                 Hvalid Hin).
      cbn [snd]. fold user. eexists. eexists.
      split; [reflexivity | split; now left].
    + destruct (_count_week_check_ins
                  now (check_ins (logged h (today now) additional_info)))
        as [week_count | e] eqn:Hcount.
      * rewrite (log_habit_success now user_id habit_name additional_info stored
                                   week_count Hvalid Hin Hcount).
        cbn [snd]. fold user. fold h. eexists. eexists.
        split; [reflexivity | split; right; [now split | now exists week_count]].
      * unfold log_habit, catching, log_habit_try, mbind.
        rewrite health_user_db_spec. fold user. rewrite Hvalid.
        cbn [negb]. cbv zeta.
        change (match Assistant.dict_get (habits user) habit_name with
                | Some _ => habits user
                | None =>
                    Assistant.dict_set (habits user) habit_name
                      {| target := 3; unit := "times_per_week";
                         check_ins := [] |}
                end) with (habits_with user habit_name).
        unfold store. rewrite habits_with_get. fold h. rewrite Hin.
        fold (new_check_in (today now) additional_info).
        fold (logged h (today now) additional_info).
        rewrite dict_set_set. unfold lift. rewrite Hcount. cbn [snd].
        eexists. eexists.
        split; [reflexivity | split; [right; now split | now left]].
  - left. unfold log_habit, catching, log_habit_try, mbind.
    rewrite health_user_db_spec. now rewrite Hvalid.
Qed.

End HealthCalls.

Section HealthInvariant.

Import Health.

Context {S : PyStr} {F : PyFloat} {A : Finance.PyArith}.

Lemma habits_with_ok (user : user_db) (habit_name : string) :
  str_in habit_name valid_habits = true ->
  Forall habit_ok (habits user) ->
  Forall habit_ok (habits_with user habit_name).
Proof.
  intros Hvalid Hok. unfold habits_with.
  destruct (Assistant.dict_get (habits user) habit_name); [exact Hok |].
  apply Forall_dict_set; [exact Hok |].
  split; [exact Hvalid | constructor].
Qed.

Lemma habit_at_ok (user : user_db) (habit_name : string) :
  Forall habit_ok (habits user) ->
  NoDup (map check_in_date (check_ins (habit_at user habit_name))).
Proof.
  intro Hok. unfold habit_at.
  destruct (Assistant.dict_get (habits user) habit_name) as [h |] eqn:Hget;
    [| constructor].
  exact (proj2 (Forall_dict_get habit_ok _ _ _ Hok Hget)).
Qed.

Lemma milestones_with_ok (user : user_db) (habit_name : string) :
  Forall milestone_ok (milestones user) ->
  Forall milestone_ok (milestones_with user habit_name).
Proof.
  intro Hok. unfold milestones_with.
  destruct (Assistant.dict_get (milestones user) habit_name); [exact Hok |].
  apply Forall_dict_set; [exact Hok |]. unfold milestone_ok. cbn. lia.
Qed.

Lemma log_habit_tidy (now : Clock) (user_id habit_name additional_info : string)
      (stored : db) :
  (forall u, tidy (habits_of stored u)) ->
  forall u,
    tidy (habits_of (snd (log_habit now user_id habit_name additional_info stored))
                    u).
Proof.
  intros Hs u.
  destruct (log_habit_outcomes now user_id habit_name additional_info stored)
    as [-> | [Hvalid [hs [ms [-> [Hhs Hms]]]]]].
  - rewrite habits_of_met. apply Hs.
  - rewrite habits_of_set.
    destruct (String.eqb user_id u); [| rewrite habits_of_met; apply Hs].
    destruct (Hs user_id) as [Hh Hm]. split; cbn [habits milestones].
    + destruct Hhs as [-> | [Hin ->]].
      * now apply habits_with_ok.
      * apply Forall_dict_set; [now apply habits_with_ok |].
        split; [exact Hvalid |]. cbn [snd logged check_ins].
        rewrite map_app. cbn [map]. rewrite new_check_in_date.
        apply NoDup_last; [now apply habit_at_ok |].
        intro Hc. apply str_in_In in Hc. congruence.
    + destruct Hms as [-> | [week_count ->]]; [exact Hm |].
      apply Forall_dict_set; [now apply milestones_with_ok |].
      unfold milestone_ok. cbn. lia.
Qed.

Lemma perform_habit_tidy (c : habit_call) (stored : db) :
  (forall u, tidy (habits_of stored u)) ->
  forall u, tidy (habits_of (snd (perform_habit c stored)) u).
Proof.
  intros Hs u.
  destruct c as [now user_id habit_name additional_info
                | now user_id habit_name | now user_id | user_id habit_name];
    cbn [perform_habit].
  - now apply log_habit_tidy.
  - rewrite check_habit_progress_frame, habits_of_met. apply Hs.
  - rewrite get_health_summary_frame, habits_of_met. apply Hs.
  - rewrite get_habit_motivation_frame, habits_of_met. apply Hs.
Qed.

Lemma perform_habits_tidy (calls : list habit_call) :
  forall stored,
    (forall u, tidy (habits_of stored u)) ->
    forall u, tidy (habits_of (perform_habits calls stored) u).
Proof.
  induction calls as [| c rest IH]; intros stored Hs; [exact Hs |].
  cbn [perform_habits]. apply IH. now apply perform_habit_tidy.
Qed.

End HealthInvariant.

(** X28: an invariant of the habit tools.  After any series of calls of the
    four tools, at any times, starting from the [MOCK_DB] of the module,
    for every user: each habit on file is one of the six [log_habit]
    accepts and has no two check-ins with the same date, and in each
    milestone the current streak, 0 when not set, is at most the best
    streak, 0 when not set. *)
Theorem habits_stay_tidy :
  forall (S : PyStr) (F : PyFloat) (A : Finance.PyArith)
         (calls : list habit_call) (user_id : string),
    let user := habits_of (perform_habits calls Health.MOCK_DB) user_id in
    Forall (fun entry =>
              str_in (fst entry) Health.valid_habits = true
              /\ NoDup (map Health.check_in_date (Health.check_ins (snd entry))))
           (Health.habits user)
    /\ Forall (fun entry =>
                 (Health.streak_or (Health.streak_current (snd entry)) 0
                  <= Health.streak_or (Health.streak_best (snd entry)) 0)%Z)
              (Health.milestones user).
Proof.
  intros S F A calls user_id user.
  destruct (perform_habits_tidy calls Health.MOCK_DB tidy_MOCK_DB user_id)
    as [Hh Hm].
  split; [exact Hh | exact Hm].
Qed.

(** X29: the three habit tools that report never change what is on file,
    whether they answer or fail.  [check_habit_progress],
    [get_health_summary] and [get_habit_motivation] leave [MOCK_DB] as it
    is for a user on file; an unknown user is entered with no habits and no
    milestones; nobody else's record changes.  The same holds of
    [log_habit] for a habit outside its six. *)
Theorem habit_reports_change_nothing :
  forall (S : PyStr) (F : PyFloat) (A : Finance.PyArith) (now : Health.Clock)
         (user_id habit_name additional_info : string)
         (only : option string) (stored : Health.db),
    let looked_up := snd (Health._get_user_db user_id stored) in
    snd (Health.check_habit_progress now user_id only stored) = looked_up
    /\ snd (Health.get_health_summary now user_id stored) = looked_up
    /\ snd (Health.get_habit_motivation user_id only stored) = looked_up
    /\ (str_in habit_name Health.valid_habits = false ->
        Health.log_habit now user_id habit_name additional_info stored
        = ("❌ Invalid habit '" ++ habit_name ++ "'. Valid: "
           ++ "gym, reading, meditation, sleep, water, coding",
           looked_up))
    /\ (Assistant.dict_get stored user_id <> None -> looked_up = stored)
    /\ (forall other,
          other <> user_id ->
          Assistant.dict_get looked_up other = Assistant.dict_get stored other)
    /\ (Assistant.dict_get stored user_id = None ->
        Assistant.dict_get looked_up user_id
        = Some {| Health.habits := []; Health.milestones := [] |}).
Proof.
  intros S F A now user_id habit_name additional_info only stored looked_up.
  unfold looked_up.
  rewrite check_habit_progress_frame, get_health_summary_frame,
    get_habit_motivation_frame, health_user_db_spec. cbn [snd].
  repeat split.
  - intro Hinvalid. unfold Health.log_habit, Health.catching,
      Health.log_habit_try, Health.mbind.
    rewrite health_user_db_spec. now rewrite Hinvalid.
  - destruct (Assistant.dict_get stored user_id) as [user |] eqn:H;
      [intros _ | intro Hn; now elim Hn].
    exact (met_known stored user_id user H).
  - intros other Hne. unfold met.
    destruct (Assistant.dict_get stored user_id); [reflexivity |].
    rewrite dict_get_set.
    destruct (String.eqb_spec user_id other) as [<- | _];
      [now elim Hne | reflexivity].
  - intro Hnone. rewrite dict_get_met. unfold habits_of. now rewrite Hnone.
Qed.

(** X30: what [log_habit] writes, [check_habit_progress] reads.  Right
    after a check-in that was accepted, under the conditions of X27, the
    progress report for that habit shows [earlier + 1] for this week against
    the target, the same number as the current streak, the greater of it and
    the best on file as the best streak, and one more than before as the
    total logged; its status is one of the three for a week with check-ins,
    never "Time to start!"; and the report changes nothing. *)
Theorem progress_after_check_in :
  forall (S : PyStr) (F : PyFloat) (A : Finance.PyArith) (now : Health.Clock)
         (user_id habit_name additional_info : string)
         (stored : Health.db) (earlier : Z),
    let user := habits_of stored user_id in
    let h := habit_at user habit_name in
    str_in habit_name Health.valid_habits = true ->
    str_in (Health.today now)
           (map Health.check_in_date (Health.check_ins h)) = false ->
    Health._count_week_check_ins now (Health.check_ins h) = Ok earlier ->
    Health.this_week now (Health.today now) = Ok true ->
    let week_count := (earlier + 1)%Z in
    let best :=
      Z.max (Health.streak_or (Health.streak_best (milestone_at user habit_name)) 0)
            week_count in
    let evaluation :=
      if (Health.target h <=? week_count)%Z then ("🌟", "EXCELLENT!")
      else if Finance.fle (fmul (float_of_Z (Health.target h)) (flit 0.7))
                          (float_of_Z week_count)
      then ("😊", "Good progress!")
      else ("💪", "Keep going!") in
    let after :=
      snd (Health.log_habit now user_id habit_name additional_info stored) in
    Health.check_habit_progress now user_id (Some habit_name) after
    = ("📊 " ++ upper habit_name ++ " PROGRESS" ++ nl
       ++ repeat_str "=" 40 ++ nl
       ++ "This Week: " ++ str_of_Z week_count ++ "/"
       ++ str_of_Z (Health.target h) ++ " " ++ fst evaluation ++ nl
       ++ "Status: " ++ snd evaluation ++ nl
       ++ "Current Streak: " ++ str_of_Z week_count ++ " days" ++ nl
       ++ "Best Streak: " ++ str_of_Z best ++ " days" ++ nl
       ++ "Total Logged: "
       ++ str_of_nat (length (Health.check_ins h) + 1) ++ " times",
       after).
Proof.
  intros S F A now user_id habit_name additional_info stored earlier user h
         Hvalid Hin Hearlier Htoday week_count best evaluation after.
  assert (Hpos : (1 <= week_count)%Z).
  { unfold Health._count_week_check_ins in Hearlier.
    apply count_from_mono in Hearlier. unfold week_count. lia. }
  assert (Hcount : Health._count_week_check_ins
                     now (Health.check_ins
                            (logged h (Health.today now) additional_info))
                   = Ok week_count).
  { unfold Health._count_week_check_ins in *. cbn [logged Health.check_ins].
    rewrite count_from_last, Hearlier. cbn [bind].
    now rewrite new_check_in_date, Htoday. }
  pose proof (log_habit_success now user_id habit_name additional_info stored
                                week_count Hvalid Hin Hcount) as Hlog.
  fold user in Hlog. fold h in Hlog.
  set (user' := {| Health.habits :=
                     Assistant.dict_set
                       (habits_with user habit_name) habit_name
                       (logged h (Health.today now) additional_info);
                   Health.milestones :=
                     Assistant.dict_set
                       (milestones_with user habit_name) habit_name
                       (counted (milestone_at user habit_name) week_count) |})
    in Hlog.
  assert (Hafter : after = Assistant.dict_set (met stored user_id) user_id user')
    by (unfold after; now rewrite Hlog).
  assert (Hon : Assistant.dict_get after user_id = Some user')
    by (rewrite Hafter; now rewrite dict_get_set, String.eqb_refl).
  destruct habit_name as [| c rest]; [discriminate Hvalid |].
  unfold Health.check_habit_progress, Health.catching,
    Health.check_habit_progress_try, Health.mbind.
  rewrite health_user_db_spec.
  replace (habits_of after user_id) with user'
    by (unfold habits_of; now rewrite Hon).
  rewrite (met_known after user_id user' Hon).
  destruct (Health.habits user') as [| entry others] eqn:Hhabits;
    [now apply dict_set_nonempty in Hhabits |].
  rewrite <- Hhabits. rewrite Hvalid. cbn [negb].
  assert (Hget : Assistant.dict_get (Health.habits user') (String c rest)
                 = Some (logged h (Health.today now) additional_info))
    by (cbn [user' Health.habits]; now rewrite dict_get_set, String.eqb_refl).
  rewrite Hget. cbv zeta. unfold Health.lift. rewrite Hcount.
  unfold Health.ret, Health.streak_of.
  cbn [user' Health.milestones]. rewrite dict_get_set, String.eqb_refl.
  cbn [counted Health.streak_current Health.streak_best Health.streak_or
       logged Health.target Health.check_ins].
  rewrite length_app. cbn [length].
  fold week_count. fold best. unfold evaluation.
  destruct (Health.target h <=? week_count)%Z; [reflexivity |].
  destruct (Finance.fle _ _); [reflexivity |].
  replace (0 <? week_count)%Z with true by (symmetry; apply Z.ltb_lt; lia).
  reflexivity.
Qed.

Lemma progress_after_check_in_witness :
  let after :=
    snd (Health.log_habit (S := Latin1.str_methods) january_2026
                          "user_123" "gym" "" Health.MOCK_DB) in
  snd (Health.check_habit_progress (S := Latin1.str_methods) (A := exact_arith)
                                   january_2026 "user_123" (Some "gym") after)
  = after.
Proof.
  exact (f_equal snd
           (progress_after_check_in
              Latin1.str_methods Exact.floats exact_arith january_2026
              "user_123" "gym" "" Health.MOCK_DB 0%Z
              eq_refl eq_refl eq_refl eq_refl)).
Defined.
